(** * ytdpl.py: the download-attempt supervisor

    A shallow embedding of the control logic of [src/ytdpl.py]: the
    credential pool ([get_next_chromium_profile]), the cookie inspector
    ([analyze_profile_cookies], [verify_platform_cookies]), the per-line
    tests of the streamed yt-dlp output, and the three retry loops
    [download_video_direct], [download_audio_direct] and
    [download_subtitles_direct].

    Text is modelled as [string], the UTF-8 encoding of the text as a
    sequence of 8-bit characters, and [Str.lower] changes the letters A-Z
    only.  Python's [str.lower] changes capitals outside ASCII too; two of
    them yield an ASCII letter: U+212A (KELVIN SIGN) becomes k, and U+0130
    becomes i followed by a combining dot.  No phrase searched for in the
    output of yt-dlp contains a k or ends in an i, so for these tests the
    two functions agree on every text; for the keyword [tiktok.com] and the
    suffix [.mkv] they agree on every text without the Kelvin sign.

    Module-level globals are threaded as explicit state, exceptions as an
    error result, and everything the script does to the outside (child
    processes, terminal, browser) is recorded as a trace of events.  The
    exceptions followed are those of the script's own control flow: a child
    that cannot be started, an index outside the pool, a browser that
    cannot be started, a profile that cannot be copied, a database that
    cannot be read.  The directory listings, [stat], [os.makedirs] and the
    reading and echoing of a child's output are followed where they
    return; [get_next_chromium_profile_fs] is the credential pool with an
    [os.makedirs] that may raise. *)

From Stdlib Require Import ZArith Ascii.
From stdpp Require Import base decidable option list sorting strings pretty gmap.

Local Open Scope Z_scope.

(** ** Python string primitives *)

Module Str.

Definition lower_ascii (c : ascii) : ascii :=
  let n := N_of_ascii c in
  if ((65 <=? n) && (n <=? 90))%N then ascii_of_N (n + 32) else c.

(** [s.lower()] *)
Fixpoint lower (s : string) : string :=
  match s with
  | EmptyString => EmptyString
  | String c s' => String (lower_ascii c) (lower s')
  end.

(** [s.startswith(k)] *)
Fixpoint startswith (k s : string) : bool :=
  match k, s with
  | EmptyString, _ => true
  | String a k', String b s' => if decide (a = b) then startswith k' s' else false
  | String _ _, EmptyString => false
  end.

(** [k in s] *)
Fixpoint contains (k s : string) : bool :=
  startswith k s ||
  match s with
  | EmptyString => false
  | String _ s' => contains k s'
  end.

(** [any(k in s for k in ks)] *)
Definition any_in (ks : list string) (s : string) : bool :=
  existsb (fun k => contains k s) ks.

(** ["".join(ls)] *)
Definition join (ls : list string) : string :=
  foldr String.append EmptyString ls.

(** [s.rfind(c)] as the suffix of [s] that starts at the last [c], with the
    number of characters before it; [None] when [c] does not occur. *)
Fixpoint rsplit_at (c : ascii) (s : string) : option (nat * string) :=
  match s with
  | EmptyString => None
  | String a s' =>
      match rsplit_at c s' with
      | Some (i, t) => Some (S i, t)
      | None => if decide (a = c) then Some (0%nat, s) else None
      end
  end.

End Str.

(** ** pathlib *)

Module PurePath.

(** [Path(p).name]: the final component. *)
Definition name (p : string) : string :=
  match Str.rsplit_at "/"%char p with
  | Some (_, String _ t) => t
  | Some (_, EmptyString) => EmptyString
  | None => p
  end.

(** [Path(p).suffix]: the part of the name from its last dot, unless that
    dot is the first or the last character of the name. *)
Definition suffix (p : string) : string :=
  let n := name p in
  match Str.rsplit_at "."%char n with
  | Some (i, t) =>
      if bool_decide (0 < i)%nat && bool_decide (i < String.length n - 1)%nat
      then t else EmptyString
  | None => EmptyString
  end.

(** [base / child] *)
Definition joinpath (base child : string) : string :=
  base +:+ "/" +:+ child.

End PurePath.

Infix "//" := PurePath.joinpath (at level 40, left associativity).

(** ** The outside world

    What the script reads from its environment.  The child started by the
    attempt with index [k] is [yt_dlp k]: the lines it writes (finitely
    many) and the exit status [wait] reports, which may depend on whether
    [terminate] was called.  [None] stands for [Popen] raising, with the
    exception [popen_error k].  [glob dir pattern m] is the listing
    [dir.glob(pattern)] yields at moment [m], in the order it yields it;
    [chromium_browser] and [cookie_sync] hold the exception, if any, that
    starting the browser and copying its profile raise. *)

Inductive exn :=
| IndexError
| OSError (message : string).

Definition exn_str (e : exn) : string :=
  match e with
  | IndexError => "list index out of range"
  | OSError m => m
  end.

Record child := {
  stdout : list string;
  returncode : bool -> Z;
}.

Inductive moment :=
| AtStart
| AfterAttempt (attempt : nat).

Inductive sqlite_file :=
| NotADatabase
| Database (cookies : option (list (string * Z))).

Inductive fs_entry :=
| Absent
| RegularFile (st_size : Z) (content : sqlite_file).

Record World := {
  USER_HOME : string;
  PROJECT_DIR : string;
  sys_executable : string;
  yt_dlp : nat -> option child;
  glob : string -> string -> moment -> list string;
  st_mtime : string -> Z;
  video_title : string;
  dir_exists : string -> bool;
  file_at : string -> fs_entry;
  popen_error : nat -> exn;
  chromium_browser : option exn;
  cookie_sync : option exn;
}.

(** ** Events, globals and the supervisor monad *)

Inductive event :=
| Print (text : string)
| PrintStatus (message status : string)
| Makedirs (path : string)
| Popen (pid : nat) (command : list string)
| ReadLine (pid : nat) (line : string)
| StdoutWrite (line : string)
| Sleep (seconds : Z)
| Terminate (pid : nat)
| Wait (pid : nat)
| PopenBrowser (command : list string)
| Input (prompt : string)
| SyncCookies (profile_dir : string)
| Run (command : list string).

Inductive result (A : Type) :=
| Ok (a : A)
| Raised (e : exn).

Arguments Ok {A} a.
Arguments Raised {A} e.

Record Globals := {
  CHROMIUM_PROFILES : list string;
  CURRENT_PROFILE_INDEX : nat;
}.

Definition M (A : Type) : Type := Globals -> result A * Globals * list event.

Definition ret {A} (a : A) : M A := fun g => (Ok a, g, []).

Definition bind {A B} (m : M A) (f : A -> M B) : M B := fun g =>
  match m g with
  | (Ok a, g1, t1) => let '(r, g2, t2) := f a g1 in (r, g2, t1 ++ t2)
  | (Raised e, g1, t1) => (Raised e, g1, t1)
  end.

Definition emit (e : event) : M unit := fun g => (Ok tt, g, [e]).

Definition raise {A} (e : exn) : M A := fun g => (Raised e, g, []).

Definition try_except {A} (m : M A) (handler : exn -> M A) : M A := fun g =>
  match m g with
  | (Ok a, g1, t1) => (Ok a, g1, t1)
  | (Raised e, g1, t1) => let '(r, g2, t2) := handler e g1 in (r, g2, t1 ++ t2)
  end.

Definition get_globals : M Globals := fun g => (Ok g, g, []).

Definition set_CURRENT_PROFILE_INDEX (i : nat) : M unit := fun g =>
  (Ok tt, {| CHROMIUM_PROFILES := CHROMIUM_PROFILES g; CURRENT_PROFILE_INDEX := i |}, []).

Definition append_CHROMIUM_PROFILES (p : string) : M unit := fun g =>
  (Ok tt, {| CHROMIUM_PROFILES := CHROMIUM_PROFILES g ++ [p];
             CURRENT_PROFILE_INDEX := CURRENT_PROFILE_INDEX g |}, []).

Declare Scope py_scope.
Delimit Scope py_scope with py.
Notation "x <- m ;; k" := (bind m (fun x => k))
  (at level 100, m at next level, right associativity) : py_scope.
Notation "m ;; k" := (bind m (fun _ => k))
  (at level 100, right associativity) : py_scope.
Local Open Scope py_scope.

(** The three ways a [for] body hands control back, and the three ways the
    loop is left. *)
Inductive ctl (A : Type) :=
| Continue
| Break
| Return (v : A).

Arguments Continue {A}.
Arguments Break {A}.
Arguments Return {A} v.

Inductive loop_exit (A : Type) :=
| Exhausted
| Broke (attempt : nat)
| Returned (attempt : nat) (v : A).

Arguments Exhausted {A}.
Arguments Broke {A} attempt.
Arguments Returned {A} attempt v.

(** [for attempt in range(attempt, attempt + n): body] *)
Fixpoint for_range {A} (body : nat -> M (ctl A)) (n attempt : nat) : M (loop_exit A) :=
  match n with
  | O => ret Exhausted
  | S n' =>
      c <- body attempt ;;
      match c with
      | Continue => for_range body n' (S attempt)
      | Break => ret (Broke attempt)
      | Return v => ret (Returned attempt v)
      end
  end.

(** [for x in xs: body x] for a body that neither breaks nor returns. *)
Fixpoint for_each {A} (body : A -> M unit) (xs : list A) : M unit :=
  match xs with
  | [] => ret tt
  | x :: xs' => body x ;; for_each body xs'
  end.

Definition print_status (message status : string) : M unit :=
  emit (PrintStatus message status).

Inductive platform :=
| YouTube
| TikTok
| Desconocida.

Global Instance platform_eq_dec : EqDecision platform.
Proof. solve_decision. Defined.

Definition platform_str (p : platform) : string :=
  match p with
  | YouTube => "YouTube"
  | TikTok => "TikTok"
  | Desconocida => "Desconocida"
  end.

Definition detect_platform (url : string) : platform :=
  let url_lower := Str.lower url in
  if Str.contains "youtube.com" url_lower || Str.contains "youtu.be" url_lower then YouTube
  else if Str.contains "tiktok.com" url_lower then TikTok
  else Desconocida.

Module Colors.
Definition esc (code : string) : string := String "027"%char code.
Definition RED := esc "[1;31m".
Definition GREEN := esc "[1;32m".
Definition YELLOW := esc "[1;33m".
Definition MAGENTA := esc "[1;35m".
Definition CYAN := esc "[1;36m".
Definition RESET := esc "[0m".
End Colors.

Definition nl : string := String "010"%char EmptyString.

(** ** Keyword tables (the list literals of the three download functions) *)

Definition rate_limit_phrase : string := "rate-limited by youtube".

Definition error_marker : string := "error:".

Definition block_phrases : list string :=
  ["sign in to confirm"; "not a bot"; "captcha"; "verify you are human"; "403 forbidden"].

Definition privacy_phrases : list string :=
  ["sign in"; "private"; "age-restricted"; "login"; "members-only"].

Definition video_suffixes : list string := [".mp4"; ".mkv"; ".webm"; ".flv"; ".mov"].

Definition max_retries : nat := 10.

(** The two tests the streaming loop applies to [line.lower()]. *)
Definition is_rate_limited (line : string) : bool :=
  let line_lower := Str.lower line in
  Str.contains rate_limit_phrase line_lower.

Definition is_hard_block (line : string) : bool :=
  let line_lower := Str.lower line in
  Str.contains error_marker line_lower && Str.any_in block_phrases line_lower.

(** The signals one streamed line raises, in the order the loop body acts on
    them; no signal is a normal line. *)
Inductive ClassificationSignal :=
| RateLimited
| HardBlocked
| Normal.

Global Instance ClassificationSignal_eq_dec : EqDecision ClassificationSignal.
Proof. solve_decision. Defined.

Definition line_signals (line : string) : list ClassificationSignal :=
  (if is_rate_limited line then [RateLimited] else []) ++
  (if is_hard_block line then [HardBlocked] else []).

Definition classify (line : string) : list ClassificationSignal :=
  match line_signals line with
  | [] => [Normal]
  | sigs => sigs
  end.

(** ** Sorting and set difference of directory listings *)

(** [l.sort(key=key)]: stable, ascending. *)
Fixpoint insert_by (key : string -> Z) (x : string) (l : list string) : list string :=
  match l with
  | [] => [x]
  | y :: l' => if bool_decide (key x <= key y) then x :: y :: l' else y :: insert_by key x l'
  end.

Fixpoint sort_by (key : string -> Z) (l : list string) : list string :=
  match l with
  | [] => []
  | x :: l' => insert_by key x (sort_by key l')
  end.

(** [max(l, key=key)]: the first element with the largest key. *)
Fixpoint max_by (key : string -> Z) (l : list string) : option string :=
  match l with
  | [] => None
  | x :: l' =>
      match max_by key l' with
      | Some y => if bool_decide (key x < key y) then Some y else Some x
      | None => Some x
      end
  end.

(** [list(set(current) - existing)]: each new path once.  Python leaves
    the order of a set open; here it is the order of the listing, which
    the stable sort that follows keeps among files of equal [st_mtime]. *)
Definition new_files (existing_files : gset string) (current : list string) : list string :=
  filter (fun f => f ∉ existing_files) (remove_dups current).

Section Script.

Variable w : World.

Definition DOWNLOAD_DIR : string := PROJECT_DIR w // "downloads".
Definition AUDIO_DIR : string := PROJECT_DIR w // "audio".
Definition SUBTITLES_DIR : string := PROJECT_DIR w // "subtitles".

(** ** Credential pool *)

(** [xs[i]]: raises [IndexError] out of range. *)
Definition index (xs : list string) (i : nat) : M string :=
  match xs !! i with
  | Some x => ret x
  | None => raise IndexError
  end.

(** Lines 163-171.  [os.makedirs(path, exist_ok=True)] of line 167 stands
    outside every [try]: when it raises (the path is a regular file, a
    parent directory cannot be written), the exception leaves the function.
    [makedirs path] is that exception, [None] when the call returns. *)
Definition get_next_chromium_profile_fs (makedirs : string -> option exn) : M string :=
  g <- get_globals ;;
  if bool_decide (CHROMIUM_PROFILES g = []) then
    let profile_dir := USER_HOME w // "chromium_data_1" in
    emit (Makedirs (profile_dir // "Default")) ;;
    (if makedirs (profile_dir // "Default") is Some e then raise e else ret tt) ;;
    ret profile_dir
  else
    profile <- index (CHROMIUM_PROFILES g) (CURRENT_PROFILE_INDEX g) ;;
    set_CURRENT_PROFILE_INDEX
      ((CURRENT_PROFILE_INDEX g + 1) mod length (CHROMIUM_PROFILES g))%nat ;;
    ret profile.

(** The same function where [os.makedirs] returns, which is how the
    download functions below are followed. *)
Definition get_next_chromium_profile : M string :=
  g <- get_globals ;;
  if bool_decide (CHROMIUM_PROFILES g = []) then
    let profile_dir := USER_HOME w // "chromium_data_1" in
    emit (Makedirs (profile_dir // "Default")) ;;
    ret profile_dir
  else
    profile <- index (CHROMIUM_PROFILES g) (CURRENT_PROFILE_INDEX g) ;;
    set_CURRENT_PROFILE_INDEX
      ((CURRENT_PROFILE_INDEX g + 1) mod length (CHROMIUM_PROFILES g))%nat ;;
    ret profile.

(** [n] successive calls, with the identities they returned. *)
Fixpoint call_get_next (n : nat) : M (list string) :=
  match n with
  | O => ret []
  | S n' =>
      p <- get_next_chromium_profile ;;
      ps <- call_get_next n' ;;
      ret (p :: ps)
  end.

Fixpoint call_get_next_fs (makedirs : string -> option exn) (n : nat) : M (list string) :=
  match n with
  | O => ret []
  | S n' =>
      p <- get_next_chromium_profile_fs makedirs ;;
      ps <- call_get_next_fs makedirs n' ;;
      ret (p :: ps)
  end.

Definition has_cookie_file (p : string) : bool :=
  match file_at w p with
  | Absent => false
  | RegularFile st_size _ => bool_decide (0 < st_size)
  end.

Definition setup_chromium_profiles : M unit :=
  for_each (fun i : nat =>
      let profile_dir := USER_HOME w // ("chromium_data_" +:+ pretty i) in
      let cookies_file := profile_dir // "chromium" // "Default" // "Cookies" in
      if dir_exists w profile_dir && has_cookie_file cookies_file
      then append_CHROMIUM_PROFILES profile_dir
      else ret tt)
    (seq 1 5) ;;
  g <- get_globals ;;
  if bool_decide (CHROMIUM_PROFILES g <> []) then
    print_status ("Configurados " +:+ pretty (length (CHROMIUM_PROFILES g))
                  +:+ " perfiles con cookies válidas") "success"
  else
    append_CHROMIUM_PROFILES (USER_HOME w // "chromium_data_1").

(** ** Human-intervention gate *)

Definition open_browser_for_login (url : string) : M unit :=
  profile_dir <- get_next_chromium_profile ;;
  emit (Print (Colors.CYAN +:+ "⏫ Abriendo Chromium en WSL2 usando perfil: "
               +:+ profile_dir +:+ Colors.RESET)) ;;
  (match chromium_browser w with
   | None => emit (PopenBrowser ["chromium-browser"; "--user-data-dir=" +:+ profile_dir; url])
   | Some e => print_status ("Error al abrir chromium-browser: " +:+ exn_str e) "error"
   end) ;;
  emit (Print (nl +:+ Colors.YELLOW +:+ "🛠️ Pasos a seguir en el navegador:" +:+ Colors.RESET)) ;;
  emit (Print "1. Inicia sesión, resuelve captchas o asegúrate de que el video carga.") ;;
  emit (Print "2. Si necesitas exportar cookies (para ComfyUI), usa tu extensión 'Get cookies.txt' ahora.") ;;
  emit (Print "3. CIERRA completamente el navegador Chromium cuando termines.") ;;
  emit (Input (nl +:+ Colors.GREEN
               +:+ "👉 Presiona ENTER aquí cuando hayas CERRADO el navegador para continuar..."
               +:+ Colors.RESET)) ;;
  print_status "Sincronizando cookies localmente para yt-dlp..." "processing" ;;
  match cookie_sync w with
  | None =>
      emit (SyncCookies profile_dir) ;;
      print_status "Cookies sincronizadas y listas para usarse." "success"
  | Some e => print_status ("Error sincronizando cookies: " +:+ exn_str e) "warning"
  end.

Definition handle_manual_intervention (url reason : string) : M unit :=
  emit (Print (nl +:+ Colors.RED +:+ "⚠️ ATENCIÓN: " +:+ reason +:+ Colors.RESET)) ;;
  open_browser_for_login url.

(** ** Rate-limit pause: the 1800 one-second sleeps of the countdown. *)

Definition handle_rate_limit_pause : M unit :=
  emit (Print (nl +:+ nl +:+ Colors.RED
               +:+ "🛑 ¡ALERTA DE RATE-LIMIT (Baneo Temporal) DE YOUTUBE!" +:+ Colors.RESET)) ;;
  emit (Print (Colors.YELLOW
               +:+ "Estás descargando videos muy rápido. YouTube ha pausado tu sesión."
               +:+ Colors.RESET)) ;;
  emit (Print (Colors.CYAN
               +:+ "El script congelará la descarga durante 30 minutos para evadir el bloqueo..."
               +:+ Colors.RESET)) ;;
  let total_seconds := 1800 in
  emit (Sleep total_seconds) ;;
  emit (Print (nl +:+ nl +:+ Colors.GREEN +:+ "▶️ Reanudando proceso..." +:+ Colors.RESET +:+ nl)).

(** ** Cookie inspector *)

Definition path_exists (p : string) : bool :=
  match file_at w p with
  | Absent => false
  | RegularFile _ _ => true
  end.

Definition stat_st_size (p : string) : Z :=
  match file_at w p with
  | Absent => 0
  | RegularFile st_size _ => st_size
  end.

(** [host_key LIKE '%domain%']: SQLite's LIKE ignores the case of ASCII
    letters. *)
Definition host_like (domain : string) (row : string * Z) : bool :=
  Str.contains (Str.lower domain) (Str.lower row.1).

(** What SQLite answers from the file at [p] to [SELECT last_access_utc
    FROM cookies WHERE host_key LIKE '%domain%' LIMIT 1] and [fetchone]:
    the first matching row, no row, or an error.  A file of size zero is a
    database without tables. *)
Definition select_cookie (p domain : string) : result (option Z) :=
  match file_at w p with
  | Absent => Raised (OSError "unable to open database file")
  | RegularFile st_size content =>
      if bool_decide (st_size = 0) then Raised (OSError "no such table: cookies")
      else
        match content with
        | NotADatabase => Raised (OSError "file is not a database")
        | Database None => Raised (OSError "no such table: cookies")
        | Database (Some rows) => Ok (snd <$> head (filter (fun r => host_like domain r) rows))
        end
  end.

(** The SQLite library as lines 233-241 call it: [sqlite3 uri sql] is what
    [sqlite3.connect(uri, uri=True, timeout=1)], then [cursor.execute(sql)]
    and [cursor.fetchone()] give, a row, no row or an exception.  Which file
    SQLite opens for a URI is its own matter: the path is pasted into the
    URI as it is, and a [?], [#] or [%] in it is read as URI syntax. *)
Variable sqlite3 : string -> string -> result (option Z).

Definition analyze_profile_cookies (profile_path : string) : gmap string bool :=
  let platforms : gmap string bool := <["YouTube" := false]> (<["TikTok" := false]> ∅) in
  let cookies_db := profile_path // "chromium" // "Default" // "Cookies" in
  let fallback := negb (path_exists cookies_db) || bool_decide (stat_st_size cookies_db = 0) in
  let cookies_db := if fallback then profile_path // "Default" // "Cookies" else cookies_db in
  if fallback && negb (path_exists cookies_db) then platforms
  else
    let conn := sqlite3 ("file:" +:+ cookies_db +:+ "?mode=ro") in
    match conn "SELECT last_access_utc FROM cookies WHERE host_key LIKE '%youtube.com%' LIMIT 1" with
    | Raised _ => platforms
    | Ok row =>
        let platforms := if row is Some _ then <["YouTube" := true]> platforms else platforms in
        match conn "SELECT last_access_utc FROM cookies WHERE host_key LIKE '%tiktok.com%' LIMIT 1" with
        | Raised _ => platforms
        | Ok row =>
            if row is Some _ then <["TikTok" := true]> platforms else platforms
        end
    end.

(** [profiles] is the global [CHROMIUM_PROFILES] at the time of the call. *)
Definition verify_platform_cookies (profiles : list string) (platform : string) : bool :=
  if bool_decide (profiles = []) then false
  else
    existsb (fun profile_path =>
               default false (analyze_profile_cookies profile_path !! platform))
            profiles.

(** ** One attempt *)

(** Lines 287-299: the cookie and client-identity arguments of an attempt. *)
Definition use_cookies (platform : platform) (attempt : nat) : bool :=
  bool_decide (platform = TikTok)
  || (bool_decide (platform = YouTube) && bool_decide (0 < attempt)%nat).

Definition credential_args (platform : platform) (attempt : nat) : M (list string) :=
  if use_cookies platform attempt then
    profile <- get_next_chromium_profile ;;
    if bool_decide (profile <> "") then
      ret (["--cookies-from-browser"; "chromium:" +:+ profile +:+ "/chromium"]
           ++ (if bool_decide (platform = YouTube)
               then ["--extractor-args"; "youtube:player_client=tv_downgraded,web"]
               else []))
    else ret []
  else
    ret (if bool_decide (platform = YouTube)
         then ["--extractor-args"; "youtube:player_client=android,tv"]
         else []).

Definition block_notice : string :=
  nl +:+ Colors.RED
  +:+ "🛑 Bloqueo detectado a mitad de descarga. Pausando proceso para renovar sesión..."
  +:+ Colors.RESET.

(** The body of [for line in proc.stdout], up to the decision to [break]. *)
Definition on_line (pid : nat) (line : string) : M bool :=
  emit (ReadLine pid line) ;;
  emit (StdoutWrite line) ;;
  (if is_rate_limited line then handle_rate_limit_pause else ret tt) ;;
  if is_hard_block line then
    emit (Print block_notice) ;;
    emit (Terminate pid) ;;
    ret true
  else ret false.

(** [for line in proc.stdout: ...] with the lines still to come; the
    result is [output_lines] and [killed_by_block].  Reading a line and
    echoing it return: in Python a line that cannot be decoded, or a
    terminal that cannot be written, raises and takes the attempt to its
    [except] past [proc.wait()]. *)
Fixpoint stream_output (pid : nat) (lines output_lines : list string)
    : M (list string * bool) :=
  match lines with
  | [] => ret (output_lines, false)
  | line :: rest =>
      stop <- on_line pid line ;;
      let output_lines := output_lines ++ [line] in
      if stop then ret (output_lines, true)
      else stream_output pid rest output_lines
  end.

Record attempt_state := {
  proc_returncode : Z;
  killed_by_block : bool;
  output : string;
}.

(** From [Popen] to [output = "".join(output_lines)]. *)
Definition run_child (attempt : nat) (command : list string) : M attempt_state :=
  emit (Print (nl +:+ Colors.MAGENTA +:+ "--- Registro de yt-dlp ---" +:+ Colors.RESET)) ;;
  match yt_dlp w attempt with
  | None => raise (popen_error w attempt)
  | Some proc =>
      emit (Popen attempt command) ;;
      r <- stream_output attempt (stdout proc) [] ;;
      emit (Wait attempt) ;;
      emit (Print (Colors.MAGENTA +:+ "--------------------------" +:+ Colors.RESET +:+ nl)) ;;
      ret {| proc_returncode := returncode proc r.2;
             killed_by_block := r.2;
             output := Str.join r.1 |}
  end.

(** The success test of every path. *)
Definition attempt_ok (st : attempt_state) : bool :=
  bool_decide (proc_returncode st = 0) && negb (killed_by_block st).

(** The failure branch shared by the three loops; [restricted_msg] is the
    warning the video and audio paths print before the cookie retry. *)
Definition on_failure {A} (platform : platform) (url : string) (attempt : nat)
    (st : attempt_state) (restricted_msg : option string) (failure : M unit) : M (ctl A) :=
  let error_msg := Str.lower (output st) in
  if bool_decide (attempt = 0%nat) && bool_decide (platform = YouTube)
     && Str.any_in privacy_phrases error_msg then
    (if restricted_msg is Some m then print_status m "warning" else ret tt) ;;
    ret Continue
  else if Str.any_in block_phrases error_msg && bool_decide (attempt < max_retries)%nat then
    handle_manual_intervention url "Bloqueo duro/Captcha detectado. Abriendo navegador." ;;
    ret Continue
  else
    failure ;;
    ret Break.

Definition safe_mode_options : list string :=
  ["--sleep-requests"; "1"; "--sleep-interval"; "10"; "--max-sleep-interval"; "20";
   "--sleep-subtitles"; "5"].

(** ** The three download loops

    Each function is split at its [for]: the part before it computes the
    base command and the baseline listing, [*_attempt] is the loop body and
    [*_loop] the loop, whose way of leaving decides the value returned. *)

Definition video_base_command (extra_options : list string) (safe_mode : bool) : list string :=
  [sys_executable w; "-m"; "yt_dlp"; "--restrict-filenames"; "--no-overwrites";
   "--ignore-errors"; "--remote-components"; "ejs:github"; "-o";
   DOWNLOAD_DIR // "%(title)s.%(ext)s"]
  ++ (if safe_mode then safe_mode_options else [])
  ++ extra_options.

Definition video_attempt (url : string) (base_command : list string)
    (existing_files : gset string) (attempt : nat) : M (ctl (list string)) :=
  let platform := detect_platform url in
  cred <- credential_args platform attempt ;;
  let command := base_command ++ cred ++ [url] in
  try_except
    (st <- run_child attempt command ;;
     if attempt_ok st then
       let current_files := glob w DOWNLOAD_DIR "*" (AfterAttempt attempt) in
       let video_files :=
         filter (fun f => Str.lower (PurePath.suffix f) ∈ video_suffixes)
                (new_files existing_files current_files) in
       if bool_decide (video_files <> []) then
         let video_files := sort_by (st_mtime w) video_files in
         for_each (fun f => print_status ("Video descargado: " +:+ PurePath.name f) "success")
                  video_files ;;
         ret (Return video_files)
       else ret (Return [])
     else
       on_failure platform url attempt st
         (Some "Video privado o restringido. Inyectando cookies...")
         (print_status "Error en descarga. Revisa el registro arriba." "error"))
    (fun e => print_status ("Error descargando video: " +:+ exn_str e) "error" ;;
              ret Break).

Definition video_loop (url : string) (extra_options : list string) (safe_mode : bool)
    : M (loop_exit (list string)) :=
  let platform := detect_platform url in
  print_status ("Descargando video de " +:+ platform_str platform +:+ ": "
                +:+ String.substring 0 50 url +:+ "...") "processing" ;;
  let existing_files : gset string := list_to_set (glob w DOWNLOAD_DIR "*" AtStart) in
  let base_command := video_base_command extra_options safe_mode in
  for_range (video_attempt url base_command existing_files) (max_retries + 1) 0%nat.

Definition download_video_direct (url : string) (extra_options : list string)
    (safe_mode : bool) : M (list string) :=
  e <- video_loop url extra_options safe_mode ;;
  ret (match e with Returned _ v => v | _ => [] end).

Definition audio_base_command (extra_options : list string) (safe_mode : bool) : list string :=
  [sys_executable w; "-m"; "yt_dlp"; "-x"; "--audio-format"; "mp3"; "--audio-quality";
   "320k"; "--embed-thumbnail"; "--add-metadata"; "--restrict-filenames";
   "--no-overwrites"; "--ignore-errors"; "--remote-components"; "ejs:github"; "-o";
   AUDIO_DIR // "%(title)s.%(ext)s"]
  ++ (if safe_mode then safe_mode_options else [])
  ++ extra_options.

Definition audio_attempt (url : string) (base_command : list string)
    (existing_files : gset string) (attempt : nat) : M (ctl (list string)) :=
  let platform := detect_platform url in
  cred <- credential_args platform attempt ;;
  let command := base_command ++ cred ++ [url] in
  try_except
    (st <- run_child attempt command ;;
     if attempt_ok st then
       let current_files := glob w AUDIO_DIR "*" (AfterAttempt attempt) in
       let mp3_files :=
         filter (fun f => Str.lower (PurePath.suffix f) = ".mp3")
                (new_files existing_files current_files) in
       if bool_decide (mp3_files <> []) then
         let mp3_files := sort_by (st_mtime w) mp3_files in
         for_each (fun f => print_status ("Audio descargado: " +:+ PurePath.name f) "success")
                  mp3_files ;;
         ret (Return mp3_files)
       else ret (Return [])
     else
       on_failure platform url attempt st
         (Some "Audio privado o restringido. Inyectando cookies...")
         (print_status "Error en descarga. Revisa el registro arriba." "error"))
    (fun e => print_status ("Error descargando audio: " +:+ exn_str e) "error" ;;
              ret Break).

Definition audio_loop (url : string) (extra_options : list string) (safe_mode : bool)
    : M (loop_exit (list string)) :=
  let platform := detect_platform url in
  print_status ("Descargando audio de " +:+ platform_str platform +:+ ": "
                +:+ String.substring 0 50 url +:+ "...") "processing" ;;
  let existing_files : gset string := list_to_set (glob w AUDIO_DIR "*" AtStart) in
  let base_command := audio_base_command extra_options safe_mode in
  for_range (audio_attempt url base_command existing_files) (max_retries + 1) 0%nat.

Definition download_audio_direct (url : string) (extra_options : list string)
    (safe_mode : bool) : M (list string) :=
  e <- audio_loop url extra_options safe_mode ;;
  ret (match e with Returned _ v => v | _ => [] end).

(** Lines 513-519: the first pattern with a match decides; the newest of its
    files is returned. *)
Fixpoint latest_subtitle (attempt : nat) (subtitle_patterns : list string) : option string :=
  match subtitle_patterns with
  | [] => None
  | pattern :: rest =>
      let subtitle_files := glob w SUBTITLES_DIR pattern (AfterAttempt attempt) in
      match max_by (st_mtime w) subtitle_files with
      | Some latest_file => Some latest_file
      | None => latest_subtitle attempt rest
      end
  end.

Definition subtitle_patterns (language : string) : list string :=
  [video_title w +:+ "*." +:+ language +:+ ".srt"; video_title w +:+ "*.srt";
   "*" +:+ language +:+ "*.srt"].

Definition subtitles_base_command (language : string) (safe_mode : bool) : list string :=
  [sys_executable w; "-m"; "yt_dlp"; "--write-subs"; "--write-auto-subs";
   "--sub-langs"; language +:+ ",en"; "--skip-download"; "--convert-subs"; "srt";
   "--no-overwrites"; "--ignore-errors"; "--remote-components"; "ejs:github"; "-o";
   SUBTITLES_DIR // (video_title w +:+ ".%(ext)s")]
  ++ (if safe_mode then safe_mode_options else []).

Definition subtitles_attempt (url language : string) (base_command : list string)
    (attempt : nat) : M (ctl (option string)) :=
  let platform := detect_platform url in
  cred <- credential_args platform attempt ;;
  let command := base_command ++ cred ++ [url] in
  try_except
    (st <- run_child attempt command ;;
     match (if attempt_ok st
            then latest_subtitle attempt (subtitle_patterns language) else None) with
     | Some latest_file =>
         print_status ("Subtítulos descargados: " +:+ PurePath.name latest_file) "success" ;;
         ret (Return (Some latest_file))
     | None =>
         on_failure platform url attempt st None
           (print_status "No se pudieron descargar subtítulos del video" "warning")
     end)
    (fun e => print_status ("Error descargando subtítulos: " +:+ exn_str e) "error" ;;
              ret Break).

Definition subtitles_loop (url language : string) (safe_mode : bool)
    : M (loop_exit (option string)) :=
  let base_command := subtitles_base_command language safe_mode in
  for_range (subtitles_attempt url language base_command) (max_retries + 1) 0%nat.

(** Lines 451-457 are the title probe: a yt-dlp child of its own that
    [subprocess.run] starts, waits for and, after 30 seconds, kills.
    Whatever becomes of it, the function goes on with a title, which is the
    world's [video_title]. *)
Definition download_subtitles_direct (url language : string) (safe_mode : bool)
    : M (option string) :=
  let platform := detect_platform url in
  print_status ("Descargando subtítulos de " +:+ platform_str platform
                +:+ " (" +:+ language +:+ ")...") "processing" ;;
  let command_info :=
    [sys_executable w; "-m"; "yt_dlp"; "--print"; "%(title)s"; "--no-warnings"; url] in
  emit (Run command_info) ;;
  let by_language :=
    glob w SUBTITLES_DIR (video_title w +:+ "*." +:+ language +:+ ".srt") AtStart in
  let existing_subs :=
    if bool_decide (by_language <> []) then by_language
    else glob w SUBTITLES_DIR (video_title w +:+ "*.srt") AtStart in
  match existing_subs with
  | first :: _ => ret (Some first)
  | [] =>
      e <- subtitles_loop url language safe_mode ;;
      ret (match e with Returned _ v => v | _ => None end)
  end.

End Script.

(** Running a computation from given globals. *)
Definition run {A} (m : M A) (g : Globals) : result A * Globals * list event := m g.

Definition value_of {A} (r : result A * Globals * list event) : result A := r.1.1.
Definition globals_of {A} (r : result A * Globals * list event) : Globals := r.1.2.
Definition trace_of {A} (r : result A * Globals * list event) : list event := r.2.

(** How often the operator was asked to confirm, that is, how often the
    human-intervention gate ran. *)
Definition is_Input (e : event) : bool :=
  match e with Input _ => true | _ => false end.

Definition gate_count (t : list event) : nat := length (filter is_Input t).

(** Whether a failure was reported: a [print_status] with status "error". *)
Definition is_error_status (e : event) : bool :=
  match e with PrintStatus _ status => bool_decide (status = "error") | _ => false end.

Definition error_reported (t : list event) : bool := existsb is_error_status t.

Definition initial_globals : Globals :=
  {| CHROMIUM_PROFILES := []; CURRENT_PROFILE_INDEX := 0 |}.

(** ** Invariants and predicates used in the statements *)

(** The cursor points into the pool whenever the pool has entries. *)
Definition pool_ok (g : Globals) : Prop :=
  CHROMIUM_PROFILES g = [] \/
  (CURRENT_PROFILE_INDEX g < length (CHROMIUM_PROFILES g))%nat.

(** Pool entries are paths, never the empty string. *)
Definition pool_named (g : Globals) : Prop :=
  Forall (fun p => p <> EmptyString) (CHROMIUM_PROFILES g).

Definition pool_wf (g : Globals) : Prop := pool_ok g /\ pool_named g.

(** Ignoring case, said without [str.lower]: two characters are the same
    letter when they are equal, or one is a capital of A-Z and the other the
    small letter at the same place of the alphabet; two texts are the same
    when they are so character by character; and [k] occurs in [s] when
    some segment of [s] is the same text as [k]. *)
Definition capitals : string := "ABCDEFGHIJKLMNOPQRSTUVWXYZ".
Definition smalls : string := "abcdefghijklmnopqrstuvwxyz".

Definition letter_cases : list (ascii * ascii) :=
  zip (String.list_ascii_of_string capitals) (String.list_ascii_of_string smalls).

Definition same_letter (a b : ascii) : Prop :=
  a = b \/ (a, b) ∈ letter_cases \/ (b, a) ∈ letter_cases.

Fixpoint same_text (s t : string) : Prop :=
  match s, t with
  | EmptyString, EmptyString => True
  | String a s', String b t' => same_letter a b /\ same_text s' t'
  | _, _ => False
  end.

Definition occurs_ignoring_case (k s : string) : Prop :=
  exists a m b, s = a +:+ m +:+ b /\ same_text m k.

(** U+212A KELVIN SIGN in UTF-8.  It is the one character outside A-Z
    that Python's [str.lower] sends to a letter A-Z on its own, the letter
    k; [Str.lower] leaves it as it is. *)
Definition kelvin_sign : string :=
  String "226"%char (String "132"%char (String "170"%char EmptyString)).

(** The events the loop body emits for one line (they do not depend on the
    globals). *)
Definition line_trace (pid : nat) (line : string) : list event :=
  trace_of (on_line pid line initial_globals).

Definition is_ReadLine (e : event) : bool :=
  match e with ReadLine _ _ => true | _ => false end.

Definition is_Terminate (pid : nat) (e : event) : bool :=
  match e with Terminate q => bool_decide (q = pid) | _ => false end.

Definition reads_from (pid : nat) (e : event) : bool :=
  match e with ReadLine q _ => bool_decide (q = pid) | _ => false end.

(** What one child contributes to an attempt: the lines read before the
    loop is left, whether it was left by the block test, and the events. *)
Fixpoint consumed (lines : list string) : list string :=
  match lines with
  | [] => []
  | line :: rest => if is_hard_block line then [line] else line :: consumed rest
  end.

Definition blocked (lines : list string) : bool := existsb is_hard_block lines.

Fixpoint stream_trace (pid : nat) (lines : list string) : list event :=
  match lines with
  | [] => []
  | line :: rest =>
      line_trace pid line ++ (if is_hard_block line then [] else stream_trace pid rest)
  end.

Definition child_state (proc : child) : attempt_state :=
  {| proc_returncode := returncode proc (blocked (stdout proc));
     killed_by_block := blocked (stdout proc);
     output := Str.join (consumed (stdout proc)) |}.

(** Trace discipline of the kill switch: after a hard-block line is read
    from a child, [Terminate] for that child comes before any further read
    from it. *)
Fixpoint terminated_before_read (pid : nat) (t : list event) : bool :=
  match t with
  | [] => false
  | e :: t' =>
      if is_Terminate pid e then true
      else if reads_from pid e then false
      else terminated_before_read pid t'
  end.

Fixpoint kill_switch_ok (t : list event) : bool :=
  match t with
  | [] => true
  | e :: t' =>
      (if e is ReadLine pid line
       then (if is_hard_block line then terminated_before_read pid t' else true)
       else true)
      && kill_switch_ok t'
  end.

(** ** What an attempt decides

    The decision an attempt hands to the loop, as a value.  The lemmas of
    the second part show that the loop bodies compute exactly these. *)

Inductive AttemptOutcome (A : Type) :=
| Success (artifacts : A)
| RetryWithCredentials
| RetryAfterIntervention
| FatalFailure.

Arguments Success {A} artifacts.
Arguments RetryWithCredentials {A}.
Arguments RetryAfterIntervention {A}.
Arguments FatalFailure {A}.

Definition outcome_ctl {A} (o : AttemptOutcome A) : ctl A :=
  match o with
  | Success v => Return v
  | RetryWithCredentials | RetryAfterIntervention => Continue
  | FatalFailure => Break
  end.

Definition outcome_gates {A} (o : AttemptOutcome A) : nat :=
  match o with
  | RetryAfterIntervention => 1
  | _ => 0
  end.

Definition failure_outcome {A} (platform : platform) (attempt : nat) (output : string)
    : AttemptOutcome A :=
  let error_msg := Str.lower output in
  if bool_decide (attempt = 0%nat) && bool_decide (platform = YouTube)
     && Str.any_in privacy_phrases error_msg then RetryWithCredentials
  else if Str.any_in block_phrases error_msg && bool_decide (attempt < max_retries)%nat
  then RetryAfterIntervention
  else FatalFailure.

Definition video_artifacts (w : World) (existing_files : gset string) (attempt : nat)
    : list string :=
  let video_files :=
    filter (fun f => Str.lower (PurePath.suffix f) ∈ video_suffixes)
           (new_files existing_files (glob w (DOWNLOAD_DIR w) "*" (AfterAttempt attempt))) in
  if bool_decide (video_files <> []) then sort_by (st_mtime w) video_files else [].

Definition audio_artifacts (w : World) (existing_files : gset string) (attempt : nat)
    : list string :=
  let mp3_files :=
    filter (fun f => Str.lower (PurePath.suffix f) = ".mp3")
           (new_files existing_files (glob w (AUDIO_DIR w) "*" (AfterAttempt attempt))) in
  if bool_decide (mp3_files <> []) then sort_by (st_mtime w) mp3_files else [].

Definition video_outcome (w : World) (url : string) (existing_files : gset string)
    (attempt : nat) : AttemptOutcome (list string) :=
  match yt_dlp w attempt with
  | None => FatalFailure
  | Some proc =>
      let st := child_state proc in
      if attempt_ok st then Success (video_artifacts w existing_files attempt)
      else failure_outcome (detect_platform url) attempt (output st)
  end.

Definition audio_outcome (w : World) (url : string) (existing_files : gset string)
    (attempt : nat) : AttemptOutcome (list string) :=
  match yt_dlp w attempt with
  | None => FatalFailure
  | Some proc =>
      let st := child_state proc in
      if attempt_ok st then Success (audio_artifacts w existing_files attempt)
      else failure_outcome (detect_platform url) attempt (output st)
  end.

Definition subtitles_outcome (w : World) (url language : string) (attempt : nat)
    : AttemptOutcome (option string) :=
  match yt_dlp w attempt with
  | None => FatalFailure
  | Some proc =>
      let st := child_state proc in
      match (if attempt_ok st
             then latest_subtitle w attempt (subtitle_patterns w language) else None) with
      | Some latest_file => Success (Some latest_file)
      | None => failure_outcome (detect_platform url) attempt (output st)
      end
  end.

(** How a loop over attempts [a, a + n) is left, and how many times the
    gate runs on the way, given what each attempt decides. *)
Fixpoint loop_summary {A} (O : nat -> AttemptOutcome A) (n a : nat) : loop_exit A :=
  match n with
  | O => Exhausted
  | S n' =>
      match O a with
      | Success v => Returned a v
      | FatalFailure => Broke a
      | RetryWithCredentials | RetryAfterIntervention => loop_summary O n' (S a)
      end
  end.

Fixpoint loop_gates {A} (O : nat -> AttemptOutcome A) (n a : nat) : nat :=
  match n with
  | O => 0
  | S n' =>
      match O a with
      | Success _ | FatalFailure => 0
      | RetryWithCredentials => loop_gates O n' (S a)
      | RetryAfterIntervention => S (loop_gates O n' (S a))
      end
  end.

(** The children of the attempts [0 .. n-1] all start and are all stopped
    by the hard-block test. *)
Definition all_blocked (w : World) (n : nat) : Prop :=
  forall k, (k < n)%nat -> exists proc, yt_dlp w k = Some proc /\ blocked (stdout proc) = true.

Definition video_baseline (w : World) : gset string :=
  list_to_set (glob w (DOWNLOAD_DIR w) "*" AtStart).

Definition audio_baseline (w : World) : gset string :=
  list_to_set (glob w (AUDIO_DIR w) "*" AtStart).

(** Attempt 0 of a YouTube goal whose output mentions a privacy or login
    condition is retried with cookies at once. *)
Definition privacy_shortcut (w : World) (url : string) : bool :=
  bool_decide (detect_platform url = YouTube) &&
  match yt_dlp w 0 with
  | Some proc => Str.any_in privacy_phrases (Str.lower (output (child_state proc)))
  | None => false
  end.

(** A computation is disciplined when every trace it can produce obeys the
    kill switch. *)
Definition disciplined {A} (m : M A) : Prop :=
  forall g, kill_switch_ok (trace_of (m g)) = true.

(** ** Cookie stores, as the statements about the inspector see them *)

(** The store [analyze_profile_cookies] opens for a profile. *)
Definition consulted_store (w : World) (profile_path : string) : string :=
  let cookies_db := profile_path // "chromium" // "Default" // "Cookies" in
  if negb (path_exists w cookies_db) || bool_decide (stat_st_size w cookies_db = 0)
  then profile_path // "Default" // "Cookies"
  else cookies_db.





(** The two statements of lines 236 and 239. *)
Definition cookie_query (domain : string) : string :=
  "SELECT last_access_utc FROM cookies WHERE host_key LIKE '%" +:+ domain +:+ "%' LIMIT 1".




(** ** Concrete worlds for the examples *)

Module Demo.

Definition world (children : nat -> option child) (listing : string -> moment -> list string)
    (mtime : string -> Z) (files : string -> fs_entry) : World :=
  {| USER_HOME := "/home/u";
     PROJECT_DIR := "/srv/ytdpl";
     sys_executable := "/usr/bin/python3";
     yt_dlp := children;
     glob := fun _ pattern m => listing pattern m;
     st_mtime := mtime;
     video_title := "clip";
     dir_exists := fun _ => true;
     file_at := files;
     popen_error := fun _ => OSError "[Errno 2] No such file or directory";
     chromium_browser := None;
     cookie_sync := None |}.

Definition no_files : string -> fs_entry := fun _ => Absent.

(** A SQLite for the examples.  It takes as the file of a URI the text
    between [file:] and the first [?] or [#], as SQLite does for a URI
    without escapes and without a host, and it knows the two statements of
    the inspector. *)
Fixpoint before_mark (s : string) : string :=
  match s with
  | EmptyString => EmptyString
  | String c s' =>
      if bool_decide (c = "?"%char \/ c = "#"%char) then EmptyString
      else String c (before_mark s')
  end.

Definition uri_filename (uri : string) : option string :=
  match uri with
  | String "f" (String "i" (String "l" (String "e" (String ":" rest)))) =>
      Some (before_mark rest)
  | _ => None
  end.

Definition sqlite3 (w : World) (uri sql : string) : result (option Z) :=
  match uri_filename uri with
  | Some p =>
      if bool_decide (sql = cookie_query "youtube.com") then select_cookie w p "youtube.com"
      else if bool_decide (sql = cookie_query "tiktok.com") then select_cookie w p "tiktok.com"
      else Raised (OSError "near: syntax error")
  | None => Raised (OSError "unable to open database file")
  end.

Definition pool3 : Globals :=
  {| CHROMIUM_PROFILES := ["/home/u/chromium_data_1"; "/home/u/chromium_data_2";
                           "/home/u/chromium_data_3"];
     CURRENT_PROFILE_INDEX := 0 |}.

(** A child that is stopped by the bot check on its second line. *)
Definition bot_check : child :=
  {| stdout := ["[youtube] Extracting URL" +:+ nl;
                "ERROR: [youtube] x: Sign in to confirm you" +:+ nl;
                "[download] 100%" +:+ nl];
     returncode := fun terminated => if terminated then 0 else 1 |}.

(** A child stopped by a CAPTCHA page. *)
Definition captcha : child :=
  {| stdout := ["ERROR: unable to download: CAPTCHA required" +:+ nl];
     returncode := fun terminated => if terminated then (-15) else 1 |}.

(** A child that runs to the end and exits with status zero. *)
Definition clean_exit : child :=
  {| stdout := ["[download] Destination: b.mp3" +:+ nl; "[download] 100%" +:+ nl];
     returncode := fun _ => 0 |}.


(** A child refused for a video that needs a login. *)
Definition needs_login : child :=
  {| stdout := ["WARNING: Sign in to confirm your age" +:+ nl];
     returncode := fun _ => 1 |}.

Definition always (c : child) : nat -> option child := fun _ => Some c.

(** Ten CAPTCHA pages, then a clean run. *)
Definition ten_captchas_then_clean : nat -> option child := fun k =>
  if (k <? 10)%nat then Some captcha else Some clean_exit.

Definition tiktok_url : string := "https://www.tiktok.com/@user/video/1".
Definition youtube_url : string := "https://youtu.be/abc".

Definition empty_dir : string -> moment -> list string := fun _ _ => [].

(** The directory of the round-trip example: [a.txt] was there before;
    afterwards the listing yields [c.mp3] before [b.mp3]. *)
Definition audio_dir : string -> moment -> list string := fun _ m =>
  match m with
  | AtStart => ["/srv/ytdpl/audio/a.txt"]
  | AfterAttempt _ =>
      ["/srv/ytdpl/audio/c.mp3"; "/srv/ytdpl/audio/a.txt"; "/srv/ytdpl/audio/b.mp3"]
  end.

Definition audio_mtime (p : string) : Z :=
  if bool_decide (p = "/srv/ytdpl/audio/b.mp3") then 200
  else if bool_decide (p = "/srv/ytdpl/audio/c.mp3") then 300
  else 100.

Definition zero_mtime : string -> Z := fun _ => 0.

End Demo.

(** * Further definitions used by the statements of the second part *)

(** The directories [setup_chromium_profiles] looks at, in the order of
    its loop, and those it keeps. *)
Definition profile_candidates (w : World) : list string :=
  (fun i : nat => USER_HOME w // ("chromium_data_" +:+ pretty i)) <$> seq 1 5.

Definition has_valid_cookies (w : World) (profile_dir : string) : bool :=
  dir_exists w profile_dir
  && has_cookie_file w (profile_dir // "chromium" // "Default" // "Cookies").

Definition found_profiles (w : World) : list string :=
  filter (fun profile_dir => has_valid_cookies w profile_dir = true) (profile_candidates w).


(** What a trace shows of the streaming of one child. *)
Definition lines_read (pid : nat) (t : list event) : list string :=
  omap (fun e => match e with
                 | ReadLine q line => if bool_decide (q = pid) then Some line else None
                 | _ => None
                 end) t.

Definition lines_echoed (t : list event) : list string :=
  omap (fun e => if e is StdoutWrite line then Some line else None) t.

Definition is_Sleep (e : event) : bool :=
  match e with Sleep _ => true | _ => false end.

Definition seconds_slept (t : list event) : Z :=
  foldr (fun e acc => (if e is Sleep s then s else 0) + acc) 0 t.

Definition terminations (pid : nat) (t : list event) : nat :=
  foldr (fun e n => if is_Terminate pid e then S n else n) 0%nat t.


(** Two more trace disciplines.  [children_waited]: after a child is
    started, [wait] for it comes before any other child is started.
    [terminate_justified seen]: a child is sent [terminate] only if a
    hard-block line was read from it before ([seen] holds the children for
    which that has happened already). *)
Fixpoint waited_before_popen (pid : nat) (t : list event) : bool :=
  match t with
  | [] => false
  | e :: t' =>
      match e with
      | Wait q => if bool_decide (q = pid) then true else waited_before_popen pid t'
      | Popen _ _ => false
      | _ => waited_before_popen pid t'
      end
  end.

Fixpoint children_waited (t : list event) : bool :=
  match t with
  | [] => true
  | e :: t' =>
      (if e is Popen pid _ then waited_before_popen pid t' else true)
      && children_waited t'
  end.

Fixpoint terminate_justified (seen : list nat) (t : list event) : bool :=
  match t with
  | [] => true
  | e :: t' =>
      match e with
      | ReadLine pid line =>
          terminate_justified (if is_hard_block line then pid :: seen else seen) t'
      | Terminate pid => bool_decide (pid ∈ seen) && terminate_justified seen t'
      | _ => terminate_justified seen t'
      end
  end.

(** Every trace of the computation passes the check [ok]. *)
Definition obeys {A} (ok : list event -> bool) (m : M A) : Prop :=
  forall g, ok (trace_of (m g)) = true.

Definition is_Popen (e : event) : bool :=
  match e with Popen _ _ => true | _ => false end.

Definition is_Wait (e : event) : bool :=
  match e with Wait _ => true | _ => false end.


Definition no_popen (t : list event) : bool := forallb (fun e => negb (is_Popen e)) t.


(** The subtitle directory of the examples: nothing with the title and the
    language tag; two files with the title, [clip.en.srt] the newer; and
    an older file of another title with the language tag. *)
Module DemoSubs.

Definition listing (pattern : string) (m : moment) : list string :=
  match m with
  | AtStart => []
  | AfterAttempt _ =>
      if bool_decide (pattern = "clip*.srt")
      then ["/srv/ytdpl/subtitles/clip.srt"; "/srv/ytdpl/subtitles/clip.en.srt"]
      else if bool_decide (pattern = "*es*.srt")
      then ["/srv/ytdpl/subtitles/other.es.srt"]
      else []
  end.

Definition mtime (p : string) : Z :=
  if bool_decide (p = "/srv/ytdpl/subtitles/clip.en.srt") then 300
  else if bool_decide (p = "/srv/ytdpl/subtitles/clip.srt") then 200
  else 900.

(** A child that exits with status zero after mentioning a CAPTCHA in a
    line that is no error line. *)
Definition captcha_warning : child :=
  {| stdout := ["WARNING: [youtube] captcha page served, no subtitles" +:+ nl];
     returncode := fun _ => 0 |}.

End DemoSubs.


(** How many children the attempts of a trace start. *)
Definition children_started (t : list event) : nat := length (filter is_Popen t).

(** How many title probes a trace runs. *)
Definition is_Run (e : event) : bool :=
  match e with Run _ => true | _ => false end.

Definition probes_run (t : list event) : nat := length (filter is_Run t).

Definition no_run (t : list event) : bool := forallb (fun e => negb (is_Run e)) t.

(** The command of the title probe (line 451). *)
Definition command_info (w : World) (url : string) : list string :=
  [sys_executable w; "-m"; "yt_dlp"; "--print"; "%(title)s"; "--no-warnings"; url].

(** Why an attempt was repeated: its child had started, and either it was
    attempt 0 of a YouTube goal with a privacy or login phrase in the
    captured output (no gate), or the captured output had a block phrase
    and attempts were left (one gate). *)
Definition retry_reason (w : World) (url : string) (k : nat) (t : list event) : Prop :=
  exists proc,
    yt_dlp w k = Some proc /\
    let error_msg := Str.lower (output (child_state proc)) in
    (k = 0%nat /\ detect_platform url = YouTube /\
     Str.any_in privacy_phrases error_msg = true /\ gate_count t = 0%nat)
    \/ (Str.any_in block_phrases error_msg = true /\ (k < max_retries)%nat /\
        gate_count t = 1%nat).


(** ** The menu and the dispatcher

    [get_user_input], [process_single_file] and [main].  At this level the
    functions they call are not unfolded: a call is recorded as an action
    and its result is read from the host, so that what is proved holds for
    whatever the callees return.  [input(prompt).strip()] is the host's
    [typed prompt].  The dictionary [operations] is a finite map from key
    to object, [config] a record of the four entries the script stores.
    [KeyboardInterrupt] is outside the model. *)

Module Main.

Inductive pyval :=
| PNone
| PBool (b : bool)
| PStr (s : string)
| PList (l : list string).

Global Instance pyval_eq_dec : EqDecision pyval.
Proof. solve_decision. Defined.

(** The truth value of an object in a condition. *)
Definition truthy (v : pyval) : bool :=
  match v with
  | PNone => false
  | PBool b => b
  | PStr s => bool_decide (s <> "")
  | PList l => bool_decide (l <> [])
  end.

Definition of_option (o : option string) : pyval :=
  match o with
  | Some s => PStr s
  | None => PNone
  end.

Definition dict := gmap string pyval.

(** [d.get(key, dflt)] *)
Definition get (d : dict) (key : string) (dflt : pyval) : pyval :=
  default dflt (d !! key).

(** [s.split(c)] for a separator of one character. *)
Fixpoint split (c : ascii) (s : string) : list string :=
  match s with
  | EmptyString => [EmptyString]
  | String a s' =>
      if decide (a = c) then EmptyString :: split c s'
      else match split c s' with
           | first :: rest => String a first :: rest
           | [] => [String a EmptyString]
           end
  end.

(** [Path(p).name] for any text [p]: the last component that is neither
    empty nor a single dot. *)
Definition name (p : string) : string :=
  default "" (last (filter (fun part => part <> "" /\ part <> ".") (split "/" p))).

(** [Path(p).suffix] and [Path(p).stem]. *)
Definition suffix (p : string) : string :=
  let n := name p in
  match Str.rsplit_at "."%char n with
  | Some (i, t) =>
      if bool_decide (0 < i)%nat && bool_decide (i < String.length n - 1)%nat
      then t else EmptyString
  | None => EmptyString
  end.

Definition stem (p : string) : string :=
  let n := name p in
  match Str.rsplit_at "."%char n with
  | Some (i, _) =>
      if bool_decide (0 < i)%nat && bool_decide (i < String.length n - 1)%nat
      then String.substring 0 i n else n
  | None => n
  end.

Inductive error :=
| SystemExit (code : Z)
| KeyError (key : string)
| TypeError (message : string)
| FileNotFoundError (message : string).

(** [isinstance(e, Exception)]: [SystemExit] is not one. *)
Definition is_Exception (e : error) : bool :=
  match e with
  | SystemExit _ => false
  | _ => true
  end.

Definition error_str (e : error) : string :=
  match e with
  | SystemExit code => pretty code
  | KeyError key => "'" +:+ key +:+ "'"
  | TypeError message => message
  | FileNotFoundError message => message
  end.

(** What the host answers: the operator's input, and what the functions
    called from here return. *)
Record Host := {
  PROJECT_DIR : string;
  typed : string -> string;
  dependencies_present : bool;
  cookies_verified : platform -> bool;
  video_files : string -> list string -> pyval -> list string;
  audio_files : string -> option (list string) -> pyval -> list string;
  subtitle_file : string -> pyval -> pyval -> option string;
  translation : string -> pyval -> option string;
  whisper_subtitles : string -> pyval -> option string;
  vocals : string -> option string;
  transcription : string -> option string;
  path_exists : string -> bool;
  ffmpeg_error : list string -> option string;
  path_type_error : pyval -> string;
}.

Inductive act :=
| Asked (prompt : string)
| Printed (text : string)
| Reported (message status : string)
| CheckDependencies
| UpdateYtDlp
| SetupChromiumProfiles
| VerifyPlatformCookies (platform : platform)
| OpenBrowserForLogin (url : string)
| DownloadVideoDirect (url : string) (extra_options : list string) (safe_mode : pyval)
| DownloadAudioDirect (url : string) (extra_options : option (list string))
    (safe_mode : pyval)
| DownloadSubtitlesDirect (url : string) (language : pyval) (safe_mode : pyval)
| TranslateSubtitleFile (subtitle_path : string) (target_lang : pyval)
| GenerateSubtitlesWithWhisper (audio_path : pyval) (language : pyval)
| ExtractVoiceOptimized (audio_path : pyval)
| TranscribeAudioOptimized (audio_path : pyval)
| Ffmpeg (command : list string)
| UnifyTranscriptions (paths : list string) (keep_individual : pyval)
| CleanupTempFiles.

Inductive outcome (A : Type) :=
| Done (a : A)
| Failed (e : error).

Arguments Done {A} a.
Arguments Failed {A} e.

Definition Orch (A : Type) : Type := outcome A * list act.

Definition ret {A} (a : A) : Orch A := (Done a, []).

Definition bind {A B} (m : Orch A) (f : A -> Orch B) : Orch B :=
  match m with
  | (Done a, t1) => let '(r, t2) := f a in (r, t1 ++ t2)
  | (Failed e, t1) => (Failed e, t1)
  end.

Definition act_of (a : act) : Orch unit := (Done tt, [a]).

Definition raise {A} (e : error) : Orch A := (Failed e, []).

(** [try: m except Exception as e: handler e] *)
Definition try_except {A} (m : Orch A) (handler : error -> Orch A) : Orch A :=
  match m with
  | (Failed e, t1) =>
      if is_Exception e then let '(r, t2) := handler e in (r, t1 ++ t2)
      else (Failed e, t1)
  | done => done
  end.

(** [try: m finally: cleanup], for a [cleanup] that returns normally. *)
Definition try_finally {A} (m : Orch A) (cleanup : Orch unit) : Orch A :=
  let '(r, t1) := m in
  match cleanup with
  | (Done _, t2) => (r, t1 ++ t2)
  | (Failed e, t2) => (Failed e, t1 ++ t2)
  end.

Declare Scope orch_scope.
Delimit Scope orch_scope with orch.
Notation "x <- m ;; k" := (bind m (fun x => k))
  (at level 100, m at next level, right associativity) : orch_scope.
Notation "m ;; k" := (bind m (fun _ => k))
  (at level 100, right associativity) : orch_scope.
Local Open Scope orch_scope.

(** [d[key]] *)
Definition item (d : dict) (key : string) : Orch pyval :=
  match d !! key with
  | Some v => ret v
  | None => raise (KeyError key)
  end.

Definition BLUE : string := Colors.esc "[1;34m".

(** The prompts of [get_user_input]. *)
Definition prompt_url : string :=
  Colors.CYAN +:+ "🔗 Ingresa URL (o presiona ENTER para cargar opciones generales): "
  +:+ Colors.RESET.
Definition prompt_choice : string :=
  Colors.CYAN +:+ "Selecciona [1-13]: " +:+ Colors.RESET.
Definition prompt_transcribe_mode : string :=
  Colors.CYAN +:+ "Selecciona modo [1-2]: " +:+ Colors.RESET.
Definition prompt_keep : string := "¿Conservar archivos individuales también? [s/N]: ".
Definition prompt_source : string := "Origen [1-2]: ".
Definition prompt_thumbnail : string := "¿Descargar miniaturas? [s/N]: ".
Definition prompt_description : string := "¿Descargar descripciones? [s/N]: ".
Definition prompt_safe_mode : string :=
  "Activar 'Modo Seguro' (Añade pausas para evitar bloqueos) [S/n]: ".

Definition menu : list string :=
  [nl +:+ Colors.CYAN +:+ "⚙️ Operaciones disponibles:" +:+ Colors.RESET;
   "  1. 📹 Descargar video";
   "  2. 🎵 Descargar MP3";
   "  3. 🗣️ Extraer solo la voz (Demucs)";
   "  4. 📝 Transcribir audio";
   "  5. 🎵+🗣️ MP3 + Extraer voz";
   "  6. 🎵+📝 MP3 + Transcribir";
   "  7. 🗣️+📝 Extraer voz + Transcribir";
   "  8. 🎵+🗣️+📝 MP3 + Voz + Transcribir";
   "  9. 📹+📝 Video + Transcribir";
   "  10. 📝+🌍 Crear subtítulos y traducir";
   "  11. 🎵+📝+🌍 MP3 + Subtítulos + Traducir";
   "  12. 📹+📝+🌍 Video + Subtítulos + Traducir";
   "  13. 🌐 Solo abrir navegador (Para Iniciar sesión o Exportar cookies)"].

(** The six flags of a menu choice: video, audio, voice, transcription,
    subtitles, translation. *)
Definition flags : Type := bool * bool * bool * bool * bool * bool.

Definition ops_map : gmap string flags :=
  list_to_map
    [("1", (true, false, false, false, false, false));
     ("2", (false, true, false, false, false, false));
     ("3", (false, true, true, false, false, false));
     ("4", (false, true, false, true, false, false));
     ("5", (false, true, true, false, false, false));
     ("6", (false, true, false, true, false, false));
     ("7", (false, true, true, true, false, false));
     ("8", (false, true, true, true, false, false));
     ("9", (true, false, false, true, false, false));
     ("10", (false, false, false, false, true, true));
     ("11", (false, true, false, false, true, true));
     ("12", (true, false, false, false, true, true))].

Record config := {
  cfg_url : string;
  cfg_operations : dict;
  cfg_download_thumbnail : option bool;
  cfg_download_description : option bool;
}.

Record results := {
  success : bool;
  errors : list string;
  transcription_path : option string;
}.

Section Dispatch.

Variable h : Host.

Definition AUDIO_DIR : string := PROJECT_DIR h // "audio".

Definition input (prompt : string) : Orch string :=
  act_of (Asked prompt) ;; ret (typed h prompt).

Definition print (text : string) : Orch unit := act_of (Printed text).

Definition print_status (message status : string) : Orch unit :=
  act_of (Reported message status).

Fixpoint print_all (lines : list string) : Orch unit :=
  match lines with
  | [] => ret tt
  | line :: rest => print line ;; print_all rest
  end.

(** Lines 150-161: the two [sys.exit(1)] are the host's
    [dependencies_present = false]. *)
Definition check_dependencies : Orch unit :=
  act_of CheckDependencies ;;
  if dependencies_present h then ret tt else raise (SystemExit 1).

(** Lines 757-848. *)
Definition get_user_input : Orch config :=
  url <- input prompt_url ;;
  let url := if bool_decide (url = "") then "https://www.youtube.com" else url in
  let TARGET_PLATFORM := detect_platform url in
  (if bool_decide (TARGET_PLATFORM ∈ [YouTube; TikTok]) then
     act_of (VerifyPlatformCookies TARGET_PLATFORM) ;;
     let has_cookies := cookies_verified h TARGET_PLATFORM in
     if negb has_cookies then
       print (nl +:+ Colors.YELLOW +:+ "⚠️ No se detectaron cookies recientes para "
              +:+ platform_str TARGET_PLATFORM +:+ "." +:+ Colors.RESET) ;;
       print (Colors.CYAN
              +:+ "Si necesitas iniciar sesión, selecciona la opción 13 en el siguiente menú."
              +:+ Colors.RESET)
     else ret tt
   else ret tt) ;;
  print_all menu ;;
  choice <- input prompt_choice ;;
  if bool_decide (choice = "13") then
    ret {| cfg_url := url;
           cfg_operations :=
             {[ "download_video" := PBool false; "download_audio" := PBool false;
                "extract_voice" := PBool false; "transcribe" := PBool false;
                "download_subtitles" := PBool false; "translate_subtitles" := PBool false;
                "open_browser" := PBool true ]};
           cfg_download_thumbnail := None;
           cfg_download_description := None |}
  else
    let '(v, a, e, t, s, ts) :=
      default (true, false, false, false, false, false) (ops_map !! choice) in
    let operations : dict :=
      {[ "download_video" := PBool v; "download_audio" := PBool a;
         "extract_voice" := PBool e; "transcribe" := PBool t;
         "download_subtitles" := PBool s; "translate_subtitles" := PBool ts;
         "open_browser" := PBool false ]} in
    operations <-
      (if bool_decide (choice = "4") then
         print (nl +:+ Colors.CYAN +:+ "📝 Configuración de Transcripción:" +:+ Colors.RESET) ;;
         print "  1. Individual (Un archivo por audio)" ;;
         print "  2. Unificada (Un solo archivo con todo)" ;;
         transcribe_mode <- input prompt_transcribe_mode ;;
         let operations :=
           <[ "transcribe_mode" :=
                PStr (if bool_decide (transcribe_mode = "2") then "unified" else "individual") ]>
             operations in
         if bool_decide (operations !! "transcribe_mode" = Some (PStr "unified")) then
           keep <- input prompt_keep ;;
           ret (<[ "keep_individual" := PBool (bool_decide (Str.lower keep = "s")) ]> operations)
         else ret operations
       else ret operations) ;;
    operations <-
      (if s then
         print (nl +:+ "  1. Descargar subtítulos del video " +:+ nl
                +:+ "  2. Generar subtítulos con Whisper") ;;
         source <- input prompt_source ;;
         let operations :=
           <[ "subtitle_source" :=
                PStr (if bool_decide (source = "1") then "download" else "generate") ]>
             operations in
         let operations := <[ "subtitle_lang" := PStr "es" ]> operations in
         ret (if ts then <[ "target_lang" := PStr "en" ]> operations else operations)
       else ret operations) ;;
    thumbnail <- input prompt_thumbnail ;;
    description <- input prompt_description ;;
    print (nl +:+ Colors.YELLOW +:+ "🛡️ ¿Vas a descargar una lista de reproducción muy grande?"
           +:+ Colors.RESET) ;;
    safe_mode_choice <- input prompt_safe_mode ;;
    let operations :=
      <[ "safe_mode" := PBool (bool_decide (Str.lower safe_mode_choice <> "n")) ]> operations in
    ret {| cfg_url := url;
           cfg_operations := operations;
           cfg_download_thumbnail := Some (bool_decide (Str.lower thumbnail = "s"));
           cfg_download_description := Some (bool_decide (Str.lower description = "s")) |}.

(** The callees that take [current_audio_path].  Each begins with
    [Path(audio_path)], which raises [TypeError] for anything but a path,
    with the message [path_type_error]:
    [generate_subtitles_with_whisper] (lines 621-637) does so inside its
    bare [except], and returns [None]; [extract_voice_optimized] (line
    640) and [transcribe_audio_optimized] (line 541) do so outside any
    [try].  For a path the three return a path or [None]. *)

Definition generate_subtitles_with_whisper (audio_path language : pyval)
    : Orch (option string) :=
  act_of (GenerateSubtitlesWithWhisper audio_path language) ;;
  match audio_path with
  | PStr p => ret (whisper_subtitles h p language)
  | _ => ret None
  end.

Definition extract_voice_optimized (audio_path : pyval) : Orch (option string) :=
  act_of (ExtractVoiceOptimized audio_path) ;;
  match audio_path with
  | PStr p => ret (vocals h p)
  | _ => raise (TypeError (path_type_error h audio_path))
  end.

Definition transcribe_audio_optimized (audio_path : pyval) : Orch (option string) :=
  act_of (TranscribeAudioOptimized audio_path) ;;
  match audio_path with
  | PStr p => ret (transcription h p)
  | _ => raise (TypeError (path_type_error h audio_path))
  end.

Definition translate_subtitle_file (subtitle_path : string) (target_lang : pyval)
    : Orch (option string) :=
  act_of (TranslateSubtitleFile subtitle_path target_lang) ;;
  ret (translation h subtitle_path target_lang).

(** [subprocess.run] of line 741, which raises if the program cannot be
    started ([ffmpeg_error] is the message). *)
Definition run_ffmpeg (command : list string) : Orch unit :=
  act_of (Ffmpeg command) ;;
  match ffmpeg_error h command with
  | Some message => raise (FileNotFoundError message)
  | None => ret tt
  end.

Definition is_truthy_path (o : option string) : bool := truthy (of_option o).

(** Lines 716-755.  The first component of the result of the body tells
    whether it was left by the [return] of line 733. *)
Definition process_single_file (file_path : string) (operations : dict) : Orch results :=
  try_except
    (let file_obj := file_path in
     let is_video :=
       bool_decide (Str.lower (suffix file_obj) ∈ [".mp4"; ".mkv"; ".webm"; ".flv"; ".mov"]) in
     let is_audio :=
       bool_decide (Str.lower (suffix file_obj) ∈ [".mp3"; ".wav"; ".m4a"; ".flac"]) in
     let current_audio_path := if is_audio then PStr file_path else PNone in
     let safe_mode := get operations "safe_mode" (PBool false) in
     step <-
       (if Str.startswith "http" file_path
           && truthy (get operations "download_subtitles" (PBool false)) then
          if bool_decide (get operations "subtitle_source" PNone = PStr "download") then
            act_of (DownloadSubtitlesDirect file_path
                      (get operations "subtitle_lang" (PStr "es")) safe_mode) ;;
            let subs :=
              subtitle_file h file_path (get operations "subtitle_lang" (PStr "es"))
                            safe_mode in
            (if is_truthy_path subs
                && truthy (get operations "translate_subtitles" (PBool false)) then
               translate_subtitle_file (default "" subs)
                 (get operations "target_lang" (PStr "en")) ;; ret tt
             else ret tt) ;;
            ret (inl {| success := true; errors := []; transcription_path := None |})
          else if bool_decide (get operations "subtitle_source" PNone = PStr "generate") then
            act_of (DownloadAudioDirect file_path None safe_mode) ;;
            ret (inr (PList (audio_files h file_path None safe_mode)))
          else ret (inr current_audio_path)
        else ret (inr current_audio_path)) ;;
     match step with
     | inl returned => ret returned
     | inr current_audio_path =>
         current_audio_path <-
           (if is_video
               && (truthy (get operations "extract_voice" (PBool false))
                   || truthy (get operations "transcribe" (PBool false))
                   || truthy (get operations "generate_subtitles" (PBool false))) then
              let audio_path := AUDIO_DIR // (stem file_obj +:+ ".mp3") in
              (if negb (path_exists h audio_path) then
                 run_ffmpeg ["ffmpeg"; "-y"; "-i"; file_path; "-vn"; "-acodec"; "libmp3lame";
                             "-q:a"; "2"; audio_path]
               else ret tt) ;;
              ret (PStr audio_path)
            else ret current_audio_path) ;;
         (if bool_decide (get operations "subtitle_source" PNone = PStr "generate")
             && truthy current_audio_path then
            subs <- generate_subtitles_with_whisper current_audio_path
                      (get operations "subtitle_lang" (PStr "es")) ;;
            if is_truthy_path subs
               && truthy (get operations "translate_subtitles" (PBool false)) then
              translate_subtitle_file (default "" subs)
                (get operations "target_lang" (PStr "en")) ;; ret tt
            else ret tt
          else ret tt) ;;
         (if truthy (get operations "extract_voice" (PBool false))
             && truthy current_audio_path then
            extract_voice_optimized current_audio_path ;; ret tt
          else ret tt) ;;
         trans <-
           (if truthy (get operations "transcribe" (PBool false))
               && truthy current_audio_path then
              trans_path <- transcribe_audio_optimized current_audio_path ;;
              ret (if is_truthy_path trans_path then trans_path else None)
            else ret None) ;;
         ret {| success := true; errors := []; transcription_path := trans |}
     end)
    (fun e => ret {| success := false; errors := [error_str e]; transcription_path := None |}).

(** The loop of lines 881-884. *)
Fixpoint process_files (files : list string) (operations : dict)
    (transcription_paths : list string) : Orch (list string) :=
  match files with
  | [] => ret transcription_paths
  | file :: rest =>
      result <- process_single_file file operations ;;
      process_files rest operations
        (if is_truthy_path (transcription_path result)
         then transcription_paths ++ [default "" (transcription_path result)]
         else transcription_paths)
  end.

(** [main] from the configuration on, lines 857-890. *)
Definition main_dispatch (config : config) : Orch unit :=
  let operations := cfg_operations config in
  if truthy (get operations "open_browser" PNone) then
    act_of (OpenBrowserForLogin (cfg_url config)) ;;
    print (nl +:+ Colors.GREEN +:+ "🎉 ¡Navegador cerrado y cookies sincronizadas con éxito!"
           +:+ Colors.RESET)
  else
    print (nl +:+ BLUE +:+ "🚀 Iniciando procesamiento..." +:+ Colors.RESET) ;;
    let safe_mode := get operations "safe_mode" (PBool false) in
    only_subtitles <-
      (s <- item operations "download_subtitles" ;;
       if truthy s then
         v <- item operations "download_video" ;;
         if negb (truthy v) then
           a <- item operations "download_audio" ;;
           ret (negb (truthy a))
         else ret false
       else ret false) ;;
    (if only_subtitles then
       process_single_file (cfg_url config) operations ;; ret tt
     else
       let options :=
         ["--no-overwrites"]
         ++ (if default false (cfg_download_thumbnail config) then ["--write-thumbnail"] else [])
         ++ (if default false (cfg_download_description config)
             then ["--write-description"] else []) in
       v <- item operations "download_video" ;;
       files <-
         (if truthy v then
            act_of (DownloadVideoDirect (cfg_url config) options safe_mode) ;;
            ret (video_files h (cfg_url config) options safe_mode)
          else
            a <- item operations "download_audio" ;;
            if truthy a then
              act_of (DownloadAudioDirect (cfg_url config) (Some options) safe_mode) ;;
              ret (audio_files h (cfg_url config) (Some options) safe_mode)
            else ret []) ;;
       if bool_decide (files <> []) then
         print_status ("Se procesarán " +:+ pretty (length files) +:+ " archivos nuevos.")
                      "info" ;;
         transcription_paths <- process_files files operations [] ;;
         if bool_decide (get operations "transcribe_mode" PNone = PStr "unified")
            && bool_decide (transcription_paths <> []) then
           act_of (UnifyTranscriptions transcription_paths
                     (get operations "keep_individual" (PBool true)))
         else ret tt
       else print_status "No se descargaron nuevos archivos." "warning") ;;
    print (nl +:+ Colors.GREEN +:+ "🎉 ¡Procesamiento completado!" +:+ Colors.RESET).

(** The body of the [try] of [main], lines 852-890. *)
Definition main_try : Orch unit :=
  check_dependencies ;;
  act_of UpdateYtDlp ;;
  act_of SetupChromiumProfiles ;;
  config <- get_user_input ;;
  main_dispatch config.

Definition main : Orch unit := try_finally main_try (act_of CleanupTempFiles).

End Dispatch.

(** What the operator chose. *)
Definition chosen (h : Host) : string := typed h prompt_choice.

Definition entered_url (h : Host) : string :=
  if bool_decide (typed h prompt_url = "") then "https://www.youtube.com"
  else typed h prompt_url.

Definition chosen_flags (h : Host) : flags :=
  default (true, false, false, false, false, false) (ops_map !! chosen h).

Definition chosen_source (h : Host) : string :=
  if bool_decide (typed h prompt_source = "1") then "download" else "generate".

Definition chosen_safe_mode (h : Host) : pyval :=
  PBool (bool_decide (Str.lower (typed h prompt_safe_mode) <> "n")).

Definition is_dialogue (a : act) : bool :=
  match a with
  | Asked _ | Printed _ | VerifyPlatformCookies _ => true
  | _ => false
  end.

(** The entries of the configuration, as the answers determine them. *)
Definition configured (h : Host) (config : config) : Prop :=
  let operations := cfg_operations config in
  cfg_url config = entered_url h /\
  if bool_decide (chosen h = "13") then
    operations
    = {[ "download_video" := PBool false; "download_audio" := PBool false;
         "extract_voice" := PBool false; "transcribe" := PBool false;
         "download_subtitles" := PBool false; "translate_subtitles" := PBool false;
         "open_browser" := PBool true ]} /\
    cfg_download_thumbnail config = None /\ cfg_download_description config = None
  else
    let '(v, a, e, t, s, ts) := chosen_flags h in
    let unified :=
      bool_decide (chosen h = "4") && bool_decide (typed h prompt_transcribe_mode = "2") in
    operations !! "download_video" = Some (PBool v) /\
    operations !! "download_audio" = Some (PBool a) /\
    operations !! "extract_voice" = Some (PBool e) /\
    operations !! "transcribe" = Some (PBool t) /\
    operations !! "download_subtitles" = Some (PBool s) /\
    operations !! "translate_subtitles" = Some (PBool ts) /\
    operations !! "open_browser" = Some (PBool false) /\
    operations !! "generate_subtitles" = None /\
    operations !! "safe_mode" = Some (chosen_safe_mode h) /\
    operations !! "subtitle_source" = (if s then Some (PStr (chosen_source h)) else None) /\
    operations !! "subtitle_lang" = (if s then Some (PStr "es") else None) /\
    operations !! "target_lang" = (if s && ts then Some (PStr "en") else None) /\
    operations !! "transcribe_mode"
    = (if bool_decide (chosen h = "4")
       then Some (PStr (if unified then "unified" else "individual")) else None) /\
    operations !! "keep_individual"
    = (if unified then Some (PBool (bool_decide (Str.lower (typed h prompt_keep) = "s")))
       else None) /\
    cfg_download_thumbnail config
    = Some (bool_decide (Str.lower (typed h prompt_thumbnail) = "s")) /\
    cfg_download_description config
    = Some (bool_decide (Str.lower (typed h prompt_description) = "s")).

(** [operations.get(key)] as a condition. *)
Definition flag (operations : dict) (key : string) : bool :=
  truthy (get operations key PNone).

(** Every action of the computation passes [ok]; the computation fails
    with an [Exception] if it fails at all. *)
Definition emits {A} (ok : act -> bool) (m : Orch A) : Prop :=
  forallb ok m.2 = true.

Definition contained {A} (m : Orch A) : Prop :=
  forall e, m.1 = Failed e -> is_Exception e = true.

(** What a trace shows. *)
Definition is_subtitle_action (a : act) : bool :=
  match a with
  | DownloadSubtitlesDirect _ _ _ | GenerateSubtitlesWithWhisper _ _
  | TranslateSubtitleFile _ _ => true
  | _ => false
  end.

Definition is_subtitle_download (a : act) : bool :=
  match a with
  | DownloadSubtitlesDirect _ _ _ => true
  | _ => false
  end.

(** The calls that download or process media. *)
Definition is_processing (a : act) : bool :=
  match a with
  | DownloadVideoDirect _ _ _ | DownloadAudioDirect _ _ _ | DownloadSubtitlesDirect _ _ _
  | TranslateSubtitleFile _ _ | GenerateSubtitlesWithWhisper _ _
  | ExtractVoiceOptimized _ | TranscribeAudioOptimized _ | Ffmpeg _
  | UnifyTranscriptions _ _ => true
  | _ => false
  end.

(** The [options] list of [main], lines 870-872. *)
Definition chosen_options (h : Host) : list string :=
  ["--no-overwrites"]
  ++ (if bool_decide (Str.lower (typed h prompt_thumbnail) = "s")
      then ["--write-thumbnail"] else [])
  ++ (if bool_decide (Str.lower (typed h prompt_description) = "s")
      then ["--write-description"] else []).

End Main.

(** A host for the examples: the operator's three answers that matter, one
    video file, one audio file. *)
Module DemoHost.

Definition answers (url choice source : string) (prompt : string) : string :=
  if bool_decide (prompt = Main.prompt_url) then url
  else if bool_decide (prompt = Main.prompt_choice) then choice
  else if bool_decide (prompt = Main.prompt_source) then source
  else "".

Definition host (url choice source : string) : Main.Host :=
  {| Main.PROJECT_DIR := "/srv/ytdpl";
     Main.typed := answers url choice source;
     Main.dependencies_present := true;
     Main.cookies_verified := fun _ => true;
     Main.video_files := fun _ _ _ => ["/srv/ytdpl/downloads/clip.mp4"];
     Main.audio_files := fun _ _ _ => ["/srv/ytdpl/audio/clip.mp3"];
     Main.subtitle_file := fun _ _ _ => Some "/srv/ytdpl/subtitles/clip.es.srt";
     Main.translation := fun _ _ => Some "/srv/ytdpl/subtitles/clip.es_en.srt";
     Main.whisper_subtitles := fun _ _ => Some "/srv/ytdpl/subtitles/clip_es.srt";
     Main.vocals := fun _ => Some "/srv/ytdpl/vocals/clip_vocals.mp3";
     Main.transcription := fun _ => Some "/srv/ytdpl/transcriptions/clip.txt";
     Main.path_exists := fun _ => false;
     Main.ffmpeg_error := fun _ => None;
     Main.path_type_error := fun _ => "expected str, bytes or os.PathLike object, not list" |}.

End DemoHost.

(** * Properties *)

(** ** Strings *)

Section StringFacts.

Implicit Types (s k a b : string).

Lemma app_String c a b : String c a +:+ b = String c (a +:+ b).
Proof. reflexivity. Qed.

Lemma app_Empty s : "" +:+ s = s.
Proof. reflexivity. Qed.

Lemma app_empty_r s : s +:+ "" = s.
Proof. induction s as [|c s IH]; [done | by rewrite app_String, IH]. Qed.

Lemma app_assoc_s a b s : (a +:+ b) +:+ s = a +:+ (b +:+ s).
Proof. induction a as [|c a IH]; [done | by rewrite !app_String, IH]. Qed.

Lemma lower_app a b : Str.lower (a +:+ b) = Str.lower a +:+ Str.lower b.
Proof.
  induction a as [|c a IH]; [done |].
  rewrite app_String. simpl. by rewrite IH, app_String.
Qed.

Lemma lower_ascii_idemp c : Str.lower_ascii (Str.lower_ascii c) = Str.lower_ascii c.
Proof. by destruct c as [[] [] [] [] [] [] [] []]. Qed.

Lemma lower_idemp s : Str.lower (Str.lower s) = Str.lower s.
Proof.
  induction s as [|c s IH]; simpl; [done |].
  by rewrite lower_ascii_idemp, IH.
Qed.

Lemma startswith_spec k s : Str.startswith k s = true <-> exists b, s = k +:+ b.
Proof.
  revert s. induction k as [|c k IH]; intros s; simpl.
  - split; [intros _; by exists s | done].
  - destruct s as [|d s].
    + split; [done | intros [b Hb]; discriminate].
    + destruct (decide (c = d)) as [->|Hne].
      * rewrite IH. split; intros [b Hb]; exists b.
        -- by rewrite app_String, Hb.
        -- rewrite app_String in Hb. congruence.
      * split; [done | intros [b Hb]; rewrite app_String in Hb; congruence].
Qed.

Lemma contains_spec k s :
  Str.contains k s = true <-> exists a b, s = a +:+ k +:+ b.
Proof.
  induction s as [|c s IH]; simpl.
  - rewrite orb_false_r, startswith_spec. split.
    + intros [b Hb]. by exists "", b.
    + intros [a [b Hab]]. destruct a; [by exists b | discriminate].
  - rewrite orb_true_iff, startswith_spec, IH. split.
    + intros [[b Hb] | [a [b Hab]]].
      * by exists "", b.
      * exists (String c a), b. by rewrite app_String, Hab.
    + intros [a [b Hab]]. destruct a as [|d a].
      * left. by exists b.
      * right. exists a, b. rewrite app_String in Hab. congruence.
Qed.

Lemma contains_app k s a b :
  Str.contains k s = true -> Str.contains k (a +:+ s +:+ b) = true.
Proof.
  rewrite !contains_spec. intros [x [y ->]].
  exists (a +:+ x), (y +:+ b). by rewrite !app_assoc_s.
Qed.

Lemma any_in_spec ks s :
  Str.any_in ks s = true <-> exists k, k ∈ ks /\ Str.contains k s = true.
Proof.
  unfold Str.any_in. rewrite existsb_exists.
  split; intros [k [Hk Hc]]; exists k; by rewrite ?list_elem_of_In in *.
Qed.

Lemma any_in_app ks s a b :
  Str.any_in ks s = true -> Str.any_in ks (a +:+ s +:+ b) = true.
Proof.
  rewrite !any_in_spec. intros [k [Hk Hc]]. exists k. eauto using contains_app.
Qed.

Lemma join_app l1 l2 : Str.join (l1 ++ l2) = Str.join l1 +:+ Str.join l2.
Proof.
  induction l1 as [|x l1 IH]; [done |].
  change (Str.join ((x :: l1) ++ l2)) with (x +:+ Str.join (l1 ++ l2)).
  change (Str.join (x :: l1)) with (x +:+ Str.join l1).
  by rewrite IH, app_assoc_s.
Qed.

Lemma join_snoc l x : Str.join (l ++ [x]) = Str.join l +:+ x.
Proof.
  rewrite join_app. change (Str.join [x]) with (x +:+ "").
  by rewrite app_empty_r.
Qed.

End StringFacts.

(** ** Case *)

Lemma lower_ascii_cases c :
  Str.lower_ascii c = c \/ (c, Str.lower_ascii c) ∈ letter_cases.
Proof.
  apply (bool_decide_eq_true_1 _).
  by destruct c as [[] [] [] [] [] [] [] []]; vm_compute.
Qed.

Lemma letter_cases_lower a b :
  (a, b) ∈ letter_cases -> Str.lower_ascii a = b /\ Str.lower_ascii b = b.
Proof.
  unfold letter_cases. cbn [capitals smalls String.list_ascii_of_string zip_with].
  intros H. repeat (apply elem_of_cons in H as [[= -> ->] | H]; [by split |]).
  by apply elem_of_nil in H.
Qed.

Lemma letter_cases_inj :
  Forall (fun p => Forall (fun q => p.2 = q.2 -> p.1 = q.1) letter_cases) letter_cases.
Proof. apply (bool_decide_eq_true_1 _). by vm_compute. Qed.

Lemma same_letter_lower a b :
  same_letter a b <-> Str.lower_ascii a = Str.lower_ascii b.
Proof.
  split.
  - intros [-> | [H | H]]; [done | |]; apply letter_cases_lower in H as [H1 H2]; congruence.
  - intros Heq.
    destruct (lower_ascii_cases a) as [Ha | Ha], (lower_ascii_cases b) as [Hb | Hb].
    + left. congruence.
    + right; right. by rewrite <- Ha, Heq.
    + right; left. by rewrite <- Hb, <- Heq.
    + left. rewrite Heq in Ha.
      pose proof letter_cases_inj as Hinj. rewrite Forall_forall in Hinj.
      specialize (Hinj _ Ha). rewrite Forall_forall in Hinj. by apply (Hinj _ Hb).
Qed.

Lemma same_text_lower s t : same_text s t <-> Str.lower s = Str.lower t.
Proof.
  revert t. induction s as [|a s IH]; intros [|b t]; simpl; try done.
  rewrite same_letter_lower, IH. split; [by intros [-> ->] | by intros [= -> ->]].
Qed.

Lemma lower_split s x y :
  Str.lower s = x +:+ y ->
  exists s1 s2, s = s1 +:+ s2 /\ Str.lower s1 = x /\ Str.lower s2 = y.
Proof.
  revert s. induction x as [|c x IH]; intros s Hs.
  - by exists "", s.
  - destruct s as [|d s]; [done |]. rewrite app_String in Hs. simpl in Hs.
    injection Hs as Hd Hs. apply IH in Hs as (s1 & s2 & -> & H1 & H2).
    exists (String d s1), s2. simpl. by rewrite app_String, Hd, H1.
Qed.

(** The search on lowercase text is the search that ignores case. *)
Lemma contains_lower_spec k s :
  Str.contains (Str.lower k) (Str.lower s) = true <-> occurs_ignoring_case k s.
Proof.
  rewrite contains_spec. unfold occurs_ignoring_case. split.
  - intros (x & y & Hs). apply lower_split in Hs as (a & r & -> & <- & Hr).
    apply lower_split in Hr as (m & b & -> & Hm & <-).
    exists a, m, b. split; [done |]. by apply same_text_lower.
  - intros (a & m & b & -> & Hm%same_text_lower).
    exists (Str.lower a), (Str.lower b). by rewrite !lower_app, Hm.
Qed.

Lemma occurs_ignoring_case_app k s a b :
  occurs_ignoring_case k s -> occurs_ignoring_case k (a +:+ s +:+ b).
Proof.
  intros (x & m & y & -> & Hm). exists (a +:+ x), m, (y +:+ b).
  split; [by rewrite !app_assoc_s | done].
Qed.

Lemma occurs_ignoring_case_same k s s' :
  same_text s' s -> occurs_ignoring_case k s' <-> occurs_ignoring_case k s.
Proof.
  intros H%same_text_lower. by rewrite <- !contains_lower_spec, H.
Qed.

(** ** Monad equations *)

Lemma bind_Ok {A B} (m : M A) (f : A -> M B) g a g1 t1 :
  m g = (Ok a, g1, t1) ->
  bind m f g = (let '(r, g2, t2) := f a g1 in (r, g2, t1 ++ t2)).
Proof. intros H. unfold bind. by rewrite H. Qed.

Lemma bind_Raised {A B} (m : M A) (f : A -> M B) g e g1 t1 :
  m g = (Raised e, g1, t1) -> bind m f g = (Raised e, g1, t1).
Proof. intros H. unfold bind. by rewrite H. Qed.

Lemma gate_count_app t1 t2 : gate_count (t1 ++ t2) = (gate_count t1 + gate_count t2)%nat.
Proof. unfold gate_count. by rewrite filter_app, length_app. Qed.

Lemma gate_count_cons e t :
  gate_count (e :: t) = ((if is_Input e then 1 else 0) + gate_count t)%nat.
Proof. unfold gate_count. rewrite filter_cons. by destruct (is_Input e). Qed.

Lemma error_reported_app t1 t2 :
  error_reported (t1 ++ t2) = error_reported t1 || error_reported t2.
Proof. apply existsb_app. Qed.

Lemma error_reported_cons e t :
  error_reported (e :: t) = is_error_status e || error_reported t.
Proof. reflexivity. Qed.

(** ** Credential pool *)

Lemma get_next_empty w g :
  CHROMIUM_PROFILES g = [] ->
  get_next_chromium_profile w g =
    (Ok (USER_HOME w // "chromium_data_1"), g,
     [Makedirs (USER_HOME w // "chromium_data_1" // "Default")]).
Proof.
  intros H. unfold get_next_chromium_profile, bind, get_globals.
  by rewrite bool_decide_eq_true_2.
Qed.

Lemma get_next_lookup w g p :
  CHROMIUM_PROFILES g !! CURRENT_PROFILE_INDEX g = Some p ->
  get_next_chromium_profile w g =
    (Ok p,
     {| CHROMIUM_PROFILES := CHROMIUM_PROFILES g;
        CURRENT_PROFILE_INDEX :=
          ((CURRENT_PROFILE_INDEX g + 1) mod length (CHROMIUM_PROFILES g))%nat |},
     []).
Proof.
  intros H. unfold get_next_chromium_profile, bind, get_globals, index.
  rewrite bool_decide_eq_false_2; [| by intros E; rewrite E in H].
  by rewrite H.
Qed.

Lemma joinpath_nonempty base child : base // child <> "".
Proof. unfold PurePath.joinpath. by destruct base. Qed.

Lemma get_next_total w g :
  pool_ok g ->
  exists p g' t,
    get_next_chromium_profile w g = (Ok p, g', t) /\
    CHROMIUM_PROFILES g' = CHROMIUM_PROFILES g /\ pool_ok g' /\
    (gate_count t = 0%nat /\ error_reported t = false) /\
    (pool_named g -> p <> "").
Proof.
  intros [Hnil | Hlt].
  - eexists _, g, _. split; [by apply get_next_empty |].
    split; [done |]. split; [by left |]. split; [done |].
    intros _. apply joinpath_nonempty.
  - destruct (lookup_lt_is_Some_2 _ _ Hlt) as [p Hp].
    eexists p, _, _. split; [by apply get_next_lookup |]. simpl.
    split; [done |]. split; [| split; [done |]].
    + right. simpl. apply Nat.mod_upper_bound. lia.
    + intros Hn. unfold pool_named in Hn. rewrite Forall_forall in Hn.
      apply Hn. by eapply list_elem_of_lookup_2.
Qed.

Lemma call_get_next_cycle w n pool c :
  (c < length pool)%nat ->
  call_get_next w n {| CHROMIUM_PROFILES := pool; CURRENT_PROFILE_INDEX := c |} =
    (Ok ((fun i => pool !!! ((c + i) mod length pool)%nat) <$> seq 0 n),
     {| CHROMIUM_PROFILES := pool;
        CURRENT_PROFILE_INDEX := ((c + n) mod length pool)%nat |},
     []).
Proof.
  revert c. induction n as [|n IH]; intros c Hc.
  - simpl. unfold ret. by rewrite Nat.add_0_r, Nat.mod_small.
  - destruct (lookup_lt_is_Some_2 _ _ Hc) as [p Hp].
    cbn [call_get_next].
    erewrite bind_Ok; [| by apply get_next_lookup]. cbn [CHROMIUM_PROFILES CURRENT_PROFILE_INDEX].
    assert (Hc' : ((c + 1) mod length pool < length pool)%nat)
      by (apply Nat.mod_upper_bound; lia).
    erewrite bind_Ok; [| by apply IH]. unfold ret. simpl.
    rewrite Nat.add_0_r, (Nat.mod_small c) by done.
    rewrite (list_lookup_total_correct _ _ _ Hp).
    rewrite <- fmap_S_seq, <- list_fmap_compose.
    rewrite !Nat.Div0.add_mod_idemp_l.
    replace (c + 1 + n)%nat with (c + S n)%nat by lia.
    do 4 f_equal. apply list_fmap_ext. intros _ i _. simpl.
    rewrite Nat.Div0.add_mod_idemp_l. do 2 f_equal. lia.
Qed.

Lemma get_next_fs_nonempty w makedirs g :
  CHROMIUM_PROFILES g <> [] ->
  get_next_chromium_profile_fs w makedirs g = get_next_chromium_profile w g.
Proof.
  intros H. unfold get_next_chromium_profile_fs, get_next_chromium_profile, bind, get_globals.
  by rewrite bool_decide_eq_false_2.
Qed.

Lemma get_next_fs_empty w makedirs g :
  CHROMIUM_PROFILES g = [] ->
  get_next_chromium_profile_fs w makedirs g =
    (match makedirs (USER_HOME w // "chromium_data_1" // "Default") with
     | None => Ok (USER_HOME w // "chromium_data_1")
     | Some e => Raised e
     end, g, [Makedirs (USER_HOME w // "chromium_data_1" // "Default")]).
Proof.
  intros H. unfold get_next_chromium_profile_fs, bind, get_globals.
  rewrite bool_decide_eq_true_2 by done. cbv zeta. unfold emit, raise, ret.
  by destruct (makedirs _).
Qed.

Lemma call_get_next_fs_nonempty w makedirs n g :
  CHROMIUM_PROFILES g <> [] ->
  call_get_next_fs w makedirs n g = call_get_next w n g.
Proof.
  revert g. induction n as [|n IH]; intros g Hg; [done |].
  cbn [call_get_next_fs call_get_next]. unfold bind at 1 3.
  rewrite get_next_fs_nonempty by done.
  destruct (get_next_chromium_profile w g) as [[[p|e] g1] t1] eqn:Hrun; [| done].
  assert (Hg1 : CHROMIUM_PROFILES g1 <> []).
  { revert Hrun. unfold get_next_chromium_profile, bind, get_globals, index.
    rewrite bool_decide_eq_false_2 by done.
    destruct (CHROMIUM_PROFILES g !! CURRENT_PROFILE_INDEX g); [| done].
    by intros [= _ <- _]. }
  unfold bind. by rewrite IH.
Qed.

(** C9: successive calls on a pool of three identities return them in
    round-robin order, moving the cursor by one modulo three on each call
    and touching nothing outside; on an empty pool the call asks
    [os.makedirs] for the [Default] directory of the default identity under
    the home directory and returns that identity, leaving the globals as
    they were, unless [os.makedirs] raises, in which case its exception
    leaves the function; whenever the cursor points into the pool and, for
    an empty pool, [os.makedirs] returns, the call returns an identity and
    keeps the cursor inside the pool. *)
Theorem get_next_chromium_profile_round_robin (w : World) (makedirs : string -> option exn)
    (g : Globals) (Hok : pool_ok g) :
  (forall I0 I1 I2 n,
      call_get_next_fs w makedirs n
        {| CHROMIUM_PROFILES := [I0; I1; I2]; CURRENT_PROFILE_INDEX := 0 |} =
        (Ok ((fun i => [I0; I1; I2] !!! (i mod 3)%nat) <$> seq 0 n),
         {| CHROMIUM_PROFILES := [I0; I1; I2]; CURRENT_PROFILE_INDEX := (n mod 3)%nat |},
         []))
  /\ (CHROMIUM_PROFILES g = [] ->
      get_next_chromium_profile_fs w makedirs g =
        (match makedirs (USER_HOME w // "chromium_data_1" // "Default") with
         | None => Ok (USER_HOME w // "chromium_data_1")
         | Some e => Raised e
         end, g,
         [Makedirs (USER_HOME w // "chromium_data_1" // "Default")]))
  /\ (CHROMIUM_PROFILES g <> [] \/
      makedirs (USER_HOME w // "chromium_data_1" // "Default") = None ->
      exists p g' t,
        get_next_chromium_profile_fs w makedirs g = (Ok p, g', t) /\
        CHROMIUM_PROFILES g' = CHROMIUM_PROFILES g /\ pool_ok g')
  /\ ((forall path, makedirs path = None) ->
      get_next_chromium_profile_fs w makedirs g = get_next_chromium_profile w g).
Proof.
  split; [| split; [| split]].
  - intros I0 I1 I2 n. rewrite call_get_next_fs_nonempty by done.
    by rewrite (call_get_next_cycle w n [I0; I1; I2] 0) by (simpl; lia).
  - apply get_next_fs_empty.
  - intros Hcase.
    destruct (decide (CHROMIUM_PROFILES g = [])) as [Hnil | Hne].
    + destruct Hcase as [? | Hmk]; [done |].
      rewrite (get_next_fs_empty _ _ _ Hnil), Hmk.
      eexists _, g, _. split; [done |]. split; [done |]. by left.
    + rewrite get_next_fs_nonempty by done.
      destruct (get_next_total w g Hok) as (p & g' & t & H & Hp & Hok' & _).
      by exists p, g', t.
  - intros Hmk. destruct (decide (CHROMIUM_PROFILES g = [])) as [Hnil | Hne].
    + by rewrite (get_next_fs_empty _ _ _ Hnil), Hmk, get_next_empty.
    + by apply get_next_fs_nonempty.
Qed.

Lemma get_next_chromium_profile_round_robin_witness :
  pool_ok Demo.pool3 /\
  value_of (call_get_next_fs (Demo.world (Demo.always Demo.clean_exit) Demo.empty_dir
                                         Demo.zero_mtime Demo.no_files)
                             (fun _ => None) 7 Demo.pool3) =
    Ok ["/home/u/chromium_data_1"; "/home/u/chromium_data_2"; "/home/u/chromium_data_3";
        "/home/u/chromium_data_1"; "/home/u/chromium_data_2"; "/home/u/chromium_data_3";
        "/home/u/chromium_data_1"].
Proof.
  assert (Hok : pool_ok Demo.pool3) by (right; simpl; lia).
  split; [exact Hok |].
  destruct (get_next_chromium_profile_round_robin
              (Demo.world (Demo.always Demo.clean_exit) Demo.empty_dir
                          Demo.zero_mtime Demo.no_files) (fun _ => None) Demo.pool3 Hok)
    as [H _].
  unfold Demo.pool3. rewrite H. reflexivity.
Defined.

(** C9, as the claim states it, fails on an empty pool when the [Default]
    directory cannot be made: here its path is taken by a regular file, and
    the [FileExistsError] of [os.makedirs] leaves the function. *)
Lemma get_next_makedirs_raises_counterexample :
  let w := Demo.world (Demo.always Demo.clean_exit) Demo.empty_dir Demo.zero_mtime
                      Demo.no_files in
  let file_exists :=
    OSError "[Errno 17] File exists: '/home/u/chromium_data_1/Default'" in
  let makedirs := fun path : string =>
    if bool_decide (path = "/home/u/chromium_data_1/Default") then Some file_exists
    else None in
  pool_ok initial_globals /\
  CHROMIUM_PROFILES initial_globals = [] /\
  get_next_chromium_profile_fs w makedirs initial_globals =
    (Raised file_exists, initial_globals, [Makedirs "/home/u/chromium_data_1/Default"]).
Proof. split; [by left |]. split; reflexivity. Qed.

Example get_next_on_empty_pool :
  run (call_get_next (Demo.world (Demo.always Demo.clean_exit) Demo.empty_dir
                                 Demo.zero_mtime Demo.no_files) 2) initial_globals =
    (Ok ["/home/u/chromium_data_1"; "/home/u/chromium_data_1"], initial_globals,
     [Makedirs "/home/u/chromium_data_1/Default"; Makedirs "/home/u/chromium_data_1/Default"]).
Proof. reflexivity. Qed.

(** ** Output classification *)

Lemma is_rate_limited_spec line :
  is_rate_limited line = true <-> occurs_ignoring_case rate_limit_phrase line.
Proof. unfold is_rate_limited. apply (contains_lower_spec rate_limit_phrase). Qed.

Lemma block_phrases_lower k : k ∈ block_phrases -> Str.lower k = k.
Proof.
  unfold block_phrases. intros H.
  repeat (apply elem_of_cons in H as [-> | H]; [reflexivity |]).
  by apply elem_of_nil in H.
Qed.

Lemma is_hard_block_spec line :
  is_hard_block line = true <->
  occurs_ignoring_case error_marker line /\
  exists k, k ∈ block_phrases /\ occurs_ignoring_case k line.
Proof.
  unfold is_hard_block. cbv zeta.
  rewrite andb_true_iff, any_in_spec, <- (contains_lower_spec error_marker).
  split; intros [He [k [Hk Hc]]]; (split; [exact He |]); exists k; (split; [exact Hk |]);
    pose proof (block_phrases_lower k Hk) as Hlow.
  - apply contains_lower_spec. by rewrite Hlow.
  - apply contains_lower_spec in Hc. by rewrite Hlow in Hc.
Qed.

Lemma classify_cases line :
  classify line =
    match is_rate_limited line, is_hard_block line with
    | true, true => [RateLimited; HardBlocked]
    | true, false => [RateLimited]
    | false, true => [HardBlocked]
    | false, false => [Normal]
    end.
Proof. unfold classify, line_signals. by destruct (is_rate_limited line), (is_hard_block line). Qed.

Ltac elem_concrete :=
  rewrite ?list_elem_of_In; simpl; intuition (try discriminate; try congruence).

Lemma on_line_run pid line g :
  on_line pid line g = (Ok (is_hard_block line), g, line_trace pid line).
Proof.
  unfold line_trace, on_line, handle_rate_limit_pause, bind, emit, ret.
  by destruct (is_rate_limited line), (is_hard_block line).
Qed.

Lemma line_trace_cases pid line :
  exists pause,
    line_trace pid line =
      [ReadLine pid line; StdoutWrite line]
      ++ (if is_rate_limited line then pause else [])
      ++ (if is_hard_block line then [Print block_notice; Terminate pid] else []) /\
    Sleep 1800 ∈ pause /\
    Forall (fun e => is_Input e = false /\ is_ReadLine e = false /\
                     is_Terminate pid e = false) pause.
Proof.
  exists (trace_of (handle_rate_limit_pause initial_globals)).
  unfold line_trace, on_line, handle_rate_limit_pause, bind, emit, ret, trace_of.
  split.
  - destruct (is_rate_limited line), (is_hard_block line); simpl; reflexivity.
  - split; [elem_concrete |]. simpl. repeat constructor.
Qed.

Lemma line_trace_gate pid line : gate_count (line_trace pid line) = 0%nat.
Proof.
  unfold line_trace, on_line, handle_rate_limit_pause, bind, emit, ret, trace_of.
  by destruct (is_rate_limited line), (is_hard_block line).
Qed.

Lemma line_trace_Sleep pid line :
  Sleep 1800 ∈ line_trace pid line <-> is_rate_limited line = true.
Proof.
  unfold line_trace, on_line, handle_rate_limit_pause, bind, emit, ret, trace_of.
  destruct (is_rate_limited line), (is_hard_block line); elem_concrete.
Qed.

Lemma line_trace_Terminate pid line :
  Terminate pid ∈ line_trace pid line <-> is_hard_block line = true.
Proof.
  unfold line_trace, on_line, handle_rate_limit_pause, bind, emit, ret, trace_of.
  destruct (is_rate_limited line), (is_hard_block line); elem_concrete.
Qed.

Lemma line_trace_Normal pid line :
  is_rate_limited line = false -> is_hard_block line = false ->
  line_trace pid line = [ReadLine pid line; StdoutWrite line].
Proof.
  unfold line_trace, on_line, handle_rate_limit_pause, bind, emit, ret, trace_of.
  by intros -> ->.
Qed.

(** C3: each streamed line is tested by substring search with the case of
    its letters ignored: it is a rate-limit line exactly when some segment
    of it spells the rate-limit phrase in capitals or small letters, a
    hard-block line exactly when one segment spells the error marker and
    another one of the block phrases, and a normal line exactly when it is
    neither; changing the case of letters of a line does not change its
    class; the streaming loop pauses for the first kind, terminates the
    child and stops reading for the second, and only echoes a normal
    line. *)
Theorem line_classification (pid : nat) (line : string) (g : Globals) :
  (RateLimited ∈ classify line <-> occurs_ignoring_case rate_limit_phrase line)
  /\ (HardBlocked ∈ classify line <->
      occurs_ignoring_case error_marker line /\
      exists k, k ∈ block_phrases /\ occurs_ignoring_case k line)
  /\ (Normal ∈ classify line <->
      (RateLimited ∉ classify line) /\ (HardBlocked ∉ classify line))
  /\ (forall line', same_text line' line -> classify line' = classify line)
  /\ (exists t,
        on_line pid line g = (Ok (bool_decide (HardBlocked ∈ classify line)), g, t) /\
        (Sleep 1800 ∈ t <-> RateLimited ∈ classify line) /\
        (Terminate pid ∈ t <-> HardBlocked ∈ classify line) /\
        (Normal ∈ classify line -> t = [ReadLine pid line; StdoutWrite line])).
Proof.
  rewrite <- is_rate_limited_spec, <- is_hard_block_spec.
  split; [| split; [| split; [| split]]].
  - rewrite classify_cases.
    destruct (is_rate_limited line), (is_hard_block line); elem_concrete.
  - rewrite classify_cases.
    destruct (is_rate_limited line), (is_hard_block line); elem_concrete.
  - rewrite classify_cases.
    destruct (is_rate_limited line), (is_hard_block line); elem_concrete.
  - intros line' Heq%same_text_lower. rewrite !classify_cases.
    unfold is_rate_limited, is_hard_block. simpl. by rewrite Heq.
  - exists (line_trace pid line).
    rewrite on_line_run, line_trace_Sleep, line_trace_Terminate, classify_cases.
    pose proof (line_trace_Normal pid line) as Hn.
    destruct (is_rate_limited line) eqn:Hr, (is_hard_block line) eqn:Hh;
      (split; [reflexivity |]); (split; [elem_concrete |]); (split; [elem_concrete |]);
      first [by intros _; apply Hn | elem_concrete].
Qed.

Example classify_rate_limit :
  classify "WARNING: The current session has been RATE-LIMITED by YouTube for up to an hour"
  = [RateLimited].
Proof. reflexivity. Qed.

Example classify_block :
  classify "ERROR: [youtube] abc: Sign in to confirm you are not a bot" = [HardBlocked].
Proof. reflexivity. Qed.

Example classify_block_without_marker :
  classify "WARNING: got a captcha page" = [Normal].
Proof. reflexivity. Qed.

Example classify_both :
  classify "ERROR: rate-limited by YouTube; HTTP Error 403 Forbidden"
  = [RateLimited; HardBlocked].
Proof. reflexivity. Qed.

(** ** Streaming one child *)

Lemma stream_output_run pid lines acc g :
  stream_output pid lines acc g =
    (Ok (acc ++ consumed lines, blocked lines), g, stream_trace pid lines).
Proof.
  revert acc. induction lines as [|line rest IH]; intros acc.
  - simpl. unfold ret. by rewrite app_nil_r.
  - cbn [stream_output consumed blocked existsb stream_trace].
    erewrite bind_Ok; [| apply on_line_run].
    destruct (is_hard_block line); simpl.
    + unfold ret. by rewrite app_nil_r.
    + rewrite IH. by rewrite <- app_assoc.
Qed.

Lemma line_trace_error pid line : error_reported (line_trace pid line) = false.
Proof.
  unfold line_trace, on_line, handle_rate_limit_pause, bind, emit, ret, trace_of.
  by destruct (is_rate_limited line), (is_hard_block line).
Qed.

Lemma stream_trace_error pid lines : error_reported (stream_trace pid lines) = false.
Proof.
  induction lines as [|line rest IH]; [done |]. simpl.
  rewrite error_reported_app, line_trace_error.
  by destruct (is_hard_block line).
Qed.

Lemma stream_trace_gate pid lines : gate_count (stream_trace pid lines) = 0%nat.
Proof.
  induction lines as [|line rest IH]; [done |]. simpl.
  rewrite gate_count_app, line_trace_gate.
  by destruct (is_hard_block line).
Qed.

Lemma run_child_run w attempt command g :
  exists t,
    (gate_count t = 0%nat /\ error_reported t = false) /\
    run_child w attempt command g =
      match yt_dlp w attempt with
      | None => (Raised (popen_error w attempt), g, t)
      | Some proc =>
          (Ok (child_state proc), g,
           t ++ Popen attempt command :: stream_trace attempt (stdout proc)
             ++ [Wait attempt;
                 Print (Colors.MAGENTA +:+ "--------------------------" +:+ Colors.RESET +:+ nl)])
      end.
Proof.
  exists [Print (nl +:+ Colors.MAGENTA +:+ "--- Registro de yt-dlp ---" +:+ Colors.RESET)].
  split; [by split |].
  unfold run_child, bind, emit, raise, ret.
  destruct (yt_dlp w attempt) as [proc|]; [| reflexivity].
  rewrite stream_output_run. reflexivity.
Qed.

(** A hard-block line anywhere in the output that was read shows up, in
    lowercase, in the text the failure branch inspects. *)
Lemma blocked_output lines :
  blocked lines = true ->
  Str.any_in block_phrases (Str.lower (Str.join (consumed lines))) = true.
Proof.
  induction lines as [|line rest IH]; [done |].
  cbn [blocked existsb consumed]. destruct (is_hard_block line) eqn:Hb.
  - intros _. unfold is_hard_block in Hb. apply andb_true_iff in Hb as [_ Hb].
    change (Str.join [line]) with (line +:+ ""). rewrite lower_app.
    rewrite <- (app_Empty (Str.lower line +:+ _)). by apply any_in_app.
  - rewrite orb_false_l. intros H. specialize (IH H).
    change (Str.join (line :: consumed rest)) with (line +:+ Str.join (consumed rest)).
    rewrite lower_app.
    rewrite <- (app_empty_r (Str.lower (Str.join (consumed rest)))).
    by apply any_in_app.
Qed.

(** ** The gate and the failure branch *)

Lemma handle_manual_intervention_run w url reason g :
  pool_ok g ->
  exists g' t,
    handle_manual_intervention w url reason g = (Ok tt, g', t) /\
    CHROMIUM_PROFILES g' = CHROMIUM_PROFILES g /\ pool_ok g' /\ gate_count t = 1%nat.
Proof.
  intros Hok.
  destruct (get_next_total w g Hok) as (p & g' & t & Hget & Hpool & Hok' & [Hgate _] & _).
  unfold handle_manual_intervention, open_browser_for_login.
  unfold bind at 1. unfold emit at 1.
  erewrite bind_Ok; [| exact Hget].
  unfold bind, emit, print_status, ret.
  destruct (chromium_browser w), (cookie_sync w); simpl;
    eexists _, _; (split; [reflexivity |]); (split; [done |]); (split; [done |]);
    rewrite gate_count_cons, gate_count_app, Hgate; reflexivity.
Qed.

Lemma on_failure_run {A} w platform url attempt st restricted_msg message status g :
  pool_ok g ->
  let o : AttemptOutcome A := failure_outcome platform attempt (output st) in
  exists g' t,
    on_failure w platform url attempt st restricted_msg (print_status message status) g =
      (Ok (outcome_ctl o), g', t) /\
    CHROMIUM_PROFILES g' = CHROMIUM_PROFILES g /\ pool_ok g' /\
    gate_count t = outcome_gates o /\
    (o <> RetryAfterIntervention -> g' = g).
Proof.
  intros Hok. unfold on_failure, failure_outcome. cbv zeta.
  destruct (bool_decide (attempt = 0%nat) && bool_decide (platform = YouTube)
            && Str.any_in privacy_phrases (Str.lower (output st))).
  - exists g. destruct restricted_msg; eexists; by repeat split.
  - destruct (Str.any_in block_phrases (Str.lower (output st))
              && bool_decide (attempt < max_retries)%nat).
    + destruct (handle_manual_intervention_run w url
                  "Bloqueo duro/Captcha detectado. Abriendo navegador." g Hok)
        as (g' & t & Hrun & Hpool & Hok' & Hgate).
      exists g', (t ++ []). erewrite bind_Ok; [| exact Hrun]. unfold ret.
      repeat split; try done. by rewrite app_nil_r.
    + exists g. eexists; by repeat split.
Qed.

(** ** Credentials of an attempt *)

Lemma use_cookies_TikTok attempt : use_cookies TikTok attempt = true.
Proof. reflexivity. Qed.

Lemma use_cookies_YouTube attempt : use_cookies YouTube attempt = true <-> (0 < attempt)%nat.
Proof.
  unfold use_cookies. cbn. apply bool_decide_eq_true.
Qed.

Lemma credential_args_run w platform attempt g :
  pool_ok g ->
  exists cred g' t,
    credential_args w platform attempt g = (Ok cred, g', t) /\
    CHROMIUM_PROFILES g' = CHROMIUM_PROFILES g /\ pool_ok g' /\
    gate_count t = 0%nat /\ error_reported t = false.
Proof.
  intros Hok. unfold credential_args.
  destruct (use_cookies platform attempt).
  - destruct (get_next_total w g Hok) as (p & g' & t & Hget & Hpool & Hok' & [Hgate Herr] & _).
    erewrite bind_Ok; [| exact Hget]. unfold ret.
    destruct (bool_decide (p <> "")); eexists _, g', (t ++ []);
      rewrite app_nil_r; by repeat split.
  - eexists _, g, []. by repeat split.
Qed.

(** C4: TikTok attempts always use cookies and YouTube attempts use them
    exactly from the second attempt on; an attempt with cookies takes the
    next identity of the pool and passes it with [--cookies-from-browser],
    on YouTube together with the [tv_downgraded,web] client, while the
    anonymous first YouTube attempt takes no identity and passes the
    [android,tv] client. *)
Theorem credential_policy (w : World) (attempt : nat) (g : Globals) (Hwf : pool_wf g) :
  use_cookies TikTok attempt = true
  /\ (use_cookies YouTube attempt = true <-> (0 < attempt)%nat)
  /\ (exists p g' t,
        get_next_chromium_profile w g = (Ok p, g', t) /\
        credential_args w TikTok attempt g =
          (Ok ["--cookies-from-browser"; "chromium:" +:+ p +:+ "/chromium"], g', t) /\
        ((0 < attempt)%nat ->
         credential_args w YouTube attempt g =
           (Ok ["--cookies-from-browser"; "chromium:" +:+ p +:+ "/chromium";
                "--extractor-args"; "youtube:player_client=tv_downgraded,web"], g', t)))
  /\ credential_args w YouTube 0 g =
       (Ok ["--extractor-args"; "youtube:player_client=android,tv"], g, []).
Proof.
  destruct Hwf as [Hok Hnamed].
  split; [apply use_cookies_TikTok |]. split; [apply use_cookies_YouTube |].
  split; [| reflexivity].
  destruct (get_next_total w g Hok) as (p & g' & t & Hget & _ & _ & _ & Hp).
  specialize (Hp Hnamed). exists p, g', t. split; [exact Hget |]. split.
  - unfold credential_args. rewrite use_cookies_TikTok.
    erewrite bind_Ok; [| exact Hget]. rewrite bool_decide_eq_true_2 by done.
    unfold ret. simpl. by rewrite app_nil_r.
  - intros Hpos. unfold credential_args.
    rewrite (proj2 (use_cookies_YouTube attempt) Hpos).
    erewrite bind_Ok; [| exact Hget]. rewrite bool_decide_eq_true_2 by done.
    unfold ret. simpl. by rewrite app_nil_r.
Qed.

Lemma credential_policy_witness :
  pool_wf Demo.pool3 /\
  credential_args (Demo.world (Demo.always Demo.clean_exit) Demo.empty_dir
                              Demo.zero_mtime Demo.no_files) YouTube 3 Demo.pool3 =
    (Ok ["--cookies-from-browser"; "chromium:/home/u/chromium_data_1/chromium";
         "--extractor-args"; "youtube:player_client=tv_downgraded,web"],
     {| CHROMIUM_PROFILES := CHROMIUM_PROFILES Demo.pool3; CURRENT_PROFILE_INDEX := 1 |},
     []).
Proof.
  assert (Hwf : pool_wf Demo.pool3).
  { split; [right; simpl; lia |]. unfold pool_named. simpl. by repeat constructor. }
  split; [exact Hwf |].
  destruct (credential_policy
              (Demo.world (Demo.always Demo.clean_exit) Demo.empty_dir
                          Demo.zero_mtime Demo.no_files) 3 Demo.pool3 Hwf)
    as (_ & _ & (p & g' & t & Hget & _ & Hyt) & _).
  rewrite Hyt by lia. vm_compute in Hget. by injection Hget as <- <- <-.
Defined.

(** ** The loop bodies compute the attempt outcomes *)

Lemma for_each_print_run (msg : string -> string) status xs g :
  exists t,
    for_each (fun f => print_status (msg f) status) xs g = (Ok tt, g, t) /\
    gate_count t = 0%nat /\
    (status <> "error" -> error_reported t = false).
Proof.
  induction xs as [|x xs (t & IH & Hgate & Herr)].
  - by exists [].
  - exists (PrintStatus (msg x) status :: t). cbn [for_each].
    unfold bind at 1. unfold print_status at 1, emit. rewrite IH.
    split; [reflexivity |]. split; [by rewrite gate_count_cons |].
    intros Hs. rewrite error_reported_cons, Herr by done. simpl.
    by rewrite bool_decide_eq_false_2.
Qed.

Ltac attempt_prologue w url attempt g Hok :=
  let cred := fresh "cred" in
  let g1 := fresh "g1" in
  let t1 := fresh "t1" in
  let Hcred := fresh "Hcred" in
  let Hpool := fresh "Hpool" in
  let Hok1 := fresh "Hok1" in
  let Hg1 := fresh "Hg1" in
  let He1 := fresh "He1" in
  destruct (credential_args_run w (detect_platform url) attempt g Hok)
    as (cred & g1 & t1 & Hcred & Hpool & Hok1 & Hg1 & He1);
  erewrite bind_Ok; [| exact Hcred];
  unfold try_except;
  let t2 := fresh "t2" in
  let Hg2 := fresh "Hg2" in
  let He2 := fresh "He2" in
  let Hrun := fresh "Hrun" in
  match goal with
  | |- context [run_child w attempt ?cmd] =>
      destruct (run_child_run w attempt cmd g1) as (t2 & [Hg2 He2] & Hrun)
  end;
  unfold bind at 1; rewrite Hrun.

Lemma failure_outcome_not_Success {A} platform attempt out (v : A) :
  failure_outcome platform attempt out <> Success v.
Proof.
  unfold failure_outcome. cbv zeta.
  destruct (_ && _ && _); [done |]. by destruct (_ && _).
Qed.

Ltac count_gates :=
  rewrite ?gate_count_app, ?gate_count_cons, ?gate_count_app;
  repeat match goal with H : gate_count _ = _ |- _ => rewrite H; clear H end;
  rewrite ?stream_trace_gate; simpl; try lia; try reflexivity.

Ltac count_errors :=
  rewrite ?error_reported_app, ?error_reported_cons, ?error_reported_app;
  repeat match goal with H : error_reported _ = _ |- _ => rewrite H; clear H end;
  rewrite ?stream_trace_error; reflexivity.

Lemma video_attempt_full w url base_command existing_files attempt g :
  pool_ok g ->
  let o := video_outcome w url existing_files attempt in
  exists g' t,
    video_attempt w url base_command existing_files attempt g = (Ok (outcome_ctl o), g', t) /\
    CHROMIUM_PROFILES g' = CHROMIUM_PROFILES g /\ pool_ok g' /\
    gate_count t = outcome_gates o /\
    (forall v, o = Success v -> error_reported t = false).
Proof.
  intros Hok. cbv zeta. unfold video_attempt, video_outcome.
  attempt_prologue w url attempt g Hok.
  destruct (yt_dlp w attempt) as [proc|].
  - destruct (attempt_ok (child_state proc)).
    + unfold video_artifacts. cbv zeta.
      match goal with |- context [bool_decide (?l <> [])] =>
        destruct (bool_decide (l <> [])); [set (files := sort_by (st_mtime w) l) |] end.
      * destruct (for_each_print_run
                    (fun f => "Video descargado: " +:+ PurePath.name f) "success" files g1)
          as (t3 & Hprint & Hg3 & He3).
        specialize (He3 ltac:(done)).
        erewrite bind_Ok; [| exact Hprint]. unfold ret.
        eexists _, _. split; [reflexivity |]. split; [done |]. split; [done |].
        split; [count_gates | intros v _; count_errors].
      * unfold ret. eexists _, _. split; [reflexivity |]. split; [done |]. split; [done |].
        split; [count_gates | intros v _; count_errors].
    + destruct (on_failure_run (A := list string) w (detect_platform url) url attempt
                  (child_state proc)
                  (Some "Video privado o restringido. Inyectando cookies...")
                  "Error en descarga. Revisa el registro arriba." "error" g1 Hok1)
        as (g2 & t3 & Hfail & Hpool2 & Hok2 & Hg3 & _).
      rewrite Hfail.
      eexists _, _. split; [reflexivity |]. split; [congruence |]. split; [done |].
      split; [count_gates | intros v Hv; by apply failure_outcome_not_Success in Hv].
  - unfold bind, print_status, emit, ret.
    eexists _, _. split; [reflexivity |]. split; [done |]. split; [done |].
    split; [count_gates | done].
Qed.

Lemma audio_attempt_full w url base_command existing_files attempt g :
  pool_ok g ->
  let o := audio_outcome w url existing_files attempt in
  exists g' t,
    audio_attempt w url base_command existing_files attempt g = (Ok (outcome_ctl o), g', t) /\
    CHROMIUM_PROFILES g' = CHROMIUM_PROFILES g /\ pool_ok g' /\
    gate_count t = outcome_gates o /\
    (forall v, o = Success v -> error_reported t = false).
Proof.
  intros Hok. cbv zeta. unfold audio_attempt, audio_outcome.
  attempt_prologue w url attempt g Hok.
  destruct (yt_dlp w attempt) as [proc|].
  - destruct (attempt_ok (child_state proc)).
    + unfold audio_artifacts. cbv zeta.
      match goal with |- context [bool_decide (?l <> [])] =>
        destruct (bool_decide (l <> [])); [set (files := sort_by (st_mtime w) l) |] end.
      * destruct (for_each_print_run
                    (fun f => "Audio descargado: " +:+ PurePath.name f) "success" files g1)
          as (t3 & Hprint & Hg3 & He3).
        specialize (He3 ltac:(done)).
        erewrite bind_Ok; [| exact Hprint]. unfold ret.
        eexists _, _. split; [reflexivity |]. split; [done |]. split; [done |].
        split; [count_gates | intros v _; count_errors].
      * unfold ret. eexists _, _. split; [reflexivity |]. split; [done |]. split; [done |].
        split; [count_gates | intros v _; count_errors].
    + destruct (on_failure_run (A := list string) w (detect_platform url) url attempt
                  (child_state proc)
                  (Some "Audio privado o restringido. Inyectando cookies...")
                  "Error en descarga. Revisa el registro arriba." "error" g1 Hok1)
        as (g2 & t3 & Hfail & Hpool2 & Hok2 & Hg3 & _).
      rewrite Hfail.
      eexists _, _. split; [reflexivity |]. split; [congruence |]. split; [done |].
      split; [count_gates | intros v Hv; by apply failure_outcome_not_Success in Hv].
  - unfold bind, print_status, emit, ret.
    eexists _, _. split; [reflexivity |]. split; [done |]. split; [done |].
    split; [count_gates | done].
Qed.

Lemma subtitles_attempt_full w url language base_command attempt g :
  pool_ok g ->
  let o := subtitles_outcome w url language attempt in
  exists g' t,
    subtitles_attempt w url language base_command attempt g = (Ok (outcome_ctl o), g', t) /\
    CHROMIUM_PROFILES g' = CHROMIUM_PROFILES g /\ pool_ok g' /\
    gate_count t = outcome_gates o /\
    (forall v, o = Success v -> error_reported t = false).
Proof.
  intros Hok. cbv zeta. unfold subtitles_attempt, subtitles_outcome.
  attempt_prologue w url attempt g Hok.
  destruct (yt_dlp w attempt) as [proc|].
  - cbv zeta.
    destruct (if attempt_ok (child_state proc)
              then latest_subtitle w attempt (subtitle_patterns w language) else None)
      as [latest_file|].
    + unfold bind, print_status, emit, ret.
      eexists _, _. split; [reflexivity |]. split; [done |]. split; [done |].
      split; [count_gates | intros v _; count_errors].
    + destruct (on_failure_run (A := option string) w (detect_platform url) url attempt
                  (child_state proc) None
                  "No se pudieron descargar subtítulos del video" "warning" g1 Hok1)
        as (g2 & t3 & Hfail & Hpool2 & Hok2 & Hg3 & _).
      rewrite Hfail.
      eexists _, _. split; [reflexivity |]. split; [congruence |]. split; [done |].
      split; [count_gates | intros v Hv; by apply failure_outcome_not_Success in Hv].
  - unfold bind, print_status, emit, ret.
    eexists _, _. split; [reflexivity |]. split; [done |]. split; [done |].
    split; [count_gates | done].
Qed.

Lemma video_attempt_run w url base_command existing_files attempt g :
  pool_ok g ->
  exists g' t,
    video_attempt w url base_command existing_files attempt g =
      (Ok (outcome_ctl (video_outcome w url existing_files attempt)), g', t) /\
    CHROMIUM_PROFILES g' = CHROMIUM_PROFILES g /\ pool_ok g' /\
    gate_count t = outcome_gates (video_outcome w url existing_files attempt).
Proof.
  intros Hok.
  destruct (video_attempt_full w url base_command existing_files attempt g Hok)
    as (g' & t & H1 & H2 & H3 & H4 & _).
  by exists g', t.
Qed.

Lemma audio_attempt_run w url base_command existing_files attempt g :
  pool_ok g ->
  exists g' t,
    audio_attempt w url base_command existing_files attempt g =
      (Ok (outcome_ctl (audio_outcome w url existing_files attempt)), g', t) /\
    CHROMIUM_PROFILES g' = CHROMIUM_PROFILES g /\ pool_ok g' /\
    gate_count t = outcome_gates (audio_outcome w url existing_files attempt).
Proof.
  intros Hok.
  destruct (audio_attempt_full w url base_command existing_files attempt g Hok)
    as (g' & t & H1 & H2 & H3 & H4 & _).
  by exists g', t.
Qed.

Lemma subtitles_attempt_run w url language base_command attempt g :
  pool_ok g ->
  exists g' t,
    subtitles_attempt w url language base_command attempt g =
      (Ok (outcome_ctl (subtitles_outcome w url language attempt)), g', t) /\
    CHROMIUM_PROFILES g' = CHROMIUM_PROFILES g /\ pool_ok g' /\
    gate_count t = outcome_gates (subtitles_outcome w url language attempt).
Proof.
  intros Hok.
  destruct (subtitles_attempt_full w url language base_command attempt g Hok)
    as (g' & t & H1 & H2 & H3 & H4 & _).
  by exists g', t.
Qed.

(** ** The loop *)

Section Loop.

Context {A : Type} (body : nat -> M (ctl A)) (O : nat -> AttemptOutcome A).

Hypothesis body_run : forall k g,
  pool_ok g ->
  exists g' t,
    body k g = (Ok (outcome_ctl (O k)), g', t) /\
    CHROMIUM_PROFILES g' = CHROMIUM_PROFILES g /\ pool_ok g' /\
    gate_count t = outcome_gates (O k).

Lemma for_range_run n a g :
  pool_ok g ->
  exists g' t,
    for_range body n a g = (Ok (loop_summary O n a), g', t) /\
    CHROMIUM_PROFILES g' = CHROMIUM_PROFILES g /\ pool_ok g' /\
    gate_count t = loop_gates O n a.
Proof.
  revert a g. induction n as [|n IH]; intros a g Hok.
  - exists g, []. by repeat split.
  - destruct (body_run a g Hok) as (g1 & t1 & Hbody & Hpool1 & Hok1 & Hg1).
    cbn [for_range loop_summary loop_gates].
    erewrite bind_Ok; [| exact Hbody].
    destruct (O a) as [v| | |]; simpl in *.
    + exists g1, (t1 ++ []). unfold ret. rewrite app_nil_r. by repeat split.
    + destruct (IH (S a) g1 Hok1) as (g2 & t2 & Hloop & Hpool2 & Hok2 & Hg2).
      exists g2, (t1 ++ t2). rewrite Hloop. repeat split; try done; [congruence |].
      rewrite gate_count_app. lia.
    + destruct (IH (S a) g1 Hok1) as (g2 & t2 & Hloop & Hpool2 & Hok2 & Hg2).
      exists g2, (t1 ++ t2). rewrite Hloop. repeat split; try done; [congruence |].
      rewrite gate_count_app. lia.
    + exists g1, (t1 ++ []). unfold ret. rewrite app_nil_r. by repeat split.
Qed.

End Loop.

(** The loop is always left by [return] or [break]: the last attempt never
    continues. *)
Lemma loop_summary_cases {A} (O : nat -> AttemptOutcome A) n a :
  match loop_summary O n a with
  | Exhausted =>
      forall k, (a <= k < a + n)%nat ->
                O k = RetryWithCredentials \/ O k = RetryAfterIntervention
  | Broke k => (a <= k < a + n)%nat /\ O k = FatalFailure
  | Returned k v => (a <= k < a + n)%nat /\ O k = Success v
  end.
Proof.
  revert a. induction n as [|n IH]; intros a; simpl.
  - intros k Hk. lia.
  - destruct (O a) as [v| | |] eqn:Ha; try (split; [lia | done]).
    + specialize (IH (S a)). destruct (loop_summary O n (S a)).
      * intros k Hk. destruct (decide (k = a)) as [->|]; [by left | apply IH; lia].
      * destruct IH. split; [lia | done].
      * destruct IH. split; [lia | done].
    + specialize (IH (S a)). destruct (loop_summary O n (S a)).
      * intros k Hk. destruct (decide (k = a)) as [->|]; [by right | apply IH; lia].
      * destruct IH. split; [lia | done].
      * destruct IH. split; [lia | done].
Qed.

(** ** The three loops as a whole *)

Lemma video_loop_run w url extra_options safe_mode g :
  pool_ok g ->
  exists g' t,
    video_loop w url extra_options safe_mode g =
      (Ok (loop_summary (video_outcome w url (video_baseline w)) (max_retries + 1) 0), g', t) /\
    pool_ok g' /\
    gate_count t = loop_gates (video_outcome w url (video_baseline w)) (max_retries + 1) 0.
Proof.
  intros Hok. unfold video_loop. cbv zeta.
  destruct (for_range_run
              (video_attempt w url (video_base_command w extra_options safe_mode)
                             (video_baseline w))
              (video_outcome w url (video_baseline w))
              (fun k g0 => video_attempt_run w url _ _ k g0)
              (max_retries + 1) 0 g Hok)
    as (g' & t & Hloop & _ & Hok' & Hgate).
  unfold bind at 1. unfold print_status at 1, emit. fold (video_baseline w). rewrite Hloop.
  eexists _, _. split; [reflexivity |]. split; [done |]. by rewrite gate_count_app.
Qed.

Lemma audio_loop_run w url extra_options safe_mode g :
  pool_ok g ->
  exists g' t,
    audio_loop w url extra_options safe_mode g =
      (Ok (loop_summary (audio_outcome w url (audio_baseline w)) (max_retries + 1) 0), g', t) /\
    pool_ok g' /\
    gate_count t = loop_gates (audio_outcome w url (audio_baseline w)) (max_retries + 1) 0.
Proof.
  intros Hok. unfold audio_loop. cbv zeta.
  destruct (for_range_run
              (audio_attempt w url (audio_base_command w extra_options safe_mode)
                             (audio_baseline w))
              (audio_outcome w url (audio_baseline w))
              (fun k g0 => audio_attempt_run w url _ _ k g0)
              (max_retries + 1) 0 g Hok)
    as (g' & t & Hloop & _ & Hok' & Hgate).
  unfold bind at 1. unfold print_status at 1, emit. fold (audio_baseline w). rewrite Hloop.
  eexists _, _. split; [reflexivity |]. split; [done |]. by rewrite gate_count_app.
Qed.

Lemma subtitles_loop_run w url language safe_mode g :
  pool_ok g ->
  exists g' t,
    subtitles_loop w url language safe_mode g =
      (Ok (loop_summary (subtitles_outcome w url language) (max_retries + 1) 0), g', t) /\
    pool_ok g' /\
    gate_count t = loop_gates (subtitles_outcome w url language) (max_retries + 1) 0.
Proof.
  intros Hok. unfold subtitles_loop. cbv zeta.
  destruct (for_range_run
              (subtitles_attempt w url language (subtitles_base_command w language safe_mode))
              (subtitles_outcome w url language)
              (fun k g0 => subtitles_attempt_run w url language _ k g0)
              (max_retries + 1) 0 g Hok)
    as (g' & t & Hloop & _ & Hok' & Hgate).
  by exists g', t.
Qed.

(** ** Success needs a zero exit status and no hard block *)

Lemma attempt_ok_spec proc :
  attempt_ok (child_state proc) = true <->
  returncode proc false = 0 /\ blocked (stdout proc) = false.
Proof.
  unfold attempt_ok, child_state. simpl.
  rewrite andb_true_iff, bool_decide_eq_true, negb_true_iff.
  split; intros [H1 H2]; (split; [| done]); by rewrite H2 in *.
Qed.

Lemma video_outcome_Success w url existing_files k v :
  video_outcome w url existing_files k = Success v ->
  exists proc, yt_dlp w k = Some proc /\
               returncode proc false = 0 /\ blocked (stdout proc) = false.
Proof.
  unfold video_outcome. destruct (yt_dlp w k) as [proc|]; [| done]. cbv zeta.
  destruct (attempt_ok (child_state proc)) eqn:Hok.
  - intros _. exists proc. split; [done |]. by apply attempt_ok_spec.
  - intros H. by apply failure_outcome_not_Success in H.
Qed.

Lemma audio_outcome_Success w url existing_files k v :
  audio_outcome w url existing_files k = Success v ->
  exists proc, yt_dlp w k = Some proc /\
               returncode proc false = 0 /\ blocked (stdout proc) = false.
Proof.
  unfold audio_outcome. destruct (yt_dlp w k) as [proc|]; [| done]. cbv zeta.
  destruct (attempt_ok (child_state proc)) eqn:Hok.
  - intros _. exists proc. split; [done |]. by apply attempt_ok_spec.
  - intros H. by apply failure_outcome_not_Success in H.
Qed.

Lemma subtitles_outcome_Success w url language k v :
  subtitles_outcome w url language k = Success v ->
  exists proc, yt_dlp w k = Some proc /\
               returncode proc false = 0 /\ blocked (stdout proc) = false.
Proof.
  unfold subtitles_outcome. destruct (yt_dlp w k) as [proc|]; [| done]. cbv zeta.
  destruct (attempt_ok (child_state proc)) eqn:Hok.
  - intros _. exists proc. split; [done |]. by apply attempt_ok_spec.
  - intros H. by apply failure_outcome_not_Success in H.
Qed.

Lemma loop_summary_Returned {A} (O : nat -> AttemptOutcome A) n a k v :
  loop_summary O n a = Returned k v -> O k = Success v.
Proof.
  intros H. pose proof (loop_summary_cases O n a) as Hc. rewrite H in Hc. by destruct Hc.
Qed.

(** C1: in each of the three download loops an attempt leaves the loop
    through the success branch only when its child exited with status zero
    and no line of its output raised the hard-block test; a child that was
    stopped by the hard-block test makes the attempt continue or break,
    whatever exit status it reports after being terminated. *)
Theorem success_needs_zero_exit_and_no_block
    (w : World) (url language : string) (extra_options : list string) (safe_mode : bool)
    (g : Globals) (Hok : pool_ok g) :
  (forall k v g' t,
      video_loop w url extra_options safe_mode g = (Ok (Returned k v), g', t) ->
      exists proc, yt_dlp w k = Some proc /\
                   returncode proc false = 0 /\ blocked (stdout proc) = false)
  /\ (forall k v g' t,
      audio_loop w url extra_options safe_mode g = (Ok (Returned k v), g', t) ->
      exists proc, yt_dlp w k = Some proc /\
                   returncode proc false = 0 /\ blocked (stdout proc) = false)
  /\ (forall k v g' t,
      subtitles_loop w url language safe_mode g = (Ok (Returned k v), g', t) ->
      exists proc, yt_dlp w k = Some proc /\
                   returncode proc false = 0 /\ blocked (stdout proc) = false)
  /\ (forall k proc base_command existing_files,
      yt_dlp w k = Some proc -> blocked (stdout proc) = true ->
      exists c1 c2 c3 g1 g2 g3 t1 t2 t3,
        video_attempt w url base_command existing_files k g = (Ok c1, g1, t1) /\
        audio_attempt w url base_command existing_files k g = (Ok c2, g2, t2) /\
        subtitles_attempt w url language base_command k g = (Ok c3, g3, t3) /\
        (c1 = Continue \/ c1 = Break) /\ (c2 = Continue \/ c2 = Break) /\
        (c3 = Continue \/ c3 = Break)).
Proof.
  split; [| split; [| split]].
  - intros k v g' t Hrun.
    destruct (video_loop_run w url extra_options safe_mode g Hok) as (g1 & t1 & H & _).
    assert (Hexit : loop_summary (video_outcome w url (video_baseline w)) (max_retries + 1) 0
                    = Returned k v) by congruence.
    apply loop_summary_Returned in Hexit. by eapply video_outcome_Success.
  - intros k v g' t Hrun.
    destruct (audio_loop_run w url extra_options safe_mode g Hok) as (g1 & t1 & H & _).
    assert (Hexit : loop_summary (audio_outcome w url (audio_baseline w)) (max_retries + 1) 0
                    = Returned k v) by congruence.
    apply loop_summary_Returned in Hexit. by eapply audio_outcome_Success.
  - intros k v g' t Hrun.
    destruct (subtitles_loop_run w url language safe_mode g Hok) as (g1 & t1 & H & _).
    assert (Hexit : loop_summary (subtitles_outcome w url language) (max_retries + 1) 0
                    = Returned k v) by congruence.
    apply loop_summary_Returned in Hexit. by eapply subtitles_outcome_Success.
  - intros k proc base_command existing_files Hproc Hblocked.
    destruct (video_attempt_run w url base_command existing_files k g Hok)
      as (g1 & t1 & H1 & _).
    destruct (audio_attempt_run w url base_command existing_files k g Hok)
      as (g2 & t2 & H2 & _).
    destruct (subtitles_attempt_run w url language base_command k g Hok)
      as (g3 & t3 & H3 & _).
    eexists _, _, _, g1, g2, g3, t1, t2, t3.
    split; [exact H1 |]. split; [exact H2 |]. split; [exact H3 |].
    assert (Hnot : attempt_ok (child_state proc) = false).
    { apply not_true_is_false. rewrite attempt_ok_spec. intros [_ Hb]. congruence. }
    unfold video_outcome, audio_outcome, subtitles_outcome. rewrite Hproc. cbv zeta.
    rewrite Hnot. unfold failure_outcome. cbv zeta.
    destruct (_ && _ && _); [repeat split; by left |].
    destruct (_ && _); repeat split; first [by left | by right].
Qed.

(** ** Every attempt hard-blocked *)

Lemma blocked_attempt_not_ok proc :
  blocked (stdout proc) = true -> attempt_ok (child_state proc) = false.
Proof.
  intros Hb. apply not_true_is_false. rewrite attempt_ok_spec. intros [_ H]. congruence.
Qed.

Lemma failure_outcome_blocked {A} platform k out :
  Str.any_in block_phrases (Str.lower out) = true ->
  failure_outcome (A := A) platform k out =
    if bool_decide (k = 0%nat) && bool_decide (platform = YouTube)
       && Str.any_in privacy_phrases (Str.lower out)
    then RetryWithCredentials
    else if bool_decide (k < max_retries)%nat then RetryAfterIntervention else FatalFailure.
Proof. intros H. unfold failure_outcome. cbv zeta. by rewrite H. Qed.

Lemma all_blocked_summary {A} (O : nat -> AttemptOutcome A) (shortcut : bool) :
  O 0%nat = (if shortcut then RetryWithCredentials else RetryAfterIntervention) ->
  (forall k, (1 <= k < 10)%nat -> O k = RetryAfterIntervention) ->
  O 10%nat = FatalFailure ->
  loop_summary O (max_retries + 1) 0 = Broke 10 /\
  loop_gates O (max_retries + 1) 0 = (if shortcut then 9 else 10)%nat.
Proof.
  intros H0 H HF. simpl.
  rewrite H0, !H, HF by lia. by destruct shortcut.
Qed.

Section AllBlocked.

Context (w : World) (url : string) {A : Type} (O : nat -> AttemptOutcome A).

Hypothesis Hall : all_blocked w (max_retries + 1).

Hypothesis O_blocked : forall k proc,
  yt_dlp w k = Some proc -> blocked (stdout proc) = true ->
  O k = failure_outcome (detect_platform url) k (output (child_state proc)).

Lemma all_blocked_exits :
  loop_summary O (max_retries + 1) 0 = Broke 10 /\
  loop_gates O (max_retries + 1) 0 = (if privacy_shortcut w url then 9 else 10)%nat.
Proof.
  apply all_blocked_summary.
  - destruct (Hall 0%nat) as (proc & Hproc & Hb); [unfold max_retries; lia |].
    rewrite (O_blocked _ _ Hproc Hb), failure_outcome_blocked by by apply blocked_output.
    unfold privacy_shortcut. rewrite Hproc. simpl.
    by destruct (bool_decide (detect_platform url = YouTube) && _).
  - intros k Hk. destruct (Hall k) as (proc & Hproc & Hb); [unfold max_retries; lia |].
    rewrite (O_blocked _ _ Hproc Hb), failure_outcome_blocked by by apply blocked_output.
    rewrite (bool_decide_eq_false_2 (k = 0%nat)) by lia. simpl.
    by rewrite bool_decide_eq_true_2 by (unfold max_retries; lia).
  - destruct (Hall 10%nat) as (proc & Hproc & Hb); [unfold max_retries; lia |].
    by rewrite (O_blocked _ _ Hproc Hb), failure_outcome_blocked by by apply blocked_output.
Qed.

End AllBlocked.

Lemma video_outcome_blocked w url existing_files k proc :
  yt_dlp w k = Some proc -> blocked (stdout proc) = true ->
  video_outcome w url existing_files k =
    failure_outcome (detect_platform url) k (output (child_state proc)).
Proof.
  intros Hproc Hb. unfold video_outcome. rewrite Hproc. cbv zeta.
  by rewrite blocked_attempt_not_ok.
Qed.

Lemma audio_outcome_blocked w url existing_files k proc :
  yt_dlp w k = Some proc -> blocked (stdout proc) = true ->
  audio_outcome w url existing_files k =
    failure_outcome (detect_platform url) k (output (child_state proc)).
Proof.
  intros Hproc Hb. unfold audio_outcome. rewrite Hproc. cbv zeta.
  by rewrite blocked_attempt_not_ok.
Qed.

Lemma subtitles_outcome_blocked w url language k proc :
  yt_dlp w k = Some proc -> blocked (stdout proc) = true ->
  subtitles_outcome w url language k =
    failure_outcome (detect_platform url) k (output (child_state proc)).
Proof.
  intros Hproc Hb. unfold subtitles_outcome. rewrite Hproc. cbv zeta.
  by rewrite blocked_attempt_not_ok.
Qed.

Lemma download_video_direct_value w url extra_options safe_mode g e g' t :
  video_loop w url extra_options safe_mode g = (Ok e, g', t) ->
  download_video_direct w url extra_options safe_mode g =
    (Ok (match e with Returned _ v => v | _ => [] end), g', t ++ []).
Proof. intros H. unfold download_video_direct. by erewrite bind_Ok. Qed.

Lemma download_audio_direct_value w url extra_options safe_mode g e g' t :
  audio_loop w url extra_options safe_mode g = (Ok e, g', t) ->
  download_audio_direct w url extra_options safe_mode g =
    (Ok (match e with Returned _ v => v | _ => [] end), g', t ++ []).
Proof. intros H. unfold download_audio_direct. by erewrite bind_Ok. Qed.

(** C2 (as amended): when each of the eleven attempts, 0 to 10, is stopped
    by the hard-block test, the loop is left by [break] at attempt 10, the
    download functions return their empty value, and the gate has run once
    after each of the attempts 0 to 9, ten times in all; save that a YouTube
    goal whose attempt 0 output contains a privacy or login phrase retries
    that attempt with cookies without the gate, which then runs nine
    times. *)
Theorem all_attempts_blocked
    (w : World) (url language : string) (extra_options : list string) (safe_mode : bool)
    (g : Globals) (Hok : pool_ok g) (Hall : all_blocked w (max_retries + 1)) :
  let gates := (if privacy_shortcut w url then 9 else 10)%nat in
  (exists g' t,
      video_loop w url extra_options safe_mode g = (Ok (Broke 10), g', t) /\
      gate_count t = gates /\
      value_of (download_video_direct w url extra_options safe_mode g) = Ok [])
  /\ (exists g' t,
      audio_loop w url extra_options safe_mode g = (Ok (Broke 10), g', t) /\
      gate_count t = gates /\
      value_of (download_audio_direct w url extra_options safe_mode g) = Ok [])
  /\ (exists g' t,
      subtitles_loop w url language safe_mode g = (Ok (Broke 10), g', t) /\
      gate_count t = gates).
Proof.
  cbv zeta. split; [| split].
  - destruct (video_loop_run w url extra_options safe_mode g Hok) as (g' & t & H & _ & Hg).
    destruct (all_blocked_exits w url (video_outcome w url (video_baseline w)) Hall
                (video_outcome_blocked w url _)) as [Hexit Hgates].
    rewrite Hexit in H. rewrite Hgates in Hg.
    exists g', t. split; [done |]. split; [done |].
    by rewrite (download_video_direct_value _ _ _ _ _ _ _ _ H).
  - destruct (audio_loop_run w url extra_options safe_mode g Hok) as (g' & t & H & _ & Hg).
    destruct (all_blocked_exits w url (audio_outcome w url (audio_baseline w)) Hall
                (audio_outcome_blocked w url _)) as [Hexit Hgates].
    rewrite Hexit in H. rewrite Hgates in Hg.
    exists g', t. split; [done |]. split; [done |].
    by rewrite (download_audio_direct_value _ _ _ _ _ _ _ _ H).
  - destruct (subtitles_loop_run w url language safe_mode g Hok) as (g' & t & H & _ & Hg).
    destruct (all_blocked_exits w url (subtitles_outcome w url language) Hall
                (subtitles_outcome_blocked w url language)) as [Hexit Hgates].
    rewrite Hexit in H. rewrite Hgates in Hg.
    by exists g', t.
Qed.

Lemma all_blocked_always c n :
  blocked (stdout c) = true ->
  all_blocked (Demo.world (Demo.always c) Demo.empty_dir Demo.zero_mtime Demo.no_files) n.
Proof. intros Hb k _. by exists c. Qed.

Lemma pool3_ok : pool_ok Demo.pool3.
Proof. right. simpl. lia. Qed.

Lemma all_attempts_blocked_witness :
  let w := Demo.world (Demo.always Demo.captcha) Demo.empty_dir Demo.zero_mtime
                      Demo.no_files in
  pool_ok Demo.pool3 /\ all_blocked w (max_retries + 1) /\
  exists g' t,
    video_loop w Demo.tiktok_url [] false Demo.pool3 = (Ok (Broke 10), g', t) /\
    gate_count t = 10%nat /\
    value_of (download_video_direct w Demo.tiktok_url [] false Demo.pool3) = Ok [].
Proof.
  intros w.
  assert (Hall : all_blocked w (max_retries + 1)) by by apply all_blocked_always.
  split; [exact pool3_ok |]. split; [exact Hall |].
  exact (proj1 (all_attempts_blocked w Demo.tiktok_url "es" [] false Demo.pool3
                  pool3_ok Hall)).
Defined.

(** C2, as the claim states it, fails twice: ten blocked attempts followed
    by a clean one end in success, not in failure, and eleven attempts
    blocked by the bot check of YouTube run the gate nine times, not ten. *)
Lemma ten_blocked_attempts_counterexample :
  let w1 := Demo.world Demo.ten_captchas_then_clean Demo.empty_dir Demo.zero_mtime
                       Demo.no_files in
  let w2 := Demo.world (Demo.always Demo.bot_check) Demo.empty_dir Demo.zero_mtime
                       Demo.no_files in
  (all_blocked w1 10 /\
   value_of (video_loop w1 Demo.tiktok_url [] false Demo.pool3) = Ok (Returned 10 []) /\
   gate_count (trace_of (video_loop w1 Demo.tiktok_url [] false Demo.pool3)) = 10%nat)
  /\ (all_blocked w2 (max_retries + 1) /\
      value_of (video_loop w2 Demo.youtube_url [] false Demo.pool3) = Ok (Broke 10) /\
      gate_count (trace_of (video_loop w2 Demo.youtube_url [] false Demo.pool3)) = 9%nat
      /\ gate_count (trace_of (video_loop w2 Demo.youtube_url [] false Demo.pool3)) <> 10%nat).
Proof.
  intros w1 w2. split; split.
  - intros k Hk. exists Demo.captcha. split; [| reflexivity].
    unfold w1. simpl. unfold Demo.ten_captchas_then_clean.
    by rewrite (proj2 (Nat.ltb_lt k 10) Hk).
  - split; vm_compute; reflexivity.
  - by apply all_blocked_always.
  - split; [vm_compute; reflexivity |].
    assert (H9 : gate_count (trace_of (video_loop w2 Demo.youtube_url [] false Demo.pool3))
                 = 9%nat) by (vm_compute; reflexivity).
    split; [exact H9 |]. rewrite H9. lia.
Qed.

(** ** The first-attempt shortcut *)

Lemma failure_outcome_shortcut {A} out :
  Str.any_in privacy_phrases (Str.lower out) = true ->
  failure_outcome (A := A) YouTube 0 out = RetryWithCredentials.
Proof. intros H. unfold failure_outcome. cbv zeta. by rewrite H. Qed.

Lemma failure_outcome_gate {A} platform k out :
  (0 < k < max_retries)%nat ->
  Str.any_in block_phrases (Str.lower out) = true ->
  failure_outcome (A := A) platform k out = RetryAfterIntervention.
Proof.
  intros Hk H. rewrite failure_outcome_blocked by done.
  rewrite (bool_decide_eq_false_2 (k = 0%nat)) by lia. simpl.
  by rewrite bool_decide_eq_true_2 by lia.
Qed.

(** The bot-check phrase of the block table is also a login phrase. *)
Lemma sign_in_to_confirm_is_privacy out :
  Str.contains "sign in to confirm" (Str.lower out) = true ->
  Str.any_in privacy_phrases (Str.lower out) = true.
Proof.
  intros H. apply any_in_spec. exists "sign in". split; [by left |].
  apply contains_spec in H as (a & b & ->). apply contains_spec.
  exists a, (" to confirm" +:+ b). reflexivity.
Qed.

(** C5: when attempt 0 of a YouTube goal fails and the output it captured
    contains a privacy, login or age-restriction phrase, the loop body
    continues without running the gate, and attempt 1 uses cookies; from
    attempt 1 on a failed attempt whose output has a block phrase runs the
    gate once before it continues. *)
Theorem first_attempt_privacy_retry
    (w : World) (url language : string) (base_command : list string)
    (existing_files : gset string) (g : Globals) (proc : child)
    (Hok : pool_ok g)
    (Hyt : detect_platform url = YouTube)
    (Hproc : yt_dlp w 0 = Some proc)
    (Hfail : attempt_ok (child_state proc) = false)
    (Hpriv : Str.any_in privacy_phrases (Str.lower (output (child_state proc))) = true) :
  (exists g' t,
      audio_attempt w url base_command existing_files 0 g = (Ok Continue, g', t) /\
      gate_count t = 0%nat)
  /\ (exists g' t,
      video_attempt w url base_command existing_files 0 g = (Ok Continue, g', t) /\
      gate_count t = 0%nat)
  /\ (exists g' t,
      subtitles_attempt w url language base_command 0 g = (Ok Continue, g', t) /\
      gate_count t = 0%nat)
  /\ use_cookies YouTube 1 = true
  /\ (forall k proc',
      (0 < k < max_retries)%nat ->
      yt_dlp w k = Some proc' ->
      attempt_ok (child_state proc') = false ->
      Str.any_in block_phrases (Str.lower (output (child_state proc'))) = true ->
      exists g' t,
        audio_attempt w url base_command existing_files k g = (Ok Continue, g', t) /\
        gate_count t = 1%nat).
Proof.
  split; [| split; [| split; [| split]]].
  - destruct (audio_attempt_run w url base_command existing_files 0 g Hok)
      as (g' & t & H & _ & _ & Hg).
    unfold audio_outcome in H, Hg. rewrite Hproc in H, Hg. cbv zeta in H, Hg.
    rewrite Hfail, Hyt, failure_outcome_shortcut in H, Hg by done.
    by exists g', t.
  - destruct (video_attempt_run w url base_command existing_files 0 g Hok)
      as (g' & t & H & _ & _ & Hg).
    unfold video_outcome in H, Hg. rewrite Hproc in H, Hg. cbv zeta in H, Hg.
    rewrite Hfail, Hyt, failure_outcome_shortcut in H, Hg by done.
    by exists g', t.
  - destruct (subtitles_attempt_run w url language base_command 0 g Hok)
      as (g' & t & H & _ & _ & Hg).
    unfold subtitles_outcome in H, Hg. rewrite Hproc in H, Hg. cbv zeta in H, Hg.
    rewrite Hfail, Hyt, failure_outcome_shortcut in H, Hg by done.
    by exists g', t.
  - reflexivity.
  - intros k proc' Hk Hproc' Hfail' Hblock.
    destruct (audio_attempt_run w url base_command existing_files k g Hok)
      as (g' & t & H & _ & _ & Hg).
    unfold audio_outcome in H, Hg. rewrite Hproc' in H, Hg. cbv zeta in H, Hg.
    rewrite Hfail', failure_outcome_gate in H, Hg by done.
    by exists g', t.
Qed.

Lemma first_attempt_privacy_retry_witness :
  let w := Demo.world (Demo.always Demo.needs_login) Demo.empty_dir Demo.zero_mtime
                      Demo.no_files in
  pool_ok Demo.pool3 /\
  detect_platform Demo.youtube_url = YouTube /\
  Str.contains "sign in to confirm" (Str.lower (output (child_state Demo.needs_login))) = true /\
  exists g' t,
    audio_attempt w Demo.youtube_url (audio_base_command w [] false) (audio_baseline w)
                  0 Demo.pool3 = (Ok Continue, g', t) /\
    gate_count t = 0%nat.
Proof.
  intros w. split; [exact pool3_ok |]. split; [reflexivity |]. split; [reflexivity |].
  exact (proj1 (first_attempt_privacy_retry w Demo.youtube_url "es"
                  (audio_base_command w [] false) (audio_baseline w) Demo.pool3
                  Demo.needs_login pool3_ok eq_refl eq_refl eq_refl eq_refl)).
Defined.

(** ** Artifact resolution *)

Section Sorting.

Variable key : string -> Z.

Let le_key (a b : string) : Prop := key a <= key b.

Lemma insert_by_Permutation x l : insert_by key x l ≡ₚ x :: l.
Proof.
  induction l as [|y l IH]; simpl; [done |].
  case_bool_decide; [done |]. rewrite IH. apply Permutation_swap.
Qed.

Lemma sort_by_Permutation l : sort_by key l ≡ₚ l.
Proof.
  induction l as [|x l IH]; simpl; [done |].
  by rewrite insert_by_Permutation, IH.
Qed.

Lemma insert_by_HdRel a x l :
  le_key a x -> HdRel le_key a l -> HdRel le_key a (insert_by key x l).
Proof.
  intros Hax Hal. destruct l as [|y l]; simpl; [by constructor |].
  case_bool_decide; constructor; [done |]. by inversion Hal.
Qed.

Lemma insert_by_Sorted x l : Sorted le_key l -> Sorted le_key (insert_by key x l).
Proof.
  induction 1 as [|y l Hs IH Hhd]; simpl; [by repeat constructor |].
  case_bool_decide as Hxy.
  - constructor; [by constructor |]. by constructor.
  - constructor; [done |]. apply insert_by_HdRel; [unfold le_key; lia | done].
Qed.

Lemma sort_by_Sorted l : Sorted le_key (sort_by key l).
Proof.
  induction l as [|x l IH]; simpl; [constructor |]. by apply insert_by_Sorted.
Qed.

End Sorting.

Lemma new_files_spec existing_files current f :
  f ∈ new_files existing_files current <-> f ∈ current /\ f ∉ existing_files.
Proof.
  unfold new_files. rewrite list_elem_of_filter, elem_of_remove_dups. tauto.
Qed.

Lemma new_files_NoDup existing_files current : NoDup (new_files existing_files current).
Proof. unfold new_files. apply NoDup_filter, NoDup_remove_dups. Qed.

Section Resolve.

Context (key : string -> Z) (P : string -> Prop) `{!forall f, Decision (P f)}.
Context (existing_files : gset string) (current : list string).

Let resolved : list string :=
  let matching := filter P (new_files existing_files current) in
  if bool_decide (matching <> []) then sort_by key matching else [].

Lemma resolved_sorted_filter : resolved = sort_by key (filter P (new_files existing_files current)).
Proof.
  unfold resolved. cbv zeta. case_bool_decide as Hnil; [done |].
  by rewrite Hnil.
Qed.

Lemma resolved_spec :
  NoDup resolved /\
  Sorted (fun a b => key a <= key b) resolved /\
  (forall f, f ∈ resolved <-> f ∈ current /\ (f ∉ existing_files) /\ P f) /\
  ((forall f, f ∈ current -> f ∉ existing_files -> ~ P f) -> resolved = []).
Proof.
  rewrite resolved_sorted_filter. split; [| split; [| split]].
  - rewrite sort_by_Permutation. apply NoDup_filter, new_files_NoDup.
  - apply sort_by_Sorted.
  - intros f. rewrite sort_by_Permutation, list_elem_of_filter, new_files_spec. tauto.
  - intros Hnone.
    destruct (filter P (new_files existing_files current)) as [|x l] eqn:E; [done |].
    assert (Hx : x ∈ filter P (new_files existing_files current))
      by (rewrite E; left).
    apply list_elem_of_filter in Hx as [HP Hx]. apply new_files_spec in Hx as [Hc He].
    by destruct (Hnone x Hc He).
Qed.

End Resolve.

Lemma video_outcome_ok w url existing_files k proc :
  yt_dlp w k = Some proc -> returncode proc false = 0 -> blocked (stdout proc) = false ->
  video_outcome w url existing_files k = Success (video_artifacts w existing_files k).
Proof.
  intros Hproc Hz Hc. unfold video_outcome. rewrite Hproc. cbv zeta.
  by rewrite (proj2 (attempt_ok_spec proc)).
Qed.

Lemma audio_outcome_ok w url existing_files k proc :
  yt_dlp w k = Some proc -> returncode proc false = 0 -> blocked (stdout proc) = false ->
  audio_outcome w url existing_files k = Success (audio_artifacts w existing_files k).
Proof.
  intros Hproc Hz Hc. unfold audio_outcome. rewrite Hproc. cbv zeta.
  by rewrite (proj2 (attempt_ok_spec proc)).
Qed.

(** C7: an attempt whose child exits with status zero without a hard block
    leaves the loop by returning, without gate and without an error report,
    exactly the paths that the listing of the target directory yields after
    the attempt, that were not in the listing taken before the loop and whose
    lowercase suffix is in the filter, each once and in ascending order of
    modification time; when there is no such path it returns the empty
    list the same way.  Video and audio paths alike. *)
Theorem artifact_resolution
    (w : World) (url : string) (base_command : list string) (k : nat) (g : Globals)
    (proc : child) (Hok : pool_ok g)
    (Hproc : yt_dlp w k = Some proc)
    (Hzero : returncode proc false = 0)
    (Hclean : blocked (stdout proc) = false) :
  let older (a b : string) := st_mtime w a <= st_mtime w b in
  (let before := glob w (DOWNLOAD_DIR w) "*" AtStart in
   let after := glob w (DOWNLOAD_DIR w) "*" (AfterAttempt k) in
   let v := video_artifacts w (video_baseline w) k in
   (exists g' t,
       video_attempt w url base_command (video_baseline w) k g = (Ok (Return v), g', t) /\
       gate_count t = 0%nat /\ error_reported t = false) /\
   NoDup v /\ Sorted older v /\
   (forall f, f ∈ v <->
              f ∈ after /\ (f ∉ before) /\ Str.lower (PurePath.suffix f) ∈ video_suffixes) /\
   ((forall f, f ∈ after -> f ∉ before -> Str.lower (PurePath.suffix f) ∉ video_suffixes) ->
    v = []))
  /\
  (let before := glob w (AUDIO_DIR w) "*" AtStart in
   let after := glob w (AUDIO_DIR w) "*" (AfterAttempt k) in
   let v := audio_artifacts w (audio_baseline w) k in
   (exists g' t,
       audio_attempt w url base_command (audio_baseline w) k g = (Ok (Return v), g', t) /\
       gate_count t = 0%nat /\ error_reported t = false) /\
   NoDup v /\ Sorted older v /\
   (forall f, f ∈ v <->
              f ∈ after /\ (f ∉ before) /\ Str.lower (PurePath.suffix f) = ".mp3") /\
   ((forall f, f ∈ after -> f ∉ before -> Str.lower (PurePath.suffix f) <> ".mp3") ->
    v = [])).
Proof.
  cbv zeta. split.
  - split.
    { destruct (video_attempt_full w url base_command (video_baseline w) k g Hok)
        as (g' & t & H & _ & _ & Hg & He).
      rewrite (video_outcome_ok _ _ _ _ _ Hproc Hzero Hclean) in H, Hg, He.
      exists g', t. split; [exact H |]. split; [exact Hg |]. by eapply He. }
    destruct (resolved_spec (st_mtime w)
                (fun f => Str.lower (PurePath.suffix f) ∈ video_suffixes)
                (video_baseline w) (glob w (DOWNLOAD_DIR w) "*" (AfterAttempt k)))
      as (Hnd & Hsorted & Hmem & Hnone).
    split; [exact Hnd |]. split; [exact Hsorted |]. split.
    + intros f. rewrite (Hmem f). unfold video_baseline.
      by rewrite elem_of_list_to_set.
    + intros Hno. apply Hnone. intros f Hf Hnew. apply Hno; [done |].
      unfold video_baseline in Hnew. by rewrite elem_of_list_to_set in Hnew.
  - split.
    { destruct (audio_attempt_full w url base_command (audio_baseline w) k g Hok)
        as (g' & t & H & _ & _ & Hg & He).
      rewrite (audio_outcome_ok _ _ _ _ _ Hproc Hzero Hclean) in H, Hg, He.
      exists g', t. split; [exact H |]. split; [exact Hg |]. by eapply He. }
    destruct (resolved_spec (st_mtime w)
                (fun f => Str.lower (PurePath.suffix f) = ".mp3")
                (audio_baseline w) (glob w (AUDIO_DIR w) "*" (AfterAttempt k)))
      as (Hnd & Hsorted & Hmem & Hnone).
    split; [exact Hnd |]. split; [exact Hsorted |]. split.
    + intros f. rewrite (Hmem f). unfold audio_baseline.
      by rewrite elem_of_list_to_set.
    + intros Hno. apply Hnone. intros f Hf Hnew. apply Hno; [done |].
      unfold audio_baseline in Hnew. by rewrite elem_of_list_to_set in Hnew.
Qed.

Lemma artifact_resolution_witness :
  let w := Demo.world (Demo.always Demo.clean_exit) Demo.audio_dir Demo.audio_mtime
                      Demo.no_files in
  pool_ok Demo.pool3 /\
  audio_artifacts w (audio_baseline w) 0 = ["/srv/ytdpl/audio/b.mp3"; "/srv/ytdpl/audio/c.mp3"] /\
  video_artifacts w (video_baseline w) 0 = [] /\
  (exists g' t,
      audio_attempt w Demo.youtube_url (audio_base_command w [] false) (audio_baseline w)
                    0 Demo.pool3
      = (Ok (Return ["/srv/ytdpl/audio/b.mp3"; "/srv/ytdpl/audio/c.mp3"]), g', t) /\
      gate_count t = 0%nat /\ error_reported t = false).
Proof.
  intros w. split; [exact pool3_ok |].
  assert (Ha : audio_artifacts w (audio_baseline w) 0
               = ["/srv/ytdpl/audio/b.mp3"; "/srv/ytdpl/audio/c.mp3"])
    by (vm_compute; reflexivity).
  split; [exact Ha |]. split; [vm_compute; reflexivity |].
  rewrite <- Ha.
  exact (proj1 (proj2 (artifact_resolution w Demo.youtube_url (audio_base_command w [] false)
                         0 Demo.pool3 Demo.clean_exit pool3_ok eq_refl eq_refl eq_refl))).
Defined.

(** ** The empty list as a return value *)

Lemma failure_outcome_last {A} platform out :
  failure_outcome (A := A) platform max_retries out = FatalFailure.
Proof.
  unfold failure_outcome. cbv zeta. simpl. by rewrite andb_false_r.
Qed.


Lemma video_outcome_last w url existing_files :
  video_outcome w url existing_files max_retries <> RetryWithCredentials /\
  video_outcome w url existing_files max_retries <> RetryAfterIntervention.
Proof.
  unfold video_outcome. destruct (yt_dlp w max_retries); [| done]. cbv zeta.
  destruct (attempt_ok _); [done |]. by rewrite failure_outcome_last.
Qed.

Lemma audio_outcome_last w url existing_files :
  audio_outcome w url existing_files max_retries <> RetryWithCredentials /\
  audio_outcome w url existing_files max_retries <> RetryAfterIntervention.
Proof.
  unfold audio_outcome. destruct (yt_dlp w max_retries); [| done]. cbv zeta.
  destruct (attempt_ok _); [done |]. by rewrite failure_outcome_last.
Qed.



Lemma success_needs_zero_exit_and_no_block_witness :
  let idle := Demo.world (Demo.always Demo.clean_exit) Demo.empty_dir
                         Demo.zero_mtime Demo.no_files in
  let stopped := Demo.world (Demo.always Demo.bot_check) Demo.empty_dir
                            Demo.zero_mtime Demo.no_files in
  pool_ok Demo.pool3 /\
  (exists proc, yt_dlp idle 0 = Some proc /\
                returncode proc false = 0 /\ blocked (stdout proc) = false) /\
  returncode Demo.bot_check true = 0 /\
  (exists c g' t,
      video_attempt stopped Demo.tiktok_url (video_base_command stopped [] false)
                    (video_baseline stopped) 0 Demo.pool3 = (Ok c, g', t) /\
      (c = Continue \/ c = Break)).
Proof.
  intros idle stopped. split; [exact pool3_ok |]. split; [| split; [reflexivity |]].
  - eapply (proj1 (success_needs_zero_exit_and_no_block idle Demo.tiktok_url "es" [] false
                     Demo.pool3 pool3_ok) 0%nat []).
    vm_compute. reflexivity.
  - destruct (proj2 (proj2 (proj2
               (success_needs_zero_exit_and_no_block stopped Demo.tiktok_url "es" [] false
                  Demo.pool3 pool3_ok)))
               0%nat Demo.bot_check (video_base_command stopped [] false)
               (video_baseline stopped) eq_refl eq_refl)
      as (c1 & _ & _ & g1 & _ & _ & t1 & _ & _ & H1 & _ & _ & Hc & _).
    by exists c1, g1, t1.
Defined.

(** ** The kill switch *)

Lemma terminated_before_read_app pid a b :
  terminated_before_read pid a = true -> terminated_before_read pid (a ++ b) = true.
Proof.
  induction a as [|e a IH]; simpl; [done |].
  destruct (is_Terminate pid e); [done |]. by destruct (reads_from pid e).
Qed.

Lemma kill_switch_ok_app a b :
  kill_switch_ok a = true -> kill_switch_ok b = true -> kill_switch_ok (a ++ b) = true.
Proof.
  intros Ha Hb. induction a as [|e a IH]; simpl in *; [done |].
  apply andb_true_iff in Ha as [He Ha]. rewrite IH by done. rewrite andb_true_r.
  destruct e; try done. destruct (is_hard_block line); [| done].
  by apply terminated_before_read_app.
Qed.

Lemma kill_switch_ok_no_reads t :
  Forall (fun e => is_ReadLine e = false) t -> kill_switch_ok t = true.
Proof.
  induction 1 as [|e t He _ IH]; simpl; [done |]. rewrite IH. by destruct e.
Qed.

Lemma terminated_before_read_skip pid a b :
  Forall (fun e => is_ReadLine e = false /\ is_Terminate pid e = false) a ->
  terminated_before_read pid (a ++ b) = terminated_before_read pid b.
Proof.
  induction 1 as [|e a [Hr Ht] _ IH]; simpl; [done |].
  rewrite Ht, IH. by destruct e.
Qed.

Lemma line_trace_ok pid line : kill_switch_ok (line_trace pid line) = true.
Proof.
  destruct (line_trace_cases pid line) as (pause & -> & _ & Hpause).
  assert (Hreads : Forall (fun e => is_ReadLine e = false) pause)
    by (eapply Forall_impl; [exact Hpause | by intros e (_ & ? & _)]).
  assert (Hskip : Forall (fun e => is_ReadLine e = false /\ is_Terminate pid e = false) pause)
    by (eapply Forall_impl; [exact Hpause | by intros e (_ & ? & ?)]).
  assert (Hfound : terminated_before_read pid [Print block_notice; Terminate pid] = true)
    by (simpl; by rewrite bool_decide_eq_true_2).
  cbn [app kill_switch_ok]. destruct (is_hard_block line), (is_rate_limited line).
  - change (StdoutWrite line :: pause ++ [Print block_notice; Terminate pid])
      with ((StdoutWrite line :: pause) ++ [Print block_notice; Terminate pid]).
    rewrite (terminated_before_read_skip pid (StdoutWrite line :: pause))
      by (constructor; done).
    rewrite Hfound. simpl. by apply kill_switch_ok_app; [apply kill_switch_ok_no_reads |].
  - simpl. by rewrite bool_decide_eq_true_2.
  - simpl. rewrite app_nil_r. by apply kill_switch_ok_no_reads.
  - done.
Qed.

Lemma stream_trace_ok pid lines : kill_switch_ok (stream_trace pid lines) = true.
Proof.
  induction lines as [|line rest IH]; simpl; [done |].
  apply kill_switch_ok_app; [apply line_trace_ok |].
  by destruct (is_hard_block line).
Qed.

Lemma disciplined_ret {A} (a : A) : disciplined (ret a).
Proof. by intros g. Qed.

Lemma disciplined_raise {A} (e : exn) : disciplined (raise (A := A) e).
Proof. by intros g. Qed.

Section Discipline.

Context {A B : Type}.

Lemma disciplined_bind (m : M A) (f : A -> M B) :
  disciplined m -> (forall a, disciplined (f a)) -> disciplined (bind m f).
Proof.
  intros Hm Hf g. specialize (Hm g). unfold bind, trace_of in *.
  destruct (m g) as [[[a|e] g1] t1]; simpl in *; [| done].
  specialize (Hf a g1). unfold trace_of in Hf.
  destruct (f a g1) as [[r g2] t2]. simpl in *. by apply kill_switch_ok_app.
Qed.

Lemma disciplined_try_except (m : M A) (handler : exn -> M A) :
  disciplined m -> (forall e, disciplined (handler e)) -> disciplined (try_except m handler).
Proof.
  intros Hm Hh g. specialize (Hm g). unfold try_except, trace_of in *.
  destruct (m g) as [[[a|e] g1] t1]; simpl in *; [done |].
  specialize (Hh e g1). unfold trace_of in Hh.
  destruct (handler e g1) as [[r g2] t2]. simpl in *. by apply kill_switch_ok_app.
Qed.

Lemma disciplined_for_range (body : nat -> M (ctl A)) n a :
  (forall k, disciplined (body k)) -> disciplined (for_range body n a).
Proof.
  intros Hbody. revert a. induction n as [|n IH]; intros a; simpl.
  - by intros g.
  - intros g. specialize (Hbody a g). unfold bind, trace_of in *.
    destruct (body a g) as [[[c|e] g1] t1]; simpl in *; [| done].
    destruct c as [| |v]; simpl; try by rewrite app_nil_r.
    specialize (IH (S a) g1). unfold trace_of in IH.
    destruct (for_range body n (S a) g1) as [[r g2] t2]. simpl in *.
    by apply kill_switch_ok_app.
Qed.

End Discipline.

Lemma disciplined_for_each {A} (body : A -> M unit) xs :
  (forall x, disciplined (body x)) -> disciplined (for_each body xs).
Proof.
  intros Hbody. induction xs as [|x xs IH]; simpl.
  - by intros g.
  - by apply disciplined_bind.
Qed.

Lemma disciplined_emit e : is_ReadLine e = false -> disciplined (emit e).
Proof. intros He g. simpl. by destruct e. Qed.

Lemma disciplined_stream_output pid lines acc : disciplined (stream_output pid lines acc).
Proof. intros g. rewrite stream_output_run. apply stream_trace_ok. Qed.

Lemma disciplined_print_status message status : disciplined (print_status message status).
Proof. by intros g. Qed.

Create HintDb discipline.

#[local] Hint Resolve disciplined_print_status : discipline.

Ltac discipline :=
  repeat first
    [ solve [auto 1 with discipline nocore]
    | apply disciplined_ret
    | apply disciplined_raise
    | apply disciplined_stream_output
    | apply disciplined_emit; reflexivity
    | apply disciplined_bind; [| intros ?]
    | apply disciplined_try_except; [| intros ?]
    | apply disciplined_for_range; intros ?
    | apply disciplined_for_each; intros ?
    | match goal with
      | |- disciplined (if ?b then _ else _) => destruct b
      | |- disciplined (match ?x with _ => _ end) => destruct x
      end
    | by intros ? ].

Lemma disciplined_get_next w : disciplined (get_next_chromium_profile w).
Proof. unfold get_next_chromium_profile, index. discipline. Qed.

#[local] Hint Resolve disciplined_get_next : discipline.

Lemma disciplined_gate w url reason : disciplined (handle_manual_intervention w url reason).
Proof.
  unfold handle_manual_intervention, open_browser_for_login. discipline.
Qed.

Lemma disciplined_credential_args w platform attempt :
  disciplined (credential_args w platform attempt).
Proof. unfold credential_args. discipline. Qed.

Lemma disciplined_run_child w attempt command : disciplined (run_child w attempt command).
Proof. unfold run_child. discipline. Qed.

Lemma disciplined_on_failure {A} w platform url attempt st restricted_msg message status :
  disciplined (on_failure (A := A) w platform url attempt st restricted_msg
                 (print_status message status)).
Proof.
  pose proof (disciplined_gate w) as Hgate.
  unfold on_failure. discipline.
Qed.

#[local] Hint Resolve disciplined_credential_args disciplined_run_child
  disciplined_on_failure : discipline.

Lemma disciplined_video_attempt w url base_command existing_files attempt :
  disciplined (video_attempt w url base_command existing_files attempt).
Proof. unfold video_attempt. discipline. Qed.

Lemma disciplined_audio_attempt w url base_command existing_files attempt :
  disciplined (audio_attempt w url base_command existing_files attempt).
Proof. unfold audio_attempt. discipline. Qed.

Lemma disciplined_subtitles_attempt w url language base_command attempt :
  disciplined (subtitles_attempt w url language base_command attempt).
Proof. unfold subtitles_attempt. discipline. Qed.

#[local] Hint Resolve disciplined_video_attempt disciplined_audio_attempt
  disciplined_subtitles_attempt : discipline.

Lemma disciplined_download_video_direct w url extra_options safe_mode :
  disciplined (download_video_direct w url extra_options safe_mode).
Proof. unfold download_video_direct, video_loop. discipline. Qed.

Lemma disciplined_download_audio_direct w url extra_options safe_mode :
  disciplined (download_audio_direct w url extra_options safe_mode).
Proof. unfold download_audio_direct, audio_loop. discipline. Qed.

Lemma disciplined_download_subtitles_direct w url language safe_mode :
  disciplined (download_subtitles_direct w url language safe_mode).
Proof.
  unfold download_subtitles_direct, subtitles_loop. discipline.
Qed.

(** What the checker [kill_switch_ok] means. *)
Lemma terminated_before_read_split pid t :
  terminated_before_read pid t = true ->
  exists mid rest,
    t = mid ++ Terminate pid :: rest /\ forall line, ReadLine pid line ∉ mid.
Proof.
  induction t as [|e t IH]; simpl; [done |].
  destruct (is_Terminate pid e) eqn:Ht.
  - intros _. exists [], t. destruct e; try done. simpl in Ht.
    apply bool_decide_eq_true in Ht as ->. split; [done |]. intros line. apply not_elem_of_nil.
  - destruct (reads_from pid e) eqn:Hr; [done |]. intros H.
    destruct (IH H) as (mid & rest & -> & Hmid).
    exists (e :: mid), rest. split; [done |]. intros line [He | Hin]%elem_of_cons.
    + subst e. simpl in Hr. by rewrite bool_decide_eq_true_2 in Hr.
    + by apply (Hmid line).
Qed.

Lemma kill_switch_ok_split t t1 pid line t2 :
  kill_switch_ok t = true ->
  t = t1 ++ ReadLine pid line :: t2 ->
  is_hard_block line = true ->
  exists mid rest,
    t2 = mid ++ Terminate pid :: rest /\ forall line', ReadLine pid line' ∉ mid.
Proof.
  intros Hok -> Hb. induction t1 as [|e t1 IH]; simpl in Hok.
  - rewrite Hb in Hok. apply andb_true_iff in Hok as [Hok _].
    by apply terminated_before_read_split.
  - apply andb_true_iff in Hok as [_ Hok]. by apply IH.
Qed.

(** C6: in every run of the three download functions, whenever a line read
    from a child passes the hard-block test, what follows in the trace
    contains the termination request for that child, and no line is read
    from that child between the two. *)
Theorem kill_switch_before_next_read
    (w : World) (url language : string) (extra_options : list string) (safe_mode : bool)
    (g : Globals) (t t1 t2 : list event) (pid : nat) (line : string)
    (Hrun : t = trace_of (download_video_direct w url extra_options safe_mode g) \/
            t = trace_of (download_audio_direct w url extra_options safe_mode g) \/
            t = trace_of (download_subtitles_direct w url language safe_mode g))
    (Hread : t = t1 ++ ReadLine pid line :: t2)
    (Hblock : HardBlocked ∈ classify line) :
  exists mid rest,
    t2 = mid ++ Terminate pid :: rest /\ forall line', ReadLine pid line' ∉ mid.
Proof.
  assert (Hb : is_hard_block line = true).
  { rewrite classify_cases in Hblock.
    destruct (is_rate_limited line), (is_hard_block line); try done;
      apply list_elem_of_In in Hblock; simpl in Hblock; intuition discriminate. }
  eapply kill_switch_ok_split; [| exact Hread | exact Hb].
  destruct Hrun as [-> | [-> | ->]].
  - apply disciplined_download_video_direct.
  - apply disciplined_download_audio_direct.
  - apply disciplined_download_subtitles_direct.
Qed.

Lemma kill_switch_before_next_read_witness :
  let w := Demo.world (Demo.always Demo.bot_check) Demo.empty_dir Demo.zero_mtime
                      Demo.no_files in
  let t := trace_of (download_audio_direct w Demo.youtube_url [] false Demo.pool3) in
  let line := "ERROR: [youtube] x: Sign in to confirm you" +:+ nl in
  t = take 5 t ++ ReadLine 0 line :: drop 6 t /\
  HardBlocked ∈ classify line /\
  exists mid rest,
    drop 6 t = mid ++ Terminate 0 :: rest /\ forall line', ReadLine 0 line' ∉ mid.
Proof.
  intros w t line.
  assert (Hread : t = take 5 t ++ ReadLine 0 line :: drop 6 t) by (vm_compute; reflexivity).
  assert (Hblock : HardBlocked ∈ classify line) by (vm_compute; left).
  split; [exact Hread |]. split; [exact Hblock |].
  exact (kill_switch_before_next_read w Demo.youtube_url "es" [] false Demo.pool3
           t (take 5 t) (drop 6 t) 0 line (or_intror (or_introl eq_refl)) Hread Hblock).
Defined.

(** ** Cookie inspector *)












Example analyze_uses_fallback_store :
  let files := fun p : string =>
    if bool_decide (p = "/home/u/chromium_data_1/chromium/Default/Cookies")
    then RegularFile 0 (Database None)
    else if bool_decide (p = "/home/u/chromium_data_1/Default/Cookies")
    then RegularFile 4096 (Database (Some [(".YouTube.com", 13350000000000000)]))
    else Absent in
  let w := Demo.world (Demo.always Demo.clean_exit) Demo.empty_dir Demo.zero_mtime files in
  consulted_store w "/home/u/chromium_data_1" = "/home/u/chromium_data_1/Default/Cookies" /\
  verify_platform_cookies w (Demo.sqlite3 w) ["/home/u/chromium_data_1"] "YouTube" = true /\
  verify_platform_cookies w (Demo.sqlite3 w) ["/home/u/chromium_data_1"] "TikTok" = false /\
  verify_platform_cookies w (Demo.sqlite3 w) ["/home/u/chromium_data_1"] "Desconocida" = false /\
  verify_platform_cookies w (Demo.sqlite3 w) [] "YouTube" = false.
Proof. repeat split; vm_compute; reflexivity. Qed.

Example analyze_corrupt_store :
  let files := fun p : string =>
    if bool_decide (p = "/home/u/chromium_data_1/chromium/Default/Cookies")
    then RegularFile 512 NotADatabase
    else if bool_decide (p = "/home/u/chromium_data_1/Default/Cookies")
    then RegularFile 4096 (Database (Some [(".youtube.com", 13350000000000000)]))
    else Absent in
  let w := Demo.world (Demo.always Demo.clean_exit) Demo.empty_dir Demo.zero_mtime files in
  consulted_store w "/home/u/chromium_data_1"
    = "/home/u/chromium_data_1/chromium/Default/Cookies" /\
  verify_platform_cookies w (Demo.sqlite3 w) ["/home/u/chromium_data_1"] "YouTube" = false.
Proof. repeat split; vm_compute; reflexivity. Qed.

(** ** Pool set-up *)

Lemma pool_named_snoc g p :
  pool_named g -> p <> "" ->
  pool_named {| CHROMIUM_PROFILES := CHROMIUM_PROFILES g ++ [p];
                CURRENT_PROFILE_INDEX := CURRENT_PROFILE_INDEX g |}.
Proof.
  unfold pool_named. simpl. intros Hg Hp. apply Forall_app. split; [done |].
  by constructor.
Qed.

Lemma setup_scan w (cond : string -> bool) (ids : list nat) g :
  pool_named g ->
  exists g',
    for_each (fun i : nat =>
        if cond (USER_HOME w // ("chromium_data_" +:+ pretty i))
        then append_CHROMIUM_PROFILES (USER_HOME w // ("chromium_data_" +:+ pretty i))
        else ret tt)
      ids g = (Ok tt, g', []) /\
    pool_named g' /\ CURRENT_PROFILE_INDEX g' = CURRENT_PROFILE_INDEX g.
Proof.
  revert g. induction ids as [|i ids IH]; intros g Hg.
  - by exists g.
  - cbn [for_each].
    destruct (cond (USER_HOME w // ("chromium_data_" +:+ pretty i))).
    + destruct (IH _ (pool_named_snoc g _ Hg
                        (joinpath_nonempty (USER_HOME w) ("chromium_data_" +:+ pretty i))))
        as (g' & Hrun & Hnamed & Hidx).
      exists g'. unfold bind at 1. unfold append_CHROMIUM_PROFILES at 1. by rewrite Hrun.
    + destruct (IH g Hg) as (g' & Hrun & Hnamed & Hidx).
      exists g'. unfold bind at 1. unfold ret at 1. by rewrite Hrun.
Qed.

(** After [setup_chromium_profiles] the pool is not empty, holds paths and
    the cursor is at its start: the hypotheses on the globals made above. *)
Lemma setup_chromium_profiles_pool w :
  exists g t,
    setup_chromium_profiles w initial_globals = (Ok tt, g, t) /\
    pool_wf g /\ CHROMIUM_PROFILES g <> [] /\ CURRENT_PROFILE_INDEX g = 0%nat.
Proof.
  unfold setup_chromium_profiles. cbv zeta.
  destruct (setup_scan w
              (fun profile_dir =>
                 dir_exists w profile_dir
                 && has_cookie_file w (profile_dir // "chromium" // "Default" // "Cookies"))
              (seq 1 5) initial_globals) as (g & Hrun & Hnamed & Hidx); [by constructor |].
  unfold bind at 1. rewrite Hrun.
  unfold bind, get_globals. case_bool_decide as Hnil.
  - eexists _, _. split; [reflexivity |]. split; [| done].
    split; [| done]. right. rewrite Hidx. simpl.
    destruct (CHROMIUM_PROFILES g); [done | simpl; lia].
  - eexists _, _. split; [reflexivity |]. unfold pool_wf, pool_ok. simpl.
    rewrite Hidx. simpl.
    split; [split; [right; rewrite length_app; simpl; lia |] |].
    + apply (pool_named_snoc g _ Hnamed (joinpath_nonempty _ _)).
    + split; [| done]. by destruct (CHROMIUM_PROFILES g).
Qed.

(** ** Small checks of the primitives *)

Example suffix_mp3 : PurePath.suffix "/srv/downloads/Some_Title.MP3" = ".MP3".
Proof. reflexivity. Qed.

Example suffix_hidden : PurePath.suffix "/srv/downloads/.hidden" = "".
Proof. reflexivity. Qed.

Example lower_mixed : Str.lower "ERROR: Sign In" = "error: sign in".
Proof. reflexivity. Qed.

Example detect_youtube : detect_platform "https://WWW.YouTube.com/watch?v=x" = YouTube.
Proof. reflexivity. Qed.

Example detect_tiktok : detect_platform Demo.tiktok_url = TikTok.
Proof. reflexivity. Qed.

Example detect_other : detect_platform "https://vimeo.com/1" = Desconocida.
Proof. reflexivity. Qed.

Example sort_is_stable :
  sort_by (fun p => if bool_decide (p = "c") then 1 else 2) ["a"; "b"; "c"; "d"]
  = ["c"; "a"; "b"; "d"].
Proof. reflexivity. Qed.

(** The commands of the first two attempts of a YouTube video goal blocked
    by the bot check: anonymous with the light client, then with the cookies
    of the first identity and the downgraded client. *)
Example youtube_commands :
  let w := Demo.world (Demo.always Demo.bot_check) Demo.empty_dir Demo.zero_mtime
                      Demo.no_files in
  take 2 (omap (fun e => if e is Popen _ command then Some (drop 10 command) else None)
               (trace_of (video_loop w Demo.youtube_url [] false Demo.pool3)))
  = [["--extractor-args"; "youtube:player_client=android,tv"; Demo.youtube_url];
     ["--cookies-from-browser"; "chromium:/home/u/chromium_data_1/chromium";
      "--extractor-args"; "youtube:player_client=tv_downgraded,web"; Demo.youtube_url]].
Proof. vm_compute. reflexivity. Qed.

(** * Further properties of the code *)

(** ** The pool beyond three identities *)

Lemma rotation_lookup (pool : list string) c :
  (c < length pool)%nat ->
  (fun i => pool !!! ((c + i) mod length pool)%nat) <$> seq 0 (length pool)
  = drop c pool ++ take c pool.
Proof.
  intros Hc. apply list_eq. intros i.
  rewrite list_lookup_fmap.
  destruct (decide (i < length pool)%nat) as [Hi | Hi].
  - rewrite (proj2 (lookup_seq 0 (length pool) i i)) by (split; [done | lia]). simpl.
    destruct (decide (c + i < length pool)%nat) as [Hlt | Hge].
    + rewrite Nat.mod_small by done.
      rewrite lookup_app_l by (rewrite length_drop; lia).
      rewrite lookup_drop. symmetry. apply list_lookup_lookup_total_lt. done.
    + rewrite lookup_app_r by (rewrite length_drop; lia).
      rewrite length_drop.
      replace ((c + i) mod length pool)%nat with (i - (length pool - c))%nat.
      * rewrite lookup_take_lt by lia. symmetry.
        apply list_lookup_lookup_total_lt. lia.
      * apply (Nat.mod_unique _ _ 1); lia.
  - rewrite (lookup_ge_None_2 (seq 0 (length pool))) by (rewrite length_seq; lia).
    symmetry. apply lookup_ge_None_2.
    rewrite length_app, length_drop, length_take. lia.
Qed.

(** X1: on any non-empty pool, from any cursor inside it, as many calls as
    the pool has identities return every identity exactly once, in pool
    order starting at the cursor and wrapping, and put the cursor back
    where it was. *)
Theorem get_next_full_cycle (w : World) (pool : list string) (c : nat)
    (Hc : (c < length pool)%nat) :
  let g := {| CHROMIUM_PROFILES := pool; CURRENT_PROFILE_INDEX := c |} in
  call_get_next w (length pool) g = (Ok (drop c pool ++ take c pool), g, [])
  /\ drop c pool ++ take c pool ≡ₚ pool.
Proof.
  cbv zeta. split.
  - rewrite call_get_next_cycle by done. rewrite rotation_lookup by done.
    do 3 f_equal. rewrite <- (Nat.mul_1_l (length pool)) at 1.
    rewrite Nat.Div0.mod_add. by apply Nat.mod_small.
  - rewrite Permutation_app_comm. by rewrite take_drop.
Qed.

Lemma get_next_full_cycle_witness :
  (1 < length ["p1"; "p2"; "p3"; "p4"])%nat /\
  value_of (call_get_next (Demo.world (Demo.always Demo.clean_exit) Demo.empty_dir
                                      Demo.zero_mtime Demo.no_files) 4
              {| CHROMIUM_PROFILES := ["p1"; "p2"; "p3"; "p4"]; CURRENT_PROFILE_INDEX := 1 |})
  = Ok ["p2"; "p3"; "p4"; "p1"].
Proof.
  assert (H : (1 < length ["p1"; "p2"; "p3"; "p4"])%nat) by (simpl; lia).
  split; [exact H |].
  pose proof (proj1 (get_next_full_cycle
                (Demo.world (Demo.always Demo.clean_exit) Demo.empty_dir
                            Demo.zero_mtime Demo.no_files)
                ["p1"; "p2"; "p3"; "p4"] 1 H)) as Hrun.
  simpl length in Hrun. by rewrite Hrun.
Defined.

(** ** Pool set-up from any globals *)

Lemma setup_scan_pool w (ids : list nat) g :
  for_each (fun i : nat =>
      if has_valid_cookies w (USER_HOME w // ("chromium_data_" +:+ pretty i))
      then append_CHROMIUM_PROFILES (USER_HOME w // ("chromium_data_" +:+ pretty i))
      else ret tt)
    ids g
  = (Ok tt,
     {| CHROMIUM_PROFILES :=
          CHROMIUM_PROFILES g
          ++ filter (fun profile_dir => has_valid_cookies w profile_dir = true)
               ((fun i : nat => USER_HOME w // ("chromium_data_" +:+ pretty i)) <$> ids);
        CURRENT_PROFILE_INDEX := CURRENT_PROFILE_INDEX g |},
     []).
Proof.
  revert g. induction ids as [|i ids IH]; intros g.
  - simpl. unfold ret. rewrite app_nil_r. by destruct g.
  - cbn [for_each fmap list_fmap]. rewrite filter_cons. unfold bind at 1.
    destruct (decide (has_valid_cookies w (USER_HOME w // ("chromium_data_" +:+ pretty i))
                      = true)) as [Ht | Hf].
    + rewrite Ht. unfold append_CHROMIUM_PROFILES at 1. rewrite IH. simpl.
      by rewrite <- app_assoc.
    + apply not_true_is_false in Hf. rewrite Hf. unfold ret at 1. by rewrite IH.
Qed.

(** X2: [setup_chromium_profiles] only appends to the pool and leaves the
    cursor alone: the pool becomes the old pool followed by those of the
    five candidate directories, in order, that exist and hold a non-empty
    cookie file, or the single default directory when that would be empty;
    success is reported exactly in the first case; the pool is never empty
    afterwards and a cursor that was at the start or inside the old pool is
    inside the new one. *)
Theorem setup_chromium_profiles_appends (w : World) (g : Globals) :
  let scanned := CHROMIUM_PROFILES g ++ found_profiles w in
  let pool' := if bool_decide (scanned <> []) then scanned
               else [USER_HOME w // "chromium_data_1"] in
  let g' := {| CHROMIUM_PROFILES := pool';
               CURRENT_PROFILE_INDEX := CURRENT_PROFILE_INDEX g |} in
  (exists t,
      setup_chromium_profiles w g = (Ok tt, g', t) /\
      (scanned <> [] <->
       t = [PrintStatus ("Configurados " +:+ pretty (length scanned)
                         +:+ " perfiles con cookies válidas") "success"]) /\
      (scanned = [] <-> t = []))
  /\ pool' <> []
  /\ (CURRENT_PROFILE_INDEX g = 0%nat \/
      (CURRENT_PROFILE_INDEX g < length (CHROMIUM_PROFILES g))%nat ->
      pool_ok g')
  /\ (pool_named g -> pool_named g').
Proof.
  cbv zeta. split; [| split; [| split]].
  - unfold setup_chromium_profiles. cbv zeta. unfold bind at 1.
    pose proof (setup_scan_pool w (seq 1 5) g) as Hscan.
    fold (profile_candidates w) in Hscan. fold (found_profiles w) in Hscan.
    unfold has_valid_cookies in Hscan at 1. rewrite Hscan. clear Hscan.
    unfold bind, get_globals. cbn [CHROMIUM_PROFILES CURRENT_PROFILE_INDEX].
    case_bool_decide as Hnil.
    + eexists. split; [reflexivity |]. simpl. split; [done |].
      split; [done | discriminate].
    + eexists. split; [unfold append_CHROMIUM_PROFILES; simpl; by rewrite Hnil |].
      simpl. split; [done |]. split; [done | by intros _].
  - case_bool_decide; done.
  - intros Hidx. right. simpl. case_bool_decide as Hnil.
    + rewrite length_app. destruct Hidx as [-> | Hlt]; [| lia].
      destruct (CHROMIUM_PROFILES g ++ found_profiles w) eqn:E; [done |].
      rewrite <- length_app, E. simpl. lia.
    + apply app_eq_nil in Hnil as [Hnil _]. rewrite Hnil in Hidx. simpl in *. lia.
  - intros Hnamed. unfold pool_named in *. simpl. case_bool_decide.
    + apply Forall_app. split; [done |]. unfold found_profiles.
      apply Forall_forall. intros p [_ Hp]%list_elem_of_filter.
      unfold profile_candidates in Hp. apply list_elem_of_fmap in Hp as (i & -> & _).
      apply joinpath_nonempty.
    + repeat constructor. apply joinpath_nonempty.
Qed.

Example setup_two_of_five :
  let files := fun p : string =>
    if bool_decide (p = "/home/u/chromium_data_2/chromium/Default/Cookies")
    then RegularFile 4096 (Database (Some []))
    else if bool_decide (p = "/home/u/chromium_data_3/chromium/Default/Cookies")
    then RegularFile 0 (Database None)
    else if bool_decide (p = "/home/u/chromium_data_5/chromium/Default/Cookies")
    then RegularFile 20480 NotADatabase
    else Absent in
  let w := Demo.world (Demo.always Demo.clean_exit) Demo.empty_dir Demo.zero_mtime files in
  globals_of (setup_chromium_profiles w initial_globals)
  = {| CHROMIUM_PROFILES := ["/home/u/chromium_data_2"; "/home/u/chromium_data_5"];
       CURRENT_PROFILE_INDEX := 0 |}.
Proof. vm_compute. reflexivity. Qed.

(** ** The gate and the identities *)

Lemma get_next_trace_cases w g p g' t0 :
  get_next_chromium_profile w g = (Ok p, g', t0) ->
  t0 = [] \/ t0 = [Makedirs (p // "Default")].
Proof.
  unfold get_next_chromium_profile, bind, get_globals, index, emit, ret, raise,
    set_CURRENT_PROFILE_INDEX.
  case_bool_decide; [intros [= <- <- <-]; by right |].
  destruct (_ !! _); intros [= <- <- <-]. by left.
Qed.

Lemma gate_run w url reason g p g' t0 :
  get_next_chromium_profile w g = (Ok p, g', t0) ->
  exists t,
    handle_manual_intervention w url reason g = (Ok tt, g', t) /\
    gate_count t = 1%nat /\
    (error_reported t = true <-> chromium_browser w <> None) /\
    (PopenBrowser ["chromium-browser"; "--user-data-dir=" +:+ p; url] ∈ t <->
     chromium_browser w = None) /\
    (SyncCookies p ∈ t <-> cookie_sync w = None) /\
    (forall q, SyncCookies q ∈ t -> q = p).
Proof.
  intros Hget.
  unfold handle_manual_intervention, open_browser_for_login.
  unfold bind at 1. unfold emit at 1.
  erewrite bind_Ok; [| exact Hget].
  unfold bind, emit, print_status, ret.
  destruct (get_next_trace_cases _ _ _ _ _ Hget) as [-> | ->];
    destruct (chromium_browser w) as [e1|], (cookie_sync w) as [e2|]; simpl;
    eexists; (split; [reflexivity |]); (split; [reflexivity |]);
    (split; [split; intros H; try done; first [by vm_compute in H | by vm_compute] |]);
    (split; [elem_concrete |]); (split; [elem_concrete |]);
    intros q; elem_concrete.
Qed.

(** X3: whatever happens to the browser and to the copy of its profile, the
    gate returns normally once the operator has confirmed, exactly once: a
    browser that does not start is reported as an error and the gate still
    waits; a failed copy is reported as a warning and nothing is copied;
    the only profile whose cookies are copied is the one the browser was
    opened on, the next identity of the pool. *)
Theorem gate_always_waits (w : World) (url reason : string) (g : Globals)
    (Hok : pool_ok g) :
  exists p g' t,
    get_next_chromium_profile w g = (Ok p, g', trace_of (get_next_chromium_profile w g)) /\
    handle_manual_intervention w url reason g = (Ok tt, g', t) /\
    gate_count t = 1%nat /\
    (error_reported t = true <-> chromium_browser w <> None) /\
    (PopenBrowser ["chromium-browser"; "--user-data-dir=" +:+ p; url] ∈ t <->
     chromium_browser w = None) /\
    (SyncCookies p ∈ t <-> cookie_sync w = None) /\
    (forall q, SyncCookies q ∈ t -> q = p).
Proof.
  destruct (get_next_total w g Hok) as (p & g' & t0 & Hget & _).
  exists p, g'.
  destruct (gate_run w url reason g p g' t0 Hget) as (t & Hrun). exists t.
  split; [| exact Hrun]. unfold trace_of. by rewrite Hget.
Qed.

Lemma gate_always_waits_witness :
  let w := {| USER_HOME := "/home/u"; PROJECT_DIR := "/srv/ytdpl";
              sys_executable := "/usr/bin/python3";
              yt_dlp := Demo.always Demo.captcha;
              glob := fun _ _ _ => []; st_mtime := Demo.zero_mtime; video_title := "clip";
              dir_exists := fun _ => true; file_at := Demo.no_files;
              popen_error := fun _ => OSError "[Errno 2] No such file or directory";
              chromium_browser := Some (OSError "[Errno 2] No such file or directory: 'chromium-browser'");
              cookie_sync := Some (OSError "[Errno 13] Permission denied") |} in
  pool_ok Demo.pool3 /\
  exists g' t,
    handle_manual_intervention w Demo.youtube_url "Bloqueo" Demo.pool3 = (Ok tt, g', t) /\
    gate_count t = 1%nat /\ error_reported t = true /\
    (forall q, SyncCookies q ∉ t).
Proof.
  intros w. split; [exact pool3_ok |].
  destruct (gate_always_waits w Demo.youtube_url "Bloqueo" Demo.pool3 pool3_ok)
    as (p & g' & t & Hget & Hrun & Hg & He & _ & Hs & Honly).
  exists g', t. split; [exact Hrun |]. split; [exact Hg |].
  split; [by apply He |].
  intros q Hq. pose proof (Honly q Hq) as ->. by apply Hs in Hq.
Defined.

(** X4: the gate takes an identity of its own.  With the cursor at [c] in a
    pool of [n] identities, the browser is opened on identity [c] and its
    profile is the one copied, while the cookies the next attempt passes
    to yt-dlp are those of identity [c + 1] (modulo [n]); the two are the
    same identity only when the pool has a single identity (identities
    being distinct). *)
Theorem gate_then_attempt_uses_next_identity
    (w : World) (url reason : string) (attempt : nat) (pool : list string) (c : nat)
    (Hc : (c < length pool)%nat)
    (Hnamed : Forall (fun p => p <> EmptyString) pool) :
  let n := length pool in
  let g := {| CHROMIUM_PROFILES := pool; CURRENT_PROFILE_INDEX := c |} in
  let opened := pool !!! c in
  let used := pool !!! ((c + 1) mod n)%nat in
  (exists t,
      bind (handle_manual_intervention w url reason)
           (fun _ => credential_args w TikTok attempt) g
      = (Ok ["--cookies-from-browser"; "chromium:" +:+ used +:+ "/chromium"],
         {| CHROMIUM_PROFILES := pool; CURRENT_PROFILE_INDEX := ((c + 2) mod n)%nat |},
         t) /\
      (chromium_browser w = None ->
       PopenBrowser ["chromium-browser"; "--user-data-dir=" +:+ opened; url] ∈ t) /\
      (forall q, SyncCookies q ∈ t -> q = opened))
  /\ (NoDup pool -> (opened = used <-> n = 1%nat)).
Proof.
  cbv zeta.
  destruct (lookup_lt_is_Some_2 _ _ Hc) as [p Hp].
  assert (Hc' : ((c + 1) mod length pool < length pool)%nat)
    by (apply Nat.mod_upper_bound; lia).
  destruct (lookup_lt_is_Some_2 _ _ Hc') as [p' Hp'].
  rewrite (list_lookup_total_correct _ _ _ Hp), (list_lookup_total_correct _ _ _ Hp').
  split.
  - set (g := {| CHROMIUM_PROFILES := pool; CURRENT_PROFILE_INDEX := c |}).
    destruct (gate_run w url reason g _ _ _ (get_next_lookup w g p Hp))
      as (t & Hrun & _ & _ & Hb & _ & Honly).
    erewrite bind_Ok; [| exact Hrun].
    unfold credential_args. rewrite use_cookies_TikTok.
    erewrite bind_Ok; [| by apply get_next_lookup].
    assert (Hne : p' <> "").
    { rewrite Forall_forall in Hnamed. apply Hnamed. by eapply list_elem_of_lookup_2. }
    rewrite bool_decide_eq_true_2 by done. unfold ret. simpl.
    rewrite Nat.Div0.add_mod_idemp_l. replace (c + 1 + 1)%nat with (c + 2)%nat by lia.
    eexists. split; [reflexivity |]. rewrite !app_nil_r.
    split; [by intros Hb'; apply Hb | exact Honly].
  - intros Hnd. split.
    + intros <-. pose proof (NoDup_lookup _ _ _ _ Hnd Hp Hp') as Heq.
      destruct (decide (c + 1 < length pool)%nat) as [Hlt | Hge].
      * rewrite Nat.mod_small in Heq by done. lia.
      * replace (c + 1)%nat with (length pool) in Heq by lia.
        rewrite Nat.Div0.mod_same in Heq. lia.
    + intros H1. rewrite H1 in *. assert (c = 0%nat) as -> by lia.
      simpl in Hp'. congruence.
Qed.

Lemma gate_then_attempt_uses_next_identity_witness :
  let w := Demo.world (Demo.always Demo.captcha) Demo.empty_dir Demo.zero_mtime
                      Demo.no_files in
  (0 < length (CHROMIUM_PROFILES Demo.pool3))%nat /\
  exists t,
    bind (handle_manual_intervention w Demo.tiktok_url "Bloqueo")
         (fun _ => credential_args w TikTok 1) Demo.pool3
    = (Ok ["--cookies-from-browser"; "chromium:/home/u/chromium_data_2/chromium"],
       {| CHROMIUM_PROFILES := CHROMIUM_PROFILES Demo.pool3; CURRENT_PROFILE_INDEX := 2 |},
       t) /\
    forall q, SyncCookies q ∈ t -> q = "/home/u/chromium_data_1".
Proof.
  intros w.
  assert (Hc : (0 < length (CHROMIUM_PROFILES Demo.pool3))%nat) by (simpl; lia).
  assert (Hn : Forall (fun p => p <> EmptyString) (CHROMIUM_PROFILES Demo.pool3))
    by (simpl; by repeat constructor).
  split; [exact Hc |].
  destruct (proj1 (gate_then_attempt_uses_next_identity w Demo.tiktok_url "Bloqueo" 1
                     (CHROMIUM_PROFILES Demo.pool3) 0 Hc Hn)) as (t & Hrun & _ & Honly).
  exists t. split; [exact Hrun | exact Honly].
Defined.

(** ** What the streaming loop reads *)

Lemma seconds_slept_app t1 t2 :
  seconds_slept (t1 ++ t2) = seconds_slept t1 + seconds_slept t2.
Proof. induction t1 as [|e t1 IH]; simpl; [done |]. rewrite IH. lia. Qed.

Lemma terminations_app pid t1 t2 :
  terminations pid (t1 ++ t2) = (terminations pid t1 + terminations pid t2)%nat.
Proof.
  induction t1 as [|e t1 IH]; simpl; [done |]. rewrite IH.
  by destruct (is_Terminate pid e).
Qed.

Lemma line_trace_summary pid line :
  lines_read pid (line_trace pid line) = [line] /\
  lines_echoed (line_trace pid line) = [line] /\
  seconds_slept (line_trace pid line) = (if is_rate_limited line then 1800 else 0) /\
  terminations pid (line_trace pid line) = (if is_hard_block line then 1 else 0)%nat.
Proof.
  unfold line_trace, on_line, handle_rate_limit_pause, bind, emit, ret, trace_of,
    lines_read, terminations.
  destruct (is_rate_limited line), (is_hard_block line); simpl;
    rewrite ?bool_decide_eq_true_2 by done; done.
Qed.

Lemma stream_trace_summary pid lines :
  lines_read pid (stream_trace pid lines) = consumed lines /\
  lines_echoed (stream_trace pid lines) = consumed lines /\
  seconds_slept (stream_trace pid lines)
    = 1800 * Z.of_nat (length (filter (fun l => is_rate_limited l = true) (consumed lines))) /\
  terminations pid (stream_trace pid lines) = (if blocked lines then 1 else 0)%nat.
Proof.
  induction lines as [|line rest (IHr & IHe & IHs & IHt)]; [done |].
  destruct (line_trace_summary pid line) as (Hr & He & Hs & Ht).
  cbn [stream_trace consumed blocked existsb].
  unfold lines_read, lines_echoed in *.
  rewrite !omap_app, seconds_slept_app, terminations_app. fold (lines_read pid).
  unfold lines_read. rewrite Hr, He, Hs, Ht. clear Hr He Hs Ht.
  destruct (is_hard_block line); cbn [orb app omap].
  - rewrite filter_cons, filter_nil.
    destruct (is_rate_limited line); simpl; repeat split; lia.
  - rewrite IHr, IHe, IHs. fold (blocked rest). rewrite IHt. rewrite filter_cons.
    destruct (is_rate_limited line); simpl length; repeat split; lia.
Qed.

Lemma consumed_unblocked lines : blocked lines = false -> consumed lines = lines.
Proof.
  induction lines as [|line rest IH]; [done |]. cbn [blocked existsb consumed].
  destruct (is_hard_block line); [done |]. intros H. by rewrite IH.
Qed.

Lemma consumed_truncates pre line post :
  blocked pre = false -> is_hard_block line = true ->
  consumed (pre ++ line :: post) = pre ++ [line] /\ blocked (pre ++ line :: post) = true.
Proof.
  intros Hpre Hb. split.
  - induction pre as [|x pre IH]; cbn [app consumed].
    + by rewrite Hb.
    + cbn [blocked existsb] in Hpre. apply orb_false_iff in Hpre as [Hx Hpre].
      rewrite Hx. by rewrite IH.
  - unfold blocked. rewrite existsb_app. cbn [existsb]. rewrite Hb.
    by rewrite orb_true_r.
Qed.

(** X5: when no line of a child's output passes the hard-block test, the
    streaming loop reads and echoes every line, in order, keeps them all as
    the captured output, never terminates the child, and sleeps thirty
    minutes for each rate-limit line: a rate limit pauses the supervisor
    but does not end the attempt. *)
Theorem stream_without_block (pid : nat) (lines output_lines : list string) (g : Globals)
    (Hnone : blocked lines = false) :
  exists t,
    stream_output pid lines output_lines g = (Ok (output_lines ++ lines, false), g, t) /\
    lines_read pid t = lines /\ lines_echoed t = lines /\
    terminations pid t = 0%nat /\
    seconds_slept t
      = 1800 * Z.of_nat (length (filter (fun l => is_rate_limited l = true) lines)).
Proof.
  exists (stream_trace pid lines).
  destruct (stream_trace_summary pid lines) as (Hr & He & Hs & Ht).
  rewrite stream_output_run, Hr, He, Hs, Ht, Hnone, consumed_unblocked by done.
  done.
Qed.

Lemma stream_without_block_witness :
  let lines := ["[download] 10%" +:+ nl;
                "WARNING: you have been rate-limited by YouTube for up to an hour" +:+ nl;
                "[download] 100%" +:+ nl] in
  blocked lines = false /\
  exists t,
    stream_output 0 lines [] initial_globals = (Ok (lines, false), initial_globals, t) /\
    lines_read 0 t = lines /\ terminations 0 t = 0%nat /\ seconds_slept t = 1800.
Proof.
  intros lines. assert (Hnone : blocked lines = false) by reflexivity.
  split; [exact Hnone |].
  destruct (stream_without_block 0 lines [] initial_globals Hnone)
    as (t & Hrun & Hr & _ & Ht & Hs).
  exists t. split; [exact Hrun |]. split; [exact Hr |]. split; [exact Ht |].
  rewrite Hs. reflexivity.
Defined.

(** X6: the first line that passes the hard-block test ends the reading:
    the lines before it and that line are read, echoed and captured, the
    child is terminated once, and nothing of what the child would have
    written afterwards is read, echoed, captured or acted upon. *)
Theorem stream_stops_at_first_block
    (pid : nat) (pre post output_lines : list string) (line : string) (g : Globals)
    (Hpre : blocked pre = false) (Hline : is_hard_block line = true) :
  exists t,
    stream_output pid (pre ++ line :: post) output_lines g
      = (Ok (output_lines ++ pre ++ [line], true), g, t) /\
    lines_read pid t = pre ++ [line] /\ lines_echoed t = pre ++ [line] /\
    terminations pid t = 1%nat /\
    t = trace_of (stream_output pid (pre ++ [line]) output_lines g).
Proof.
  exists (stream_trace pid (pre ++ line :: post)).
  destruct (stream_trace_summary pid (pre ++ line :: post)) as (Hr & He & _ & Ht).
  destruct (consumed_truncates pre line post Hpre Hline) as [Hc Hb].
  rewrite stream_output_run, Hr, He, Ht, Hc, Hb.
  repeat split; try done.
  rewrite stream_output_run. unfold trace_of. simpl.
  clear -Hline. induction pre as [|x pre IH]; simpl.
  - by rewrite Hline.
  - by rewrite IH.
Qed.

Lemma stream_stops_at_first_block_witness :
  let pre := ["[youtube] Extracting URL" +:+ nl] in
  let line := "ERROR: [youtube] x: Sign in to confirm you" +:+ nl in
  let post := ["[download] 100%" +:+ nl] in
  blocked pre = false /\ is_hard_block line = true /\
  stdout Demo.bot_check = pre ++ line :: post /\
  exists t,
    stream_output 0 (stdout Demo.bot_check) [] initial_globals
      = (Ok (pre ++ [line], true), initial_globals, t) /\
    lines_echoed t = pre ++ [line].
Proof.
  intros pre line post.
  assert (Hpre : blocked pre = false) by reflexivity.
  assert (Hline : is_hard_block line = true) by reflexivity.
  split; [exact Hpre |]. split; [exact Hline |]. split; [reflexivity |].
  destruct (stream_stops_at_first_block 0 pre post [] line initial_globals Hpre Hline)
    as (t & Hrun & _ & He & _).
  exists t. split; [exact Hrun | exact He].
Defined.

(** ** Trace disciplines of whole runs *)

Section Obeys.

Context (ok : list event -> bool).
Hypothesis ok_app : forall a b, ok a = true -> ok b = true -> ok (a ++ b) = true.

Lemma obeys_bind {A B} (m : M A) (f : A -> M B) :
  obeys ok m -> (forall a, obeys ok (f a)) -> obeys ok (bind m f).
Proof.
  intros Hm Hf g. specialize (Hm g). unfold bind, trace_of in *.
  destruct (m g) as [[[a|e] g1] t1]; simpl in *; [| done].
  specialize (Hf a g1). unfold trace_of in Hf.
  destruct (f a g1) as [[r g2] t2]. simpl in *. by apply ok_app.
Qed.

Lemma obeys_try_except {A} (m : M A) (handler : exn -> M A) :
  obeys ok m -> (forall e, obeys ok (handler e)) -> obeys ok (try_except m handler).
Proof.
  intros Hm Hh g. specialize (Hm g). unfold try_except, trace_of in *.
  destruct (m g) as [[[a|e] g1] t1]; simpl in *; [done |].
  specialize (Hh e g1). unfold trace_of in Hh.
  destruct (handler e g1) as [[r g2] t2]. simpl in *. by apply ok_app.
Qed.

Hypothesis ok_nil : ok [] = true.

Lemma obeys_ret {A} (a : A) : obeys ok (ret a).
Proof. by intros g. Qed.

Lemma obeys_raise {A} (e : exn) : obeys ok (raise (A := A) e).
Proof. by intros g. Qed.

Lemma obeys_emit e : ok [e] = true -> obeys ok (emit e).
Proof. by intros He g. Qed.

Lemma obeys_print_status message status :
  ok [PrintStatus message status] = true -> obeys ok (print_status message status).
Proof. by intros He g. Qed.

Lemma obeys_for_range {A} (body : nat -> M (ctl A)) n a :
  (forall k, obeys ok (body k)) -> obeys ok (for_range body n a).
Proof.
  intros Hbody. revert a. induction n as [|n IH]; intros a; simpl.
  - by apply obeys_ret.
  - apply obeys_bind; [done |]. intros [| |v]; [apply IH | |]; by apply obeys_ret.
Qed.

Lemma obeys_for_each {A} (body : A -> M unit) xs :
  (forall x, obeys ok (body x)) -> obeys ok (for_each body xs).
Proof.
  intros Hbody. induction xs as [|x xs IH]; simpl.
  - by apply obeys_ret.
  - by apply obeys_bind.
Qed.

End Obeys.

Create HintDb obeys.

(** [obey Happ Hnil]: structural proof of [obeys ok m], the leaves being
    single events that pass [ok] and computations registered as hints. *)
Ltac obey Happ Hnil :=
  repeat first
    [ solve [auto 1 with obeys nocore]
    | apply (obeys_ret _ Hnil)
    | apply (obeys_raise _ Hnil)
    | apply obeys_emit; reflexivity
    | apply obeys_print_status; reflexivity
    | apply (obeys_bind _ Happ); [| intros ?]
    | apply (obeys_try_except _ Happ); [| intros ?]
    | apply (obeys_for_range _ Happ Hnil); intros ?
    | apply (obeys_for_each _ Happ Hnil); intros ?
    | match goal with
      | |- obeys _ (if ?b then _ else _) => destruct b
      | |- obeys _ (match ?x with _ => _ end) => destruct x
      end ].

(** *** Children are waited for *)

Lemma waited_before_popen_app pid a b :
  waited_before_popen pid a = true -> waited_before_popen pid (a ++ b) = true.
Proof.
  induction a as [|e a IH]; simpl; [done |].
  destruct e; try done. by case_bool_decide.
Qed.

Lemma children_waited_app a b :
  children_waited a = true -> children_waited b = true -> children_waited (a ++ b) = true.
Proof.
  intros Ha Hb. induction a as [|e a IH]; simpl in *; [done |].
  apply andb_true_iff in Ha as [He Ha]. rewrite IH by done. rewrite andb_true_r.
  destruct e; try done. by apply waited_before_popen_app.
Qed.

Lemma waited_before_popen_skip pid a b :
  Forall (fun e => is_Popen e = false /\ is_Wait e = false) a ->
  waited_before_popen pid (a ++ b) = waited_before_popen pid b.
Proof.
  induction 1 as [|e a [Hp Hw] _ IH]; simpl; [done |]. by destruct e.
Qed.

Lemma children_waited_none t :
  Forall (fun e => is_Popen e = false /\ is_Wait e = false) t -> children_waited t = true.
Proof.
  induction 1 as [|e t [Hp _] _ IH]; simpl; [done |]. rewrite IH. by destruct e.
Qed.

Lemma line_trace_no_child_events pid line :
  Forall (fun e => is_Popen e = false /\ is_Wait e = false) (line_trace pid line).
Proof.
  unfold line_trace, on_line, handle_rate_limit_pause, bind, emit, ret, trace_of.
  destruct (is_rate_limited line), (is_hard_block line); simpl; by repeat constructor.
Qed.

Lemma stream_trace_no_child_events pid lines :
  Forall (fun e => is_Popen e = false /\ is_Wait e = false) (stream_trace pid lines).
Proof.
  induction lines as [|line rest IH]; simpl; [constructor |].
  apply Forall_app. split; [apply line_trace_no_child_events |].
  by destruct (is_hard_block line).
Qed.

Lemma run_child_trace w attempt command g :
  trace_of (run_child w attempt command g) =
    Print (nl +:+ Colors.MAGENTA +:+ "--- Registro de yt-dlp ---" +:+ Colors.RESET)
    :: match yt_dlp w attempt with
       | None => []
       | Some proc =>
           Popen attempt command
           :: stream_trace attempt (stdout proc)
           ++ [Wait attempt;
               Print (Colors.MAGENTA +:+ "--------------------------"
                      +:+ Colors.RESET +:+ nl)]
       end.
Proof.
  unfold run_child, bind, emit, raise, ret, trace_of.
  destruct (yt_dlp w attempt) as [proc|]; [| reflexivity].
  rewrite stream_output_run. reflexivity.
Qed.

Lemma obeys_waited_run_child w attempt command :
  obeys children_waited (run_child w attempt command).
Proof.
  intros g. rewrite run_child_trace. destruct (yt_dlp w attempt) as [proc|]; [| done].
  cbn [children_waited]. rewrite waited_before_popen_skip
    by apply stream_trace_no_child_events.
  simpl. rewrite bool_decide_eq_true_2 by done. simpl.
  apply children_waited_app; [| done].
  apply children_waited_none, stream_trace_no_child_events.
Qed.

#[local] Hint Resolve obeys_waited_run_child : obeys.

Lemma obeys_waited_get_next w : obeys children_waited (get_next_chromium_profile w).
Proof.
  unfold get_next_chromium_profile, index, get_globals, set_CURRENT_PROFILE_INDEX.
  obey children_waited_app (eq_refl : children_waited [] = true); by intros g.
Qed.

#[local] Hint Resolve obeys_waited_get_next : obeys.

Lemma obeys_waited_gate w url reason :
  obeys children_waited (handle_manual_intervention w url reason).
Proof.
  unfold handle_manual_intervention, open_browser_for_login.
  obey children_waited_app (eq_refl : children_waited [] = true).
Qed.

#[local] Hint Resolve obeys_waited_gate : obeys.

Lemma obeys_waited_video w url extra_options safe_mode :
  obeys children_waited (download_video_direct w url extra_options safe_mode).
Proof.
  unfold download_video_direct, video_loop, video_attempt, credential_args, on_failure.
  obey children_waited_app (eq_refl : children_waited [] = true).
Qed.

Lemma obeys_waited_audio w url extra_options safe_mode :
  obeys children_waited (download_audio_direct w url extra_options safe_mode).
Proof.
  unfold download_audio_direct, audio_loop, audio_attempt, credential_args, on_failure.
  obey children_waited_app (eq_refl : children_waited [] = true).
Qed.

Lemma obeys_waited_subtitles w url language safe_mode :
  obeys children_waited (download_subtitles_direct w url language safe_mode).
Proof.
  unfold download_subtitles_direct, subtitles_loop, subtitles_attempt, credential_args,
    on_failure.
  obey children_waited_app (eq_refl : children_waited [] = true).
Qed.

Lemma waited_before_popen_split pid t :
  waited_before_popen pid t = true ->
  exists mid rest,
    t = mid ++ Wait pid :: rest /\ Forall (fun e => is_Popen e = false) mid.
Proof.
  induction t as [|e t IH]; simpl; [done |].
  destruct e;
    try (intros H; destruct (IH H) as (mid & rest & -> & Hmid);
         eexists (_ :: mid), rest; split; [reflexivity | by constructor]);
    try done.
  case_bool_decide as Hq.
  - subst. intros _. by exists [], t.
  - intros H. destruct (IH H) as (mid & rest & -> & Hmid).
    eexists (_ :: mid), rest. split; [reflexivity | by constructor].
Qed.

Lemma children_waited_split t t1 pid command t2 :
  children_waited t = true ->
  t = t1 ++ Popen pid command :: t2 ->
  exists mid rest,
    t2 = mid ++ Wait pid :: rest /\ Forall (fun e => is_Popen e = false) mid.
Proof.
  intros Hok ->. induction t1 as [|e t1 IH]; simpl in Hok.
  - apply andb_true_iff in Hok as [Hok _]. by apply waited_before_popen_split.
  - apply andb_true_iff in Hok as [_ Hok]. by apply IH.
Qed.

(** X7: in every run of the three download functions in which the output
    of the children is read and echoed without an exception, each yt-dlp
    child that an attempt starts is waited for before another is started:
    two such children never run at once, and the verdict on an attempt is
    taken only after its child has been waited for. *)
Theorem every_child_is_waited_for
    (w : World) (url language : string) (extra_options : list string) (safe_mode : bool)
    (g : Globals) (t t1 t2 : list event) (pid : nat) (command : list string)
    (Hrun : t = trace_of (download_video_direct w url extra_options safe_mode g) \/
            t = trace_of (download_audio_direct w url extra_options safe_mode g) \/
            t = trace_of (download_subtitles_direct w url language safe_mode g))
    (Hstart : t = t1 ++ Popen pid command :: t2) :
  exists mid rest,
    t2 = mid ++ Wait pid :: rest /\ Forall (fun e => is_Popen e = false) mid.
Proof.
  eapply children_waited_split; [| exact Hstart].
  destruct Hrun as [-> | [-> | ->]].
  - apply obeys_waited_video.
  - apply obeys_waited_audio.
  - apply obeys_waited_subtitles.
Qed.

Lemma every_child_is_waited_for_witness :
  let w := Demo.world (Demo.always Demo.bot_check) Demo.empty_dir Demo.zero_mtime
                      Demo.no_files in
  let t := trace_of (download_video_direct w Demo.youtube_url [] false Demo.pool3) in
  exists command,
    t = take 2 t ++ Popen 0 command :: drop 3 t /\
    exists mid rest,
      drop 3 t = mid ++ Wait 0 :: rest /\ Forall (fun e => is_Popen e = false) mid.
Proof.
  intros w t. eexists.
  assert (Hstart : t = take 2 t ++ Popen 0 _ :: drop 3 t) by (vm_compute; reflexivity).
  split; [exact Hstart |].
  exact (every_child_is_waited_for w Demo.youtube_url "es" [] false Demo.pool3
           t (take 2 t) (drop 3 t) 0 _ (or_introl eq_refl) Hstart).
Defined.

(** *** A child is terminated only for a hard block *)

Lemma terminate_justified_mono s1 s2 t :
  (forall pid, pid ∈ s1 -> pid ∈ s2) ->
  terminate_justified s1 t = true -> terminate_justified s2 t = true.
Proof.
  revert s1 s2. induction t as [|e t IH]; intros s1 s2 Hsub; simpl; [done |].
  destruct e; try by apply IH.
  - apply IH. destruct (is_hard_block line); [| done].
    intros q [-> | Hq]%elem_of_cons; [left | right; by apply Hsub].
  - rewrite !andb_true_iff, !bool_decide_eq_true. intros [Hin Ht].
    split; [by apply Hsub | by eapply IH].
Qed.

Lemma terminate_justified_app_seen s a b :
  terminate_justified s a = true -> terminate_justified [] b = true ->
  terminate_justified s (a ++ b) = true.
Proof.
  revert s. induction a as [|e a IH]; intros s Ha Hb; simpl in *.
  - eapply terminate_justified_mono; [| exact Hb]. by intros pid ?%elem_of_nil.
  - destruct e; try by apply IH.
    apply andb_true_iff in Ha as [Hin Ha]. rewrite Hin. by apply IH.
Qed.

Lemma terminate_justified_app a b :
  terminate_justified [] a = true -> terminate_justified [] b = true ->
  terminate_justified [] (a ++ b) = true.
Proof. apply terminate_justified_app_seen. Qed.

Lemma terminate_justified_quiet s t :
  Forall (fun e => is_ReadLine e = false /\ forall pid, is_Terminate pid e = false) t ->
  terminate_justified s t = true.
Proof.
  induction 1 as [|e t [Hr Ht] _ IH]; simpl; [done |].
  destruct e; try done. specialize (Ht pid). simpl in Ht.
  by rewrite bool_decide_eq_true_2 in Ht.
Qed.

Lemma line_trace_justified s pid line :
  terminate_justified s (line_trace pid line) = true.
Proof.
  unfold line_trace, on_line, handle_rate_limit_pause, bind, emit, ret, trace_of.
  destruct (is_rate_limited line), (is_hard_block line) eqn:Hb; simpl; rewrite ?Hb; simpl;
    rewrite ?andb_true_r; try done; apply bool_decide_eq_true; by left.
Qed.

Lemma stream_trace_justified pid lines :
  terminate_justified [] (stream_trace pid lines) = true.
Proof.
  induction lines as [|line rest IH]; simpl; [done |].
  apply terminate_justified_app; [apply line_trace_justified |].
  by destruct (is_hard_block line).
Qed.

Lemma obeys_justified_run_child w attempt command :
  obeys (terminate_justified []) (run_child w attempt command).
Proof.
  intros g. rewrite run_child_trace. destruct (yt_dlp w attempt) as [proc|]; [| done].
  cbn [terminate_justified].
  apply terminate_justified_app; [apply stream_trace_justified | done].
Qed.

#[local] Hint Resolve obeys_justified_run_child : obeys.

Lemma obeys_justified_get_next w :
  obeys (terminate_justified []) (get_next_chromium_profile w).
Proof.
  unfold get_next_chromium_profile, index, get_globals, set_CURRENT_PROFILE_INDEX.
  obey terminate_justified_app (eq_refl : terminate_justified [] [] = true); by intros g.
Qed.

#[local] Hint Resolve obeys_justified_get_next : obeys.

Lemma obeys_justified_video w url extra_options safe_mode :
  obeys (terminate_justified []) (download_video_direct w url extra_options safe_mode).
Proof.
  unfold download_video_direct, video_loop, video_attempt, credential_args, on_failure,
    handle_manual_intervention, open_browser_for_login.
  obey terminate_justified_app (eq_refl : terminate_justified [] [] = true).
Qed.

Lemma obeys_justified_audio w url extra_options safe_mode :
  obeys (terminate_justified []) (download_audio_direct w url extra_options safe_mode).
Proof.
  unfold download_audio_direct, audio_loop, audio_attempt, credential_args, on_failure,
    handle_manual_intervention, open_browser_for_login.
  obey terminate_justified_app (eq_refl : terminate_justified [] [] = true).
Qed.

Lemma obeys_justified_subtitles w url language safe_mode :
  obeys (terminate_justified []) (download_subtitles_direct w url language safe_mode).
Proof.
  unfold download_subtitles_direct, subtitles_loop, subtitles_attempt, credential_args,
    on_failure, handle_manual_intervention, open_browser_for_login.
  obey terminate_justified_app (eq_refl : terminate_justified [] [] = true).
Qed.

Lemma terminate_justified_split s t t1 pid t2 :
  terminate_justified s t = true ->
  t = t1 ++ Terminate pid :: t2 ->
  pid ∈ s \/ exists line, ReadLine pid line ∈ t1 /\ is_hard_block line = true.
Proof.
  intros Hok ->. revert s Hok. induction t1 as [|e t1 IH]; intros s Hok; simpl in Hok.
  - apply andb_true_iff in Hok as [Hin _]. left. by apply bool_decide_eq_true in Hin.
  - assert (Hrest : forall s', terminate_justified s' (t1 ++ Terminate pid :: t2) = true ->
                               pid ∈ s' \/ exists line, ReadLine pid line ∈ e :: t1
                                                        /\ is_hard_block line = true).
    { intros s' Hs'. destruct (IH s' Hs') as [Hin | (line & Hin & Hb)]; [by left |].
      right. exists line. split; [by right | done]. }
    destruct e; try (destruct (Hrest s Hok) as [? | ?]; first [by left | by right]).
    + destruct (is_hard_block line) eqn:Hb.
      * destruct (Hrest _ Hok) as [[-> | Hin]%elem_of_cons | Hex]; [| by left | by right].
        right. exists line. split; [left | done].
      * destruct (Hrest s Hok) as [? | ?]; first [by left | by right].
    + apply andb_true_iff in Hok as [_ Hok].
      destruct (Hrest s Hok) as [? | ?]; first [by left | by right].
Qed.

(** X8: in every run of the three download functions [proc.terminate()]
    is called on the child of an attempt only after a line that passes the
    hard-block test was read from that very child: rate-limit lines,
    failures and the end of the output never make the supervisor terminate
    the child of an attempt.  (The title probe of the subtitle path is no
    child of an attempt: [subprocess.run] ends it after 30 seconds.) *)
Theorem terminate_only_after_block
    (w : World) (url language : string) (extra_options : list string) (safe_mode : bool)
    (g : Globals) (t t1 t2 : list event) (pid : nat)
    (Hrun : t = trace_of (download_video_direct w url extra_options safe_mode g) \/
            t = trace_of (download_audio_direct w url extra_options safe_mode g) \/
            t = trace_of (download_subtitles_direct w url language safe_mode g))
    (Hkill : t = t1 ++ Terminate pid :: t2) :
  exists line, ReadLine pid line ∈ t1 /\ HardBlocked ∈ classify line.
Proof.
  assert (Hok : terminate_justified [] t = true).
  { destruct Hrun as [-> | [-> | ->]].
    - apply obeys_justified_video.
    - apply obeys_justified_audio.
    - apply obeys_justified_subtitles. }
  destruct (terminate_justified_split [] t t1 pid t2 Hok Hkill)
    as [Hin | (line & Hin & Hb)]; [by apply elem_of_nil in Hin |].
  exists line. split; [done |]. rewrite classify_cases, Hb.
  destruct (is_rate_limited line); elem_concrete.
Qed.

Lemma terminate_only_after_block_witness :
  let w := Demo.world (Demo.always Demo.bot_check) Demo.empty_dir Demo.zero_mtime
                      Demo.no_files in
  let t := trace_of (download_audio_direct w Demo.youtube_url [] false Demo.pool3) in
  t = take 8 t ++ Terminate 0 :: drop 9 t /\
  exists line, ReadLine 0 line ∈ take 8 t /\ HardBlocked ∈ classify line.
Proof.
  intros w t.
  assert (Hkill : t = take 8 t ++ Terminate 0 :: drop 9 t) by (vm_compute; reflexivity).
  split; [exact Hkill |].
  exact (terminate_only_after_block w Demo.youtube_url "es" [] false Demo.pool3
           t (take 8 t) (drop 9 t) 0 (or_intror (or_introl eq_refl)) Hkill).
Defined.

(** ** The command of an attempt *)

Lemma no_popen_app a b : no_popen a = true -> no_popen b = true -> no_popen (a ++ b) = true.
Proof. unfold no_popen. rewrite forallb_app. by intros -> ->. Qed.

Lemma no_popen_filter t : no_popen t = true -> filter is_Popen t = [].
Proof.
  unfold no_popen. induction t as [|e t IH]; simpl; [done |].
  intros [He Ht]%andb_true_iff. rewrite filter_cons, IH by done.
  by destruct (is_Popen e).
Qed.

Lemma stream_trace_no_popen pid lines : no_popen (stream_trace pid lines) = true.
Proof.
  unfold no_popen. apply forallb_forall. intros e He%list_elem_of_In.
  pose proof (stream_trace_no_child_events pid lines) as H.
  rewrite Forall_forall in H. destruct (H e He) as [-> _]. done.
Qed.

Lemma obeys_no_popen_get_next w : obeys no_popen (get_next_chromium_profile w).
Proof.
  unfold get_next_chromium_profile, index, get_globals, set_CURRENT_PROFILE_INDEX.
  obey no_popen_app (eq_refl : no_popen [] = true); by intros g.
Qed.

#[local] Hint Resolve obeys_no_popen_get_next : obeys.

Lemma obeys_no_popen_credential_args w platform attempt :
  obeys no_popen (credential_args w platform attempt).
Proof. unfold credential_args. obey no_popen_app (eq_refl : no_popen [] = true). Qed.

Lemma obeys_no_popen_on_failure {A} w platform url attempt st restricted_msg message status :
  obeys no_popen (on_failure (A := A) w platform url attempt st restricted_msg
                    (print_status message status)).
Proof.
  unfold on_failure, handle_manual_intervention, open_browser_for_login.
  obey no_popen_app (eq_refl : no_popen [] = true).
Qed.

#[local] Hint Resolve obeys_no_popen_on_failure : obeys.

Lemma run_child_eq w attempt command g :
  run_child w attempt command g =
    match yt_dlp w attempt with
    | None => (Raised (popen_error w attempt), g, trace_of (run_child w attempt command g))
    | Some proc => (Ok (child_state proc), g, trace_of (run_child w attempt command g))
    end.
Proof.
  unfold run_child, bind, emit, raise, ret, trace_of.
  destruct (yt_dlp w attempt) as [proc|]; [| reflexivity].
  rewrite stream_output_run. reflexivity.
Qed.

Lemma run_child_popens w attempt command g proc :
  yt_dlp w attempt = Some proc ->
  filter is_Popen (trace_of (run_child w attempt command g)) = [Popen attempt command].
Proof.
  intros Hproc. rewrite run_child_trace, Hproc.
  rewrite filter_cons. simpl. rewrite filter_cons. simpl.
  rewrite filter_app, (no_popen_filter _ (stream_trace_no_popen _ _)). done.
Qed.

(** The part of a loop body inside [try]: the child, then a continuation
    that starts no child, then a handler that starts none either. *)
Lemma try_child_popens {A} w attempt command g proc
    (k : attempt_state -> M (ctl A)) (handler : exn -> M (ctl A)) :
  yt_dlp w attempt = Some proc ->
  (forall st, obeys no_popen (k st)) -> (forall e, obeys no_popen (handler e)) ->
  filter is_Popen (trace_of (try_except (bind (run_child w attempt command) k) handler g))
  = [Popen attempt command].
Proof.
  intros Hproc Hk Hh. unfold try_except, bind. rewrite run_child_eq, Hproc.
  specialize (Hk (child_state proc) g). unfold trace_of in Hk.
  destruct (k (child_state proc) g) as [[[c|e] g2] t2]; simpl in Hk.
  - unfold trace_of at 1. simpl. rewrite filter_app, (run_child_popens _ _ _ _ _ Hproc).
    by rewrite (no_popen_filter _ Hk).
  - specialize (Hh e g2). unfold trace_of in Hh.
    destruct (handler e g2) as [[r g3] t3]. simpl in Hh. unfold trace_of at 1. simpl.
    rewrite !filter_app, (run_child_popens _ _ _ _ _ Hproc).
    by rewrite (no_popen_filter _ Hk), (no_popen_filter _ Hh).
Qed.

Lemma attempt_popens {A} w platform k g cred g1 t1 (inner : list string -> M (ctl A)) e :
  credential_args w platform k g = (Ok cred, g1, t1) ->
  filter is_Popen (trace_of (inner cred g1)) = [e] ->
  filter is_Popen (trace_of (bind (credential_args w platform k) inner g)) = [e].
Proof.
  intros Hcred Hinner.
  pose proof (obeys_no_popen_credential_args w platform k g) as Ht1.
  rewrite Hcred in Ht1. unfold trace_of in Ht1. simpl in Ht1.
  erewrite bind_Ok; [| exact Hcred]. unfold trace_of in *.
  destruct (inner cred g1) as [[r g2] t2]. simpl in *.
  by rewrite filter_app, (no_popen_filter _ Ht1), Hinner.
Qed.

(** X9: an attempt whose child starts starts exactly one child, and its
    command line is the base command, then the credential arguments chosen
    for this attempt, then the URL, in that order; for a URL of neither
    platform the credential arguments are empty at every attempt, so that
    the retry after the gate runs the very same command. *)
Theorem attempt_starts_one_child
    (w : World) (url language : string) (base_command : list string)
    (existing_files : gset string) (k : nat) (g : Globals) (proc : child)
    (Hok : pool_ok g) (Hproc : yt_dlp w k = Some proc) :
  exists cred g1 t1,
    credential_args w (detect_platform url) k g = (Ok cred, g1, t1) /\
    (detect_platform url = Desconocida -> cred = []) /\
    filter is_Popen (trace_of (video_attempt w url base_command existing_files k g))
      = [Popen k (base_command ++ cred ++ [url])] /\
    filter is_Popen (trace_of (audio_attempt w url base_command existing_files k g))
      = [Popen k (base_command ++ cred ++ [url])] /\
    filter is_Popen (trace_of (subtitles_attempt w url language base_command k g))
      = [Popen k (base_command ++ cred ++ [url])].
Proof.
  destruct (credential_args_run w (detect_platform url) k g Hok)
    as (cred & g1 & t1 & Hcred & _).
  exists cred, g1, t1. split; [exact Hcred |]. split.
  { intros Hd. rewrite Hd in Hcred. unfold credential_args in Hcred. simpl in Hcred.
    unfold ret in Hcred. congruence. }
  split; [| split].
  - unfold video_attempt. cbv zeta. apply (attempt_popens _ _ _ _ _ _ _ _ _ Hcred).
    apply (try_child_popens _ _ _ _ _ _ _ Hproc); intros ?;
      obey no_popen_app (eq_refl : no_popen [] = true).
  - unfold audio_attempt. cbv zeta. apply (attempt_popens _ _ _ _ _ _ _ _ _ Hcred).
    apply (try_child_popens _ _ _ _ _ _ _ Hproc); intros ?;
      obey no_popen_app (eq_refl : no_popen [] = true).
  - unfold subtitles_attempt. cbv zeta. apply (attempt_popens _ _ _ _ _ _ _ _ _ Hcred).
    apply (try_child_popens _ _ _ _ _ _ _ Hproc); intros ?;
      obey no_popen_app (eq_refl : no_popen [] = true).
Qed.

Lemma attempt_starts_one_child_witness :
  let w := Demo.world (Demo.always Demo.captcha) Demo.empty_dir Demo.zero_mtime
                      Demo.no_files in
  pool_ok Demo.pool3 /\
  filter is_Popen (trace_of (video_attempt w Demo.youtube_url ["yt-dlp"] ∅ 2 Demo.pool3))
  = [Popen 2 ["yt-dlp"; "--cookies-from-browser"; "chromium:/home/u/chromium_data_1/chromium";
              "--extractor-args"; "youtube:player_client=tv_downgraded,web";
              Demo.youtube_url]].
Proof.
  intros w. split; [exact pool3_ok |].
  destruct (attempt_starts_one_child w Demo.youtube_url "es" ["yt-dlp"] ∅ 2 Demo.pool3
              Demo.captcha pool3_ok eq_refl) as (cred & g1 & t1 & Hcred & _ & Hv & _).
  rewrite Hv. vm_compute in Hcred. by injection Hcred as <- _ _.
Defined.

(** ** Subtitles: which file a successful attempt returns *)

Lemma max_by_None key l : max_by key l = None <-> l = [].
Proof.
  destruct l as [|x l]; [done |]. simpl.
  destruct (max_by key l) as [y|]; [| done]. by case_bool_decide.
Qed.

Lemma max_by_spec key l x :
  max_by key l = Some x -> x ∈ l /\ forall y, y ∈ l -> key y <= key x.
Proof.
  revert x. induction l as [|a l IH]; intros x; [done |]. simpl.
  destruct (max_by key l) as [y|] eqn:Hm.
  - destruct (IH y eq_refl) as [Hy Hmax]. case_bool_decide as Hlt; intros [= <-].
    + split; [by right |]. intros z [-> | Hz]%elem_of_cons; [lia | by apply Hmax].
    + split; [by left |]. intros z [-> | Hz]%elem_of_cons; [lia |].
      specialize (Hmax z Hz). lia.
  - apply max_by_None in Hm as ->. intros [= <-].
    split; [by left |]. by intros z ->%list_elem_of_singleton.
Qed.

Lemma latest_subtitle_None w k pats :
  latest_subtitle w k pats = None <->
  forall pat, pat ∈ pats -> glob w (SUBTITLES_DIR w) pat (AfterAttempt k) = [].
Proof.
  induction pats as [|pat pats IH]; simpl.
  - split; [intros _ pat Hpat; by apply elem_of_nil in Hpat | done].
  - destruct (max_by _ _) as [f|] eqn:Hm.
    + split; [done |]. intros H. specialize (H pat ltac:(by left)).
      rewrite H in Hm. done.
    + apply max_by_None in Hm. rewrite IH. split.
      * intros H p [-> | Hp]%elem_of_cons; [done | by apply H].
      * intros H p Hp. apply H. by right.
Qed.

Lemma latest_subtitle_first w k pats i pat :
  pats !! i = Some pat ->
  (forall j p, (j < i)%nat -> pats !! j = Some p ->
               glob w (SUBTITLES_DIR w) p (AfterAttempt k) = []) ->
  glob w (SUBTITLES_DIR w) pat (AfterAttempt k) <> [] ->
  exists f,
    latest_subtitle w k pats = Some f /\
    max_by (st_mtime w) (glob w (SUBTITLES_DIR w) pat (AfterAttempt k)) = Some f.
Proof.
  revert i. induction pats as [|p0 pats IH]; intros i Hi Hbefore Hne; [done |].
  destruct i as [|i]; simpl in *.
  - injection Hi as ->.
    destruct (max_by _ _) as [f|] eqn:Hm; [by exists f |].
    by apply max_by_None in Hm.
  - rewrite (Hbefore 0%nat p0) by (done || lia). simpl.
    apply (IH i); [done | | done].
    intros j p Hj Hp. apply (Hbefore (S j)); [lia | done].
Qed.

Lemma latest_subtitle_Some w k pats f :
  latest_subtitle w k pats = Some f ->
  exists pat, pat ∈ pats /\
    f ∈ glob w (SUBTITLES_DIR w) pat (AfterAttempt k) /\
    forall f', f' ∈ glob w (SUBTITLES_DIR w) pat (AfterAttempt k) ->
               st_mtime w f' <= st_mtime w f.
Proof.
  induction pats as [|pat pats IH]; [done |]. simpl.
  destruct (max_by _ _) as [x|] eqn:Hm.
  - intros [= ->]. exists pat. split; [by left |]. by apply max_by_spec.
  - intros H. destruct (IH H) as (p & Hp & Hrest). exists p. split; [by right | done].
Qed.

(** X10: an attempt of the subtitle path whose child exits with status
    zero without a hard block returns the newest file of the first of the
    three patterns (title and language, title, language) that matches
    anything after the attempt: a match of an earlier pattern wins over
    newer files of a later one; no gate, no error report. *)
Theorem subtitle_resolution
    (w : World) (url language : string) (base_command : list string) (k : nat)
    (g : Globals) (proc : child) (i : nat) (pat : string)
    (Hok : pool_ok g)
    (Hproc : yt_dlp w k = Some proc)
    (Hzero : returncode proc false = 0)
    (Hclean : blocked (stdout proc) = false)
    (Hpat : subtitle_patterns w language !! i = Some pat)
    (Hfirst : forall j p, (j < i)%nat -> subtitle_patterns w language !! j = Some p ->
                          glob w (SUBTITLES_DIR w) p (AfterAttempt k) = [])
    (Hmatch : glob w (SUBTITLES_DIR w) pat (AfterAttempt k) <> []) :
  exists f g' t,
    subtitles_attempt w url language base_command k g = (Ok (Return (Some f)), g', t) /\
    gate_count t = 0%nat /\ error_reported t = false /\
    f ∈ glob w (SUBTITLES_DIR w) pat (AfterAttempt k) /\
    (forall f', f' ∈ glob w (SUBTITLES_DIR w) pat (AfterAttempt k) ->
                st_mtime w f' <= st_mtime w f).
Proof.
  destruct (latest_subtitle_first w k _ i pat Hpat Hfirst Hmatch) as (f & Hlatest & Hmax).
  destruct (subtitles_attempt_full w url language base_command k g Hok)
    as (g' & t & Hrun & _ & _ & Hgate & Herr).
  assert (Ho : subtitles_outcome w url language k = Success (Some f)).
  { unfold subtitles_outcome. rewrite Hproc. cbv zeta.
    by rewrite (proj2 (attempt_ok_spec proc)), Hlatest. }
  rewrite Ho in *. exists f, g', t. split; [exact Hrun |].
  split; [exact Hgate |]. split; [by eapply Herr |]. by apply max_by_spec.
Qed.

Lemma subtitle_resolution_witness :
  let w := Demo.world (Demo.always Demo.clean_exit) DemoSubs.listing DemoSubs.mtime
                      Demo.no_files in
  value_of (subtitles_attempt w Demo.youtube_url "es" [] 0 Demo.pool3)
  = Ok (Return (Some "/srv/ytdpl/subtitles/clip.en.srt")).
Proof.
  intros w.
  assert (Hfirst : forall j p, (j < 1)%nat -> subtitle_patterns w "es" !! j = Some p ->
                     glob w (SUBTITLES_DIR w) p (AfterAttempt 0) = []).
  { intros j p Hj Hp. destruct j as [|j]; [| lia]. by injection Hp as <-. }
  destruct (subtitle_resolution w Demo.youtube_url "es" [] 0 Demo.pool3 Demo.clean_exit
              1 "clip*.srt" pool3_ok eq_refl eq_refl eq_refl eq_refl Hfirst
              ltac:(by vm_compute))
    as (f & g' & t & Hrun & _ & _ & Hf & Hmax).
  rewrite Hrun. unfold value_of. cbn [fst].
  apply elem_of_cons in Hf as [-> | Hf].
  - specialize (Hmax "/srv/ytdpl/subtitles/clip.en.srt" ltac:(by right; left)).
    vm_compute in Hmax. by destruct Hmax.
  - by apply list_elem_of_singleton in Hf as ->.
Defined.

(** X11: on the subtitle path a zero exit status is not enough: when none
    of the three patterns matches a file after the attempt, the attempt is
    treated as a failed one, and never returns.  If the captured output
    has a block phrase (in any line, error or not) and the attempt is one
    of 1 to 9, the gate runs and the attempt is repeated; with no such
    phrase, the loop is left with a warning. *)
Theorem subtitles_zero_exit_without_file
    (w : World) (url language : string) (base_command : list string) (k : nat)
    (g : Globals) (proc : child)
    (Hok : pool_ok g)
    (Hproc : yt_dlp w k = Some proc)
    (Hzero : returncode proc false = 0)
    (Hclean : blocked (stdout proc) = false)
    (Hnone : forall p, p ∈ subtitle_patterns w language ->
                       glob w (SUBTITLES_DIR w) p (AfterAttempt k) = []) :
  let out := Str.lower (Str.join (stdout proc)) in
  exists c g' t,
    subtitles_attempt w url language base_command k g = (Ok c, g', t) /\
    (forall v, c <> Return v) /\
    (Str.any_in block_phrases out = true -> (0 < k < max_retries)%nat ->
     c = Continue /\ gate_count t = 1%nat) /\
    (Str.any_in block_phrases out = false -> (0 < k)%nat ->
     c = Break /\ gate_count t = 0%nat).
Proof.
  cbv zeta.
  destruct (subtitles_attempt_full w url language base_command k g Hok)
    as (g' & t & Hrun & _ & _ & Hgate & _).
  assert (Ho : subtitles_outcome w url language k
               = failure_outcome (detect_platform url) k (Str.join (stdout proc))).
  { unfold subtitles_outcome. rewrite Hproc. cbv zeta.
    rewrite (proj2 (attempt_ok_spec proc)) by done.
    rewrite (proj2 (latest_subtitle_None w k _) Hnone).
    unfold child_state. cbn [output]. by rewrite consumed_unblocked. }
  rewrite Ho in *. clear Ho.
  eexists _, g', t. split; [exact Hrun |].
  unfold failure_outcome in *. cbv zeta in *.
  split; [| split].
  - intros v. destruct (_ && _ && _); [done |]. by destruct (_ && _).
  - intros Hb [Hk0 Hk]. rewrite Hb in *.
    rewrite (bool_decide_eq_false_2 (k = 0%nat)) in * by lia.
    rewrite (bool_decide_eq_true_2 (k < max_retries)%nat) in * by done.
    simpl in *. done.
  - intros Hb Hk0. rewrite Hb in *.
    rewrite (bool_decide_eq_false_2 (k = 0%nat)) in * by lia.
    simpl in *. done.
Qed.

Lemma subtitles_zero_exit_without_file_witness :
  let w := Demo.world (Demo.always DemoSubs.captcha_warning) Demo.empty_dir
                      Demo.zero_mtime Demo.no_files in
  returncode DemoSubs.captcha_warning false = 0 /\
  blocked (stdout DemoSubs.captcha_warning) = false /\
  value_of (subtitles_attempt w Demo.youtube_url "es" [] 3 Demo.pool3) = Ok Continue /\
  gate_count (trace_of (subtitles_attempt w Demo.youtube_url "es" [] 3 Demo.pool3)) = 1%nat.
Proof.
  intros w. split; [reflexivity |]. split; [reflexivity |].
  destruct (subtitles_zero_exit_without_file w Demo.youtube_url "es" [] 3 Demo.pool3
              DemoSubs.captcha_warning pool3_ok eq_refl eq_refl eq_refl
              ltac:(done))
    as (c & g' & t & Hrun & _ & Hgate & _).
  rewrite Hrun. unfold value_of, trace_of. cbn [fst snd].
  destruct (Hgate ltac:(by vm_compute) ltac:(unfold max_retries; lia)) as [-> ->]. done.
Defined.

(** ** Bounds on what one goal can cost *)

Lemma children_started_app a b :
  children_started (a ++ b) = (children_started a + children_started b)%nat.
Proof. unfold children_started. by rewrite filter_app, length_app. Qed.

Lemma children_started_quiet t : no_popen t = true -> children_started t = 0%nat.
Proof. intros H. unfold children_started. by rewrite (no_popen_filter _ H). Qed.

Lemma started_bind_quiet {A B} (m : M A) (f : A -> M B) n :
  obeys no_popen m ->
  (forall a g, (children_started (trace_of (f a g)) <= n)%nat) ->
  forall g, (children_started (trace_of (bind m f g)) <= n)%nat.
Proof.
  intros Hm Hf g. specialize (Hm g). unfold bind, trace_of in *.
  destruct (m g) as [[[a|e] g1] t1]; simpl in *.
  - specialize (Hf a g1). destruct (f a g1) as [[r g2] t2]. simpl in *.
    rewrite children_started_app, (children_started_quiet _ Hm). lia.
  - rewrite (children_started_quiet _ Hm). lia.
Qed.

Lemma started_try_child {A} w attempt command
    (k : attempt_state -> M (ctl A)) (handler : exn -> M (ctl A)) g :
  (forall st, obeys no_popen (k st)) -> (forall e, obeys no_popen (handler e)) ->
  (children_started
     (trace_of (try_except (bind (run_child w attempt command) k) handler g)) <= 1)%nat.
Proof.
  intros Hk Hh. destruct (yt_dlp w attempt) as [proc|] eqn:Hproc.
  - unfold children_started. by rewrite (try_child_popens _ _ _ _ _ _ _ Hproc Hk Hh).
  - unfold try_except, bind. rewrite run_child_eq, Hproc.
    specialize (Hh (popen_error w attempt) g). unfold trace_of in Hh |- *.
    destruct (handler (popen_error w attempt) g) as [[r g2] t2]. simpl in *.
    rewrite children_started_app, (children_started_quiet _ Hh).
    unfold run_child, bind, emit, raise. rewrite Hproc. simpl. lia.
Qed.

Lemma started_for_range {A} (body : nat -> M (ctl A)) :
  (forall k g, (children_started (trace_of (body k g)) <= 1)%nat) ->
  forall n a g, (children_started (trace_of (for_range body n a g)) <= n)%nat.
Proof.
  intros Hbody. induction n as [|n IH]; intros a g; [done |].
  cbn [for_range]. unfold bind. specialize (Hbody a g). unfold trace_of in *.
  destruct (body a g) as [[[c|e] g1] t1]; simpl in *; [| lia].
  destruct c as [| |v]; simpl; rewrite ?children_started_app; simpl.
  - specialize (IH (S a) g1). destruct (for_range body n (S a) g1) as [[r g2] t2].
    simpl in *. rewrite children_started_app. lia.
  - unfold children_started at 2. simpl. lia.
  - unfold children_started at 2. simpl. lia.
Qed.

Lemma started_video_attempt w url base_command existing_files k g :
  (children_started (trace_of (video_attempt w url base_command existing_files k g)) <= 1)%nat.
Proof.
  unfold video_attempt. cbv zeta.
  apply started_bind_quiet; [apply obeys_no_popen_credential_args |].
  intros cred g1. apply started_try_child; intros ?;
    obey no_popen_app (eq_refl : no_popen [] = true).
Qed.

Lemma started_audio_attempt w url base_command existing_files k g :
  (children_started (trace_of (audio_attempt w url base_command existing_files k g)) <= 1)%nat.
Proof.
  unfold audio_attempt. cbv zeta.
  apply started_bind_quiet; [apply obeys_no_popen_credential_args |].
  intros cred g1. apply started_try_child; intros ?;
    obey no_popen_app (eq_refl : no_popen [] = true).
Qed.

Lemma started_subtitles_attempt w url language base_command k g :
  (children_started (trace_of (subtitles_attempt w url language base_command k g)) <= 1)%nat.
Proof.
  unfold subtitles_attempt. cbv zeta.
  apply started_bind_quiet; [apply obeys_no_popen_credential_args |].
  intros cred g1. apply started_try_child; intros ?;
    obey no_popen_app (eq_refl : no_popen [] = true).
Qed.

(** The gate cannot follow the last attempt of a loop. *)
Lemma loop_gates_bound {A} (O : nat -> AttemptOutcome A) n a :
  O (a + n)%nat <> RetryAfterIntervention ->
  (loop_gates O (S n) a <= n)%nat.
Proof.
  revert a. induction n as [|n IH]; intros a Hlast.
  - simpl. rewrite Nat.add_0_r in Hlast. by destruct (O a).
  - specialize (IH (S a)). replace (S a + n)%nat with (a + S n)%nat in IH by lia.
    specialize (IH Hlast). cbn [loop_gates] in *.
    destruct (O a); lia.
Qed.

Lemma subtitles_outcome_last w url language :
  subtitles_outcome w url language max_retries <> RetryWithCredentials /\
  subtitles_outcome w url language max_retries <> RetryAfterIntervention.
Proof.
  unfold subtitles_outcome. destruct (yt_dlp w max_retries); [| done]. cbv zeta.
  destruct (if attempt_ok _ then _ else _); [done |]. by rewrite failure_outcome_last.
Qed.

Lemma video_loop_pool w url extra_options safe_mode g :
  pool_ok g ->
  exists g' t,
    video_loop w url extra_options safe_mode g =
      (Ok (loop_summary (video_outcome w url (video_baseline w)) (max_retries + 1) 0), g', t) /\
    CHROMIUM_PROFILES g' = CHROMIUM_PROFILES g /\ pool_ok g' /\
    (gate_count t <= max_retries)%nat.
Proof.
  intros Hok. unfold video_loop. cbv zeta.
  destruct (for_range_run
              (video_attempt w url (video_base_command w extra_options safe_mode)
                             (video_baseline w))
              (video_outcome w url (video_baseline w))
              (fun k g0 => video_attempt_run w url _ _ k g0)
              (max_retries + 1) 0 g Hok)
    as (g' & t & Hloop & Hpool & Hok' & Hgate).
  unfold bind at 1. unfold print_status at 1, emit. fold (video_baseline w). rewrite Hloop.
  eexists _, _. split; [reflexivity |]. split; [done |]. split; [done |].
  rewrite gate_count_app, Hgate. simpl.
  apply (loop_gates_bound _ max_retries 0). apply video_outcome_last.
Qed.

Lemma audio_loop_pool w url extra_options safe_mode g :
  pool_ok g ->
  exists g' t,
    audio_loop w url extra_options safe_mode g =
      (Ok (loop_summary (audio_outcome w url (audio_baseline w)) (max_retries + 1) 0), g', t) /\
    CHROMIUM_PROFILES g' = CHROMIUM_PROFILES g /\ pool_ok g' /\
    (gate_count t <= max_retries)%nat.
Proof.
  intros Hok. unfold audio_loop. cbv zeta.
  destruct (for_range_run
              (audio_attempt w url (audio_base_command w extra_options safe_mode)
                             (audio_baseline w))
              (audio_outcome w url (audio_baseline w))
              (fun k g0 => audio_attempt_run w url _ _ k g0)
              (max_retries + 1) 0 g Hok)
    as (g' & t & Hloop & Hpool & Hok' & Hgate).
  unfold bind at 1. unfold print_status at 1, emit. fold (audio_baseline w). rewrite Hloop.
  eexists _, _. split; [reflexivity |]. split; [done |]. split; [done |].
  rewrite gate_count_app, Hgate. simpl.
  apply (loop_gates_bound _ max_retries 0). apply audio_outcome_last.
Qed.

Lemma subtitles_loop_pool w url language safe_mode g :
  pool_ok g ->
  exists g' t,
    subtitles_loop w url language safe_mode g =
      (Ok (loop_summary (subtitles_outcome w url language) (max_retries + 1) 0), g', t) /\
    CHROMIUM_PROFILES g' = CHROMIUM_PROFILES g /\ pool_ok g' /\
    (gate_count t <= max_retries)%nat.
Proof.
  intros Hok. unfold subtitles_loop. cbv zeta.
  destruct (for_range_run
              (subtitles_attempt w url language (subtitles_base_command w language safe_mode))
              (subtitles_outcome w url language)
              (fun k g0 => subtitles_attempt_run w url language _ k g0)
              (max_retries + 1) 0 g Hok)
    as (g' & t & Hloop & Hpool & Hok' & Hgate).
  exists g', t. split; [done |]. split; [done |]. split; [done |].
  rewrite Hgate. apply (loop_gates_bound _ max_retries 0). apply subtitles_outcome_last.
Qed.

Lemma started_video_download w url extra_options safe_mode g :
  (children_started (trace_of (download_video_direct w url extra_options safe_mode g))
   <= max_retries + 1)%nat.
Proof.
  unfold download_video_direct, video_loop. cbv zeta.
  pose proof (started_for_range _
    (started_video_attempt w url (video_base_command w extra_options safe_mode)
       (list_to_set (glob w (DOWNLOAD_DIR w) "*" AtStart)))
    (max_retries + 1)%nat 0%nat g) as H.
  unfold bind, print_status, emit, ret, trace_of in *.
  destruct (for_range _ _ _ g) as [[[e|e] g1] t1]; simpl in *;
    rewrite ?app_nil_r; exact H.
Qed.

Lemma started_audio_download w url extra_options safe_mode g :
  (children_started (trace_of (download_audio_direct w url extra_options safe_mode g))
   <= max_retries + 1)%nat.
Proof.
  unfold download_audio_direct, audio_loop. cbv zeta.
  pose proof (started_for_range _
    (started_audio_attempt w url (audio_base_command w extra_options safe_mode)
       (list_to_set (glob w (AUDIO_DIR w) "*" AtStart)))
    (max_retries + 1)%nat 0%nat g) as H.
  unfold bind, print_status, emit, ret, trace_of in *.
  destruct (for_range _ _ _ g) as [[[e|e] g1] t1]; simpl in *;
    rewrite ?app_nil_r; exact H.
Qed.

Lemma started_subtitles_download w url language safe_mode g :
  (children_started (trace_of (download_subtitles_direct w url language safe_mode g))
   <= max_retries + 1)%nat.
Proof.
  unfold download_subtitles_direct, subtitles_loop. cbv zeta.
  pose proof (started_for_range _
    (started_subtitles_attempt w url language (subtitles_base_command w language safe_mode))
    (max_retries + 1)%nat 0%nat g) as H.
  unfold bind, print_status, emit, ret, trace_of in *.
  destruct (if bool_decide _ then _ else _) as [|first rest].
  - destruct (for_range _ _ _ g) as [[[e|e] g1] t1]; simpl in *;
      rewrite ?app_nil_r; exact H.
  - unfold children_started. simpl. lia.
Qed.

(** *** Title probes *)

Lemma no_run_app a b : no_run a = true -> no_run b = true -> no_run (a ++ b) = true.
Proof. unfold no_run. rewrite forallb_app. by intros -> ->. Qed.

Lemma probes_run_quiet t : no_run t = true -> probes_run t = 0%nat.
Proof.
  unfold no_run, probes_run. induction t as [|e t IH]; simpl; [done |].
  intros [He Ht]%andb_true_iff. rewrite filter_cons.
  destruct (is_Run e); [done |]. by apply IH.
Qed.

Lemma stream_trace_no_run pid lines : no_run (stream_trace pid lines) = true.
Proof.
  induction lines as [|line rest IH]; simpl; [done |].
  apply no_run_app.
  - unfold line_trace, on_line, handle_rate_limit_pause, bind, emit, ret, trace_of.
    by destruct (is_rate_limited line), (is_hard_block line).
  - by destruct (is_hard_block line).
Qed.

Lemma obeys_no_run_run_child w attempt command : obeys no_run (run_child w attempt command).
Proof.
  intros g. rewrite run_child_trace. destruct (yt_dlp w attempt) as [proc|]; [| done].
  pose proof (stream_trace_no_run attempt (stdout proc)) as Hs.
  unfold no_run in *. simpl. by rewrite forallb_app, Hs.
Qed.

#[local] Hint Resolve obeys_no_run_run_child : obeys.

Lemma obeys_no_run_get_next w : obeys no_run (get_next_chromium_profile w).
Proof.
  unfold get_next_chromium_profile, index, get_globals, set_CURRENT_PROFILE_INDEX.
  obey no_run_app (eq_refl : no_run [] = true); by intros g.
Qed.

#[local] Hint Resolve obeys_no_run_get_next : obeys.

Lemma obeys_no_run_gate w url reason :
  obeys no_run (handle_manual_intervention w url reason).
Proof.
  unfold handle_manual_intervention, open_browser_for_login.
  obey no_run_app (eq_refl : no_run [] = true).
Qed.

#[local] Hint Resolve obeys_no_run_gate : obeys.

Lemma obeys_no_run_video w url extra_options safe_mode :
  obeys no_run (download_video_direct w url extra_options safe_mode).
Proof.
  unfold download_video_direct, video_loop, video_attempt, credential_args, on_failure.
  obey no_run_app (eq_refl : no_run [] = true).
Qed.

Lemma obeys_no_run_audio w url extra_options safe_mode :
  obeys no_run (download_audio_direct w url extra_options safe_mode).
Proof.
  unfold download_audio_direct, audio_loop, audio_attempt, credential_args, on_failure.
  obey no_run_app (eq_refl : no_run [] = true).
Qed.

Lemma obeys_no_run_subtitles_loop w url language safe_mode :
  obeys no_run (subtitles_loop w url language safe_mode).
Proof.
  unfold subtitles_loop, subtitles_attempt, credential_args, on_failure.
  obey no_run_app (eq_refl : no_run [] = true).
Qed.

(** The subtitle function begins with its status line and the title probe,
    and runs no other probe. *)
Lemma download_subtitles_direct_head w url language safe_mode g :
  exists t,
    trace_of (download_subtitles_direct w url language safe_mode g) =
      [PrintStatus ("Descargando subtítulos de " +:+ platform_str (detect_platform url)
                    +:+ " (" +:+ language +:+ ")...") "processing";
       Run (command_info w url)] ++ t /\
    no_run t = true.
Proof.
  pose proof (obeys_no_run_subtitles_loop w url language safe_mode g) as Hloop.
  unfold download_subtitles_direct. cbv zeta.
  unfold bind at 1. unfold print_status at 1, emit at 1.
  unfold bind at 1. unfold emit at 1.
  destruct (if bool_decide _ then _ else _) as [|first rest].
  - unfold bind, ret, trace_of in *.
    destruct (subtitles_loop w url language safe_mode g) as [[[e|e] g1] t1]; simpl in *.
    + exists (t1 ++ []). split; [done |]. by rewrite app_nil_r.
    + by exists t1.
  - by exists [].
Qed.

(** X12: with the cursor inside the pool (or the pool empty), each of the
    three download functions leaves the list of identities as it was and
    the cursor inside it, asks the operator at most ten times and starts at
    most eleven children for its attempts, whatever the children, the
    browser and the copy of its profile do; the subtitle function runs one
    title probe besides, the other two none, so that a call never starts
    more than twelve yt-dlp processes. *)
Theorem download_bounds
    (w : World) (url language : string) (extra_options : list string) (safe_mode : bool)
    (g : Globals) (Hok : pool_ok g) :
  let bounded {A} (r : result A * Globals * list event) (probes : nat) :=
    CHROMIUM_PROFILES (globals_of r) = CHROMIUM_PROFILES g /\ pool_ok (globals_of r) /\
    (gate_count (trace_of r) <= 10)%nat /\ (children_started (trace_of r) <= 11)%nat /\
    probes_run (trace_of r) = probes in
  bounded (download_video_direct w url extra_options safe_mode g) 0%nat /\
  bounded (download_audio_direct w url extra_options safe_mode g) 0%nat /\
  bounded (download_subtitles_direct w url language safe_mode g) 1%nat.
Proof.
  cbv zeta. split; [| split].
  - destruct (video_loop_pool w url extra_options safe_mode g Hok)
      as (g' & t & Hloop & Hpool & Hok' & Hgate).
    pose proof (started_video_download w url extra_options safe_mode g) as Hn.
    pose proof (probes_run_quiet _ (obeys_no_run_video w url extra_options safe_mode g))
      as Hp.
    rewrite (download_video_direct_value _ _ _ _ _ _ _ _ Hloop) in Hn, Hp |- *.
    unfold trace_of, globals_of in *. simpl in *. rewrite app_nil_r in *. done.
  - destruct (audio_loop_pool w url extra_options safe_mode g Hok)
      as (g' & t & Hloop & Hpool & Hok' & Hgate).
    pose proof (started_audio_download w url extra_options safe_mode g) as Hn.
    pose proof (probes_run_quiet _ (obeys_no_run_audio w url extra_options safe_mode g))
      as Hp.
    rewrite (download_audio_direct_value _ _ _ _ _ _ _ _ Hloop) in Hn, Hp |- *.
    unfold trace_of, globals_of in *. simpl in *. rewrite app_nil_r in *. done.
  - pose proof (started_subtitles_download w url language safe_mode g) as Hn.
    destruct (download_subtitles_direct_head w url language safe_mode g)
      as (t0 & Ht0 & Hquiet).
    assert (Hprobes :
      probes_run (trace_of (download_subtitles_direct w url language safe_mode g)) = 1%nat).
    { rewrite Ht0. unfold probes_run. rewrite filter_app, length_app.
      fold (probes_run t0). by rewrite (probes_run_quiet _ Hquiet). }
    split; [| split; [| split; [| split; [exact Hn | exact Hprobes]]]];
      clear Hn Ht0 Hquiet Hprobes;
      unfold download_subtitles_direct; cbv zeta;
      unfold bind at 1; unfold print_status at 1, emit at 1;
      unfold bind at 1; unfold emit at 1;
      (destruct (if bool_decide _ then _ else _) as [|first rest];
       [destruct (subtitles_loop_pool w url language safe_mode g Hok)
          as (g' & t & Hloop & Hpool & Hok' & Hgate);
        erewrite bind_Ok; [| exact Hloop];
        unfold ret, trace_of, globals_of; simpl; rewrite ?app_nil_r
       | unfold ret, trace_of, globals_of; simpl]); try done.
    rewrite !gate_count_cons. cbn. lia.
Qed.

Lemma download_bounds_witness :
  let w := Demo.world (Demo.always Demo.captcha) Demo.empty_dir Demo.zero_mtime
                      Demo.no_files in
  let r := download_subtitles_direct w Demo.tiktok_url "es" false Demo.pool3 in
  pool_ok Demo.pool3 /\
  gate_count (trace_of r) = 10%nat /\ children_started (trace_of r) = 11%nat /\
  probes_run (trace_of r) = 1%nat /\ (gate_count (trace_of r) <= 10)%nat.
Proof.
  intros w r.
  destruct (download_bounds w Demo.tiktok_url "es" [] false Demo.pool3 pool3_ok)
    as (_ & _ & (_ & _ & Hgate & _ & Hprobes)).
  split; [exact pool3_ok |].
  split; [vm_compute; reflexivity |]. split; [vm_compute; reflexivity |].
  split; [exact Hprobes | exact Hgate].
Defined.

(** ** A child that cannot be started *)

Lemma video_outcome_unlaunched w url existing_files k :
  yt_dlp w k = None -> video_outcome w url existing_files k = FatalFailure.
Proof. intros H. unfold video_outcome. by rewrite H. Qed.

Lemma audio_outcome_unlaunched w url existing_files k :
  yt_dlp w k = None -> audio_outcome w url existing_files k = FatalFailure.
Proof. intros H. unfold audio_outcome. by rewrite H. Qed.

Lemma subtitles_outcome_unlaunched w url language k :
  yt_dlp w k = None -> subtitles_outcome w url language k = FatalFailure.
Proof. intros H. unfold subtitles_outcome. by rewrite H. Qed.

Lemma run_child_unlaunched w k command g :
  yt_dlp w k = None ->
  run_child w k command g =
    (Raised (popen_error w k), g,
     [Print (nl +:+ Colors.MAGENTA +:+ "--- Registro de yt-dlp ---" +:+ Colors.RESET)]).
Proof. intros H. unfold run_child, bind, emit, raise. by rewrite H. Qed.

(** X13: when the child of an attempt cannot be started, the exception is
    caught inside the loop body, reported once as an error with its
    message, and the loop is left at once: a failed launch is never
    retried and never opens the gate, and the identity drawn for the
    attempt is spent all the same.  When this happens at the first attempt
    the goal yields nothing. *)
Theorem launch_failure_is_fatal
    (w : World) (url language : string) (base_command extra_options : list string)
    (safe_mode : bool) (existing_files : gset string) (k : nat) (g : Globals)
    (Hok : pool_ok g) (Hnone : yt_dlp w k = None) :
  let header :=
    Print (nl +:+ Colors.MAGENTA +:+ "--- Registro de yt-dlp ---" +:+ Colors.RESET) in
  let reason := exn_str (popen_error w k) in
  (exists cred g1 t1,
      credential_args w (detect_platform url) k g = (Ok cred, g1, t1) /\
      video_attempt w url base_command existing_files k g
      = (Ok Break, g1,
         t1 ++ [header; PrintStatus ("Error descargando video: " +:+ reason) "error"]) /\
      audio_attempt w url base_command existing_files k g
      = (Ok Break, g1,
         t1 ++ [header; PrintStatus ("Error descargando audio: " +:+ reason) "error"]) /\
      subtitles_attempt w url language base_command k g
      = (Ok Break, g1,
         t1 ++ [header; PrintStatus ("Error descargando subtítulos: " +:+ reason) "error"]) /\
      gate_count t1 = 0%nat /\ children_started t1 = 0%nat)
  /\ (k = 0%nat ->
      value_of (download_video_direct w url extra_options safe_mode g) = Ok [] /\
      value_of (download_audio_direct w url extra_options safe_mode g) = Ok [] /\
      value_of (subtitles_loop w url language safe_mode g) = Ok (Broke 0)).
Proof.
  cbv zeta. split.
  - destruct (credential_args_run w (detect_platform url) k g Hok)
      as (cred & g1 & t1 & Hcred & _ & _ & Hg1 & _).
    exists cred, g1, t1. split; [exact Hcred |].
    pose proof (obeys_no_popen_credential_args w (detect_platform url) k g) as Hq.
    rewrite Hcred in Hq. unfold trace_of in Hq. simpl in Hq.
    repeat split; try done; try (by apply children_started_quiet).
    + unfold video_attempt. cbv zeta. erewrite bind_Ok; [| exact Hcred].
      unfold try_except, bind at 1. by rewrite run_child_unlaunched.
    + unfold audio_attempt. cbv zeta. erewrite bind_Ok; [| exact Hcred].
      unfold try_except, bind at 1. by rewrite run_child_unlaunched.
    + unfold subtitles_attempt. cbv zeta. erewrite bind_Ok; [| exact Hcred].
      unfold try_except, bind at 1. by rewrite run_child_unlaunched.
  - intros ->. split; [| split].
    + destruct (video_loop_run w url extra_options safe_mode g Hok) as (g' & t & H & _).
      rewrite (download_video_direct_value _ _ _ _ _ _ _ _ H).
      simpl. by rewrite video_outcome_unlaunched.
    + destruct (audio_loop_run w url extra_options safe_mode g Hok) as (g' & t & H & _).
      rewrite (download_audio_direct_value _ _ _ _ _ _ _ _ H).
      simpl. by rewrite audio_outcome_unlaunched.
    + destruct (subtitles_loop_run w url language safe_mode g Hok) as (g' & t & H & _).
      rewrite H. simpl. by rewrite subtitles_outcome_unlaunched.
Qed.

Lemma launch_failure_is_fatal_witness :
  let w := Demo.world (fun _ => None) Demo.empty_dir Demo.zero_mtime Demo.no_files in
  value_of (download_video_direct w Demo.tiktok_url [] false Demo.pool3) = Ok [] /\
  children_started (trace_of (download_video_direct w Demo.tiktok_url [] false Demo.pool3))
  = 0%nat.
Proof.
  intros w.
  destruct (launch_failure_is_fatal w Demo.tiktok_url "es" [] [] false ∅ 0 Demo.pool3
              pool3_ok eq_refl) as [_ Hgoal].
  destruct (Hgoal eq_refl) as (Hv & _ & _). split; [exact Hv |].
  vm_compute. reflexivity.
Defined.

(** ** When an attempt is repeated *)

Lemma failure_outcome_Continue {A} platform k out :
  outcome_ctl (failure_outcome (A := A) platform k out) = Continue ->
  (k = 0%nat /\ platform = YouTube /\
   Str.any_in privacy_phrases (Str.lower out) = true /\
   outcome_gates (failure_outcome (A := A) platform k out) = 0%nat)
  \/ (Str.any_in block_phrases (Str.lower out) = true /\ (k < max_retries)%nat /\
      outcome_gates (failure_outcome (A := A) platform k out) = 1%nat).
Proof.
  unfold failure_outcome. cbv zeta.
  destruct (bool_decide (k = 0%nat) && bool_decide (platform = YouTube)
            && Str.any_in privacy_phrases (Str.lower out)) eqn:Hs.
  - intros _. left. apply andb_true_iff in Hs as [Hs Hp].
    apply andb_true_iff in Hs as [Hk Hy].
    apply bool_decide_eq_true in Hk, Hy. done.
  - destruct (Str.any_in block_phrases (Str.lower out)
              && bool_decide (k < max_retries)%nat) eqn:Hb; [| done].
    intros _. right. apply andb_true_iff in Hb as [Hb Hk].
    apply bool_decide_eq_true in Hk. done.
Qed.

Lemma video_outcome_Continue w url existing_files k t :
  outcome_ctl (video_outcome w url existing_files k) = Continue ->
  gate_count t = outcome_gates (video_outcome w url existing_files k) ->
  retry_reason w url k t.
Proof.
  unfold video_outcome, retry_reason. destruct (yt_dlp w k) as [proc|]; [| done].
  cbv zeta. destruct (attempt_ok (child_state proc)); [done |].
  intros Hc Hg. exists proc. split; [done |]. rewrite Hg.
  by apply failure_outcome_Continue.
Qed.

Lemma audio_outcome_Continue w url existing_files k t :
  outcome_ctl (audio_outcome w url existing_files k) = Continue ->
  gate_count t = outcome_gates (audio_outcome w url existing_files k) ->
  retry_reason w url k t.
Proof.
  unfold audio_outcome, retry_reason. destruct (yt_dlp w k) as [proc|]; [| done].
  cbv zeta. destruct (attempt_ok (child_state proc)); [done |].
  intros Hc Hg. exists proc. split; [done |]. rewrite Hg.
  by apply failure_outcome_Continue.
Qed.

Lemma subtitles_outcome_Continue w url language k t :
  outcome_ctl (subtitles_outcome w url language k) = Continue ->
  gate_count t = outcome_gates (subtitles_outcome w url language k) ->
  retry_reason w url k t.
Proof.
  unfold subtitles_outcome, retry_reason. destruct (yt_dlp w k) as [proc|]; [| done].
  cbv zeta. destruct (if attempt_ok (child_state proc) then _ else _); [done |].
  intros Hc Hg. exists proc. split; [done |]. rewrite Hg.
  by apply failure_outcome_Continue.
Qed.

(** X14: an attempt is repeated only for the two conditions the code
    recognises: a privacy or login phrase in the captured output of
    attempt 0 of a YouTube goal (no gate), or a block phrase in the
    captured output of one of the attempts 0 to 9 (one gate).  A child that
    did not start, or a failure whose output has none of these phrases,
    such as a network error, ends the goal at the first occurrence. *)
Theorem retry_only_on_recognised_failure
    (w : World) (url language : string) (base_command : list string)
    (existing_files : gset string) (k : nat) (g : Globals) (Hok : pool_ok g) :
  (forall g' t,
      video_attempt w url base_command existing_files k g = (Ok Continue, g', t) ->
      retry_reason w url k t)
  /\ (forall g' t,
      audio_attempt w url base_command existing_files k g = (Ok Continue, g', t) ->
      retry_reason w url k t)
  /\ (forall g' t,
      subtitles_attempt w url language base_command k g = (Ok Continue, g', t) ->
      retry_reason w url k t).
Proof.
  split; [| split]; intros g' t Hrun.
  - destruct (video_attempt_run w url base_command existing_files k g Hok)
      as (g1 & t1 & Hbody & _ & _ & Hgate).
    rewrite Hbody in Hrun. injection Hrun as Hc <- <-.
    by apply (video_outcome_Continue w url existing_files).
  - destruct (audio_attempt_run w url base_command existing_files k g Hok)
      as (g1 & t1 & Hbody & _ & _ & Hgate).
    rewrite Hbody in Hrun. injection Hrun as Hc <- <-.
    by apply (audio_outcome_Continue w url existing_files).
  - destruct (subtitles_attempt_run w url language base_command k g Hok)
      as (g1 & t1 & Hbody & _ & _ & Hgate).
    rewrite Hbody in Hrun. injection Hrun as Hc <- <-.
    by apply (subtitles_outcome_Continue w url language).
Qed.

Lemma retry_only_on_recognised_failure_witness :
  let w := Demo.world (Demo.always Demo.captcha) Demo.empty_dir Demo.zero_mtime
                      Demo.no_files in
  retry_reason w Demo.youtube_url 3
    (trace_of (video_attempt w Demo.youtube_url [] ∅ 3 Demo.pool3)).
Proof.
  intros w.
  destruct (retry_only_on_recognised_failure w Demo.youtube_url "es" [] ∅ 3 Demo.pool3
              pool3_ok) as [Hv _].
  destruct (video_attempt w Demo.youtube_url [] ∅ 3 Demo.pool3) as [[r g'] t] eqn:E.
  assert (Hr : value_of (video_attempt w Demo.youtube_url [] ∅ 3 Demo.pool3) = Ok Continue)
    by (vm_compute; reflexivity).
  rewrite E in Hr. unfold value_of in Hr. cbn [fst] in Hr. subst r.
  exact (Hv g' t eq_refl).
Defined.

(** ** Where a returned subtitle comes from *)

Lemma subtitles_outcome_file w url language k v :
  subtitles_outcome w url language k = Success v ->
  exists f, v = Some f /\ latest_subtitle w k (subtitle_patterns w language) = Some f.
Proof.
  unfold subtitles_outcome. destruct (yt_dlp w k) as [proc|]; [| done]. cbv zeta.
  destruct (attempt_ok (child_state proc)).
  - destruct (latest_subtitle w k _) as [f|].
    + intros [= <-]. by exists f.
    + intros H. by apply failure_outcome_not_Success in H.
  - intros H. by apply failure_outcome_not_Success in H.
Qed.

(** X15: a path returned by [download_subtitles_direct] is always one a
    listing of the subtitle directory produced: either the first file that
    matched the title (with the language tag if any such file exists) before
    any attempt, in which case the status line and the title probe are all
    that has happened and the globals are untouched, or, when there was
    none, the newest match of one of the three patterns after an attempt
    whose child exited with status zero without a hard block. *)
Theorem download_subtitles_direct_sound
    (w : World) (url language : string) (safe_mode : bool) (g g' : Globals)
    (f : string) (t : list event)
    (Hok : pool_ok g)
    (Hrun : download_subtitles_direct w url language safe_mode g = (Ok (Some f), g', t)) :
  let by_language :=
    glob w (SUBTITLES_DIR w) (video_title w +:+ "*." +:+ language +:+ ".srt") AtStart in
  let by_title := glob w (SUBTITLES_DIR w) (video_title w +:+ "*.srt") AtStart in
  let head_of_run :=
    [PrintStatus ("Descargando subtítulos de " +:+ platform_str (detect_platform url)
                  +:+ " (" +:+ language +:+ ")...") "processing";
     Run (command_info w url)] in
  (head by_language = Some f /\ g' = g /\ t = head_of_run)
  \/ (by_language = [] /\ head by_title = Some f /\ g' = g /\ t = head_of_run)
  \/ (by_language = [] /\ by_title = [] /\
      exists k proc pat,
        (k <= max_retries)%nat /\ yt_dlp w k = Some proc /\
        returncode proc false = 0 /\ blocked (stdout proc) = false /\
        pat ∈ subtitle_patterns w language /\
        f ∈ glob w (SUBTITLES_DIR w) pat (AfterAttempt k) /\
        forall f', f' ∈ glob w (SUBTITLES_DIR w) pat (AfterAttempt k) ->
                   st_mtime w f' <= st_mtime w f).
Proof.
  cbv zeta. unfold download_subtitles_direct in Hrun. cbv zeta in Hrun.
  unfold bind at 1 in Hrun. unfold print_status at 1, emit at 1 in Hrun.
  unfold bind at 1 in Hrun. unfold emit at 1 in Hrun.
  destruct (glob w (SUBTITLES_DIR w) (video_title w +:+ "*." +:+ language +:+ ".srt")
              AtStart) as [|a la] eqn:Hlang.
  - rewrite bool_decide_eq_false_2 in Hrun by (by intros H; apply H).
    destruct (glob w (SUBTITLES_DIR w) (video_title w +:+ "*.srt") AtStart)
      as [|b lb] eqn:Htitle.
    + right. right. split; [done |]. split; [done |].
      destruct (subtitles_loop_run w url language safe_mode g Hok)
        as (g1 & t1 & Hloop & _ & _).
      pose proof (loop_summary_cases (subtitles_outcome w url language)
                    (max_retries + 1) 0) as Hcases.
      remember (loop_summary (subtitles_outcome w url language) (max_retries + 1) 0)
        as e eqn:He in *.
      erewrite bind_Ok in Hrun; [| exact Hloop]. unfold ret in Hrun.
      assert (Hv : match e with Returned _ v => v | _ => None end = Some f)
        by congruence.
      destruct e as [|k|k v]; [done | done |]. subst v.
      destruct Hcases as [Hk Ho].
      destruct (subtitles_outcome_Success _ _ _ _ _ Ho) as (proc & Hproc & Hz & Hc).
      destruct (subtitles_outcome_file _ _ _ _ _ Ho) as (f0 & [= <-] & Hlatest).
      destruct (latest_subtitle_Some _ _ _ _ Hlatest) as (pat & Hpat & Hf & Hmax).
      exists k, proc, pat. repeat split; try done. unfold max_retries in *. lia.
    + right. left. unfold ret in Hrun. injection Hrun as <- <- <-.
      repeat split; try done.
  - rewrite bool_decide_eq_true_2 in Hrun by done.
    left. unfold ret in Hrun. injection Hrun as <- <- <-. repeat split; try done.
Qed.

Lemma download_subtitles_direct_sound_witness :
  let w := Demo.world (Demo.always Demo.clean_exit) DemoSubs.listing DemoSubs.mtime
                      Demo.no_files in
  exists k pat,
    (k <= max_retries)%nat /\ pat ∈ subtitle_patterns w "es" /\
    "/srv/ytdpl/subtitles/clip.en.srt" ∈ glob w (SUBTITLES_DIR w) pat (AfterAttempt k).
Proof.
  intros w.
  destruct (download_subtitles_direct_sound w Demo.youtube_url "es" false Demo.pool3
              (globals_of (download_subtitles_direct w Demo.youtube_url "es" false Demo.pool3))
              "/srv/ytdpl/subtitles/clip.en.srt"
              (trace_of (download_subtitles_direct w Demo.youtube_url "es" false Demo.pool3))
              pool3_ok ltac:(vm_compute; reflexivity))
    as [(H & _) | [(_ & H & _) | (_ & _ & k & proc & pat & Hk & _ & _ & _ & Hpat & Hf & _)]].
  - done.
  - done.
  - by exists k, pat.
Defined.

(** ** Platform detection *)

(** X16: the platform of a URL is decided by substring search with the
    case of the letters ignored, YouTube first: a URL is a YouTube one
    exactly when youtube.com or youtu.be occurs in it, in capitals or small
    letters and anywhere; a URL without the Kelvin sign is a TikTok one
    exactly when it is no YouTube one and tiktok.com occurs in it; a URL
    that carries a YouTube address anywhere, such as in a query parameter,
    is handled as YouTube; and changing the case of letters of a URL does
    not change its platform. *)
Theorem detect_platform_spec (url : string) :
  (detect_platform url = YouTube <->
   occurs_ignoring_case "youtube.com" url \/ occurs_ignoring_case "youtu.be" url)
  /\ (Str.contains kelvin_sign url = false ->
      (detect_platform url = TikTok <->
       ~ (occurs_ignoring_case "youtube.com" url \/ occurs_ignoring_case "youtu.be" url)
       /\ occurs_ignoring_case "tiktok.com" url))
  /\ (forall a b, detect_platform url = YouTube ->
                  detect_platform (a +:+ url +:+ b) = YouTube)
  /\ (forall url', same_text url' url -> detect_platform url' = detect_platform url).
Proof.
  assert (Hy : forall u, detect_platform u = YouTube <->
             occurs_ignoring_case "youtube.com" u \/ occurs_ignoring_case "youtu.be" u).
  { intros u. rewrite <- !contains_lower_spec. unfold detect_platform. cbv zeta.
    change (Str.lower "youtube.com") with "youtube.com".
    change (Str.lower "youtu.be") with "youtu.be".
    destruct (Str.contains "youtube.com" (Str.lower u)),
             (Str.contains "youtu.be" (Str.lower u)); simpl;
      try (split; [tauto | done]).
    split; [| intros [|]; done]. by destruct (Str.contains "tiktok.com" (Str.lower u)). }
  split; [apply Hy |]. split; [| split].
  - intros _. rewrite <- Hy, <- contains_lower_spec. unfold detect_platform. cbv zeta.
    change (Str.lower "tiktok.com") with "tiktok.com".
    destruct (_ || _); [split; [done | tauto] |].
    destruct (Str.contains "tiktok.com" (Str.lower url)); split; try done.
    + by intros [_ H].
  - intros a b. rewrite !Hy.
    intros [H | H]; [left | right]; by apply occurs_ignoring_case_app.
  - intros url' H%same_text_lower. unfold detect_platform. cbv zeta. by rewrite H.
Qed.

Example detect_platform_samples :
  Str.contains kelvin_sign "https://vm.TikTok.com/ZM8/" = false /\
  detect_platform "https://vm.TikTok.com/ZM8/" = TikTok /\
  detect_platform "https://www.tiktok.com/@u/video/1?ref=YouTube.com" = YouTube /\
  detect_platform "https://vimeo.com/1" = Desconocida.
Proof. repeat split. Qed.

(** ** The menu and the dispatcher *)

Lemma ops_map_cases (choice : string) :
  let fl := default (true, false, false, false, false, false) (Main.ops_map !! choice) in
  (choice = "1" /\ fl = (true, false, false, false, false, false))
  \/ (choice = "2" /\ fl = (false, true, false, false, false, false))
  \/ (choice = "3" /\ fl = (false, true, true, false, false, false))
  \/ (choice = "4" /\ fl = (false, true, false, true, false, false))
  \/ (choice = "5" /\ fl = (false, true, true, false, false, false))
  \/ (choice = "6" /\ fl = (false, true, false, true, false, false))
  \/ (choice = "7" /\ fl = (false, true, true, true, false, false))
  \/ (choice = "8" /\ fl = (false, true, true, true, false, false))
  \/ (choice = "9" /\ fl = (true, false, false, true, false, false))
  \/ (choice = "10" /\ fl = (false, false, false, false, true, true))
  \/ (choice = "11" /\ fl = (false, true, false, false, true, true))
  \/ (choice = "12" /\ fl = (true, false, false, false, true, true))
  \/ ((choice ∉ ["1"; "2"; "3"; "4"; "5"; "6"; "7"; "8"; "9"; "10"; "11"; "12"])
      /\ fl = (true, false, false, false, false, false)).
Proof.
  cbv zeta.
  destruct (decide (choice ∈ ["1"; "2"; "3"; "4"; "5"; "6"; "7"; "8"; "9"; "10"; "11"; "12"]))
    as [Hin | Hout].
  - repeat (apply elem_of_cons in Hin as [-> | Hin]; [tauto |]).
    by apply elem_of_nil in Hin.
  - repeat right. split; [done |].
    unfold Main.ops_map. cbn [list_to_map foldr fst snd].
    rewrite !lookup_insert_ne by (intros <-; apply Hout; set_solver).
    by rewrite lookup_empty.
Qed.

(** What [get_user_input] returns, entry by entry. *)
Lemma get_user_input_run (h : Main.Host) :
  exists config t,
    Main.get_user_input h = (Main.Done config, t) /\
    forallb Main.is_dialogue t = true /\
    Main.configured h config.
Proof.
  unfold Main.get_user_input, Main.configured, Main.chosen_flags, Main.chosen,
    Main.entered_url, Main.chosen_source, Main.chosen_safe_mode.
  cbn [Main.bind Main.ret Main.input Main.act_of Main.print Main.print_all Main.menu
       fst snd app].
  set (url := if bool_decide (Main.typed h Main.prompt_url = "") then _ else _).
  destruct (default _ (Main.ops_map !! _)) as [[[[[v a] e] t0] s] ts].
  destruct (bool_decide (detect_platform url ∈ [YouTube; TikTok]));
    [destruct (Main.cookies_verified h (detect_platform url)) |];
    destruct (bool_decide (Main.typed h Main.prompt_choice = "13"));
    try (eexists _, _; split; [reflexivity |]; split; [reflexivity |]; done).
  all: destruct (bool_decide (Main.typed h Main.prompt_choice = "4"));
    [destruct (bool_decide (Main.typed h Main.prompt_transcribe_mode = "2")) |].
  all: destruct s; [destruct ts |].
  all: eexists _, _; split; [reflexivity |]; split; [reflexivity |];
    split; [reflexivity |]; repeat split; reflexivity.
Qed.

(** *** Actions and failures of composed computations *)

Section Emits.

Context (ok : Main.act -> bool).

Lemma emits_ret {A} (a : A) : Main.emits ok (Main.ret a).
Proof. done. Qed.

Lemma emits_raise {A} (e : Main.error) : Main.emits ok (Main.raise (A := A) e).
Proof. done. Qed.

Lemma emits_act_of a : ok a = true -> Main.emits ok (Main.act_of a).
Proof. unfold Main.emits. simpl. by intros ->. Qed.

Lemma emits_bind {A B} (m : Main.Orch A) (f : A -> Main.Orch B) :
  Main.emits ok m -> (forall a, m.1 = Main.Done a -> Main.emits ok (f a)) ->
  Main.emits ok (Main.bind m f).
Proof.
  unfold Main.emits, Main.bind. destruct m as [[a|e] t1]; simpl; [| done].
  intros H1 Hf. specialize (Hf a eq_refl). destruct (f a) as [r t2]. simpl in *.
  by rewrite forallb_app, H1, Hf.
Qed.

Lemma emits_try_except {A} (m : Main.Orch A) (handler : Main.error -> Main.Orch A) :
  Main.emits ok m -> (forall e, Main.emits ok (handler e)) ->
  Main.emits ok (Main.try_except m handler).
Proof.
  unfold Main.emits, Main.try_except. destruct m as [[a|e] t1]; simpl; [done |].
  intros H1 Hh. destruct (Main.is_Exception e); [| done].
  specialize (Hh e). destruct (handler e) as [r t2]. simpl in *.
  by rewrite forallb_app, H1, Hh.
Qed.

Lemma emits_filter {A} (m : Main.Orch A) :
  Main.emits (fun a => negb (ok a)) m -> filter ok m.2 = [].
Proof.
  unfold Main.emits. generalize (m.2). intros t. induction t as [|a t IH]; [done |].
  simpl. intros [Ha Ht]%andb_true_iff. rewrite filter_cons, IH by done.
  rewrite negb_true_iff in Ha. by rewrite Ha.
Qed.

End Emits.

Lemma contained_ret {A} (a : A) : Main.contained (Main.ret a).
Proof. by intros e. Qed.

Lemma contained_act_of a : Main.contained (Main.act_of a).
Proof. by intros e. Qed.

Lemma contained_raise {A} (e : Main.error) :
  Main.is_Exception e = true -> Main.contained (Main.raise (A := A) e).
Proof. intros He e' [= <-]. done. Qed.

Lemma contained_bind {A B} (m : Main.Orch A) (f : A -> Main.Orch B) :
  Main.contained m -> (forall a, Main.contained (f a)) -> Main.contained (Main.bind m f).
Proof.
  unfold Main.contained, Main.bind. destruct m as [[a|e] t1]; simpl.
  - intros _ Hf. specialize (Hf a). by destruct (f a) as [r t2].
  - intros H _ e' [= <-]. by apply H.
Qed.

(** [orch_steps lemma_bind ...]: structural proofs over the shape of a
    computation. *)
Ltac emits_steps :=
  repeat first
    [ apply emits_ret
    | apply emits_raise
    | apply emits_act_of; reflexivity
    | apply emits_bind; [| intros ? ?]
    | apply emits_try_except; [| intros ?]
    | match goal with
      | |- Main.emits _ (if ?b then _ else _) => destruct b
      | |- Main.emits _ (match ?x with _ => _ end) => destruct x
      end ].

Ltac contained_steps :=
  repeat first
    [ apply contained_ret
    | apply contained_act_of
    | apply contained_raise; reflexivity
    | apply contained_bind; [| intros ?]
    | match goal with
      | |- Main.contained (if ?b then _ else _) => destruct b
      | |- Main.contained (match ?x with _ => _ end) => destruct x
      end ].

Ltac unfold_callees :=
  unfold Main.generate_subtitles_with_whisper, Main.extract_voice_optimized,
    Main.transcribe_audio_optimized, Main.translate_subtitle_file, Main.run_ffmpeg,
    Main.print_status, Main.print.

(** [process_single_file] catches whatever goes wrong inside it. *)
Lemma process_single_file_Done h file_path operations :
  exists r, (Main.process_single_file h file_path operations).1 = Main.Done r.
Proof.
  unfold Main.process_single_file. cbv zeta.
  match goal with |- context [Main.try_except ?m ?handler] =>
    assert (Hm : Main.contained m); [| destruct m as [[r|e] t] eqn:E] end.
  - unfold_callees. contained_steps.
  - by exists r.
  - unfold Main.try_except. rewrite (Hm e eq_refl). simpl. by eexists.
Qed.

Lemma process_files_Done h files operations acc :
  exists paths, (Main.process_files h files operations acc).1 = Main.Done paths.
Proof.
  revert acc. induction files as [|file rest IH]; intros acc; simpl; [by eexists |].
  destruct (process_single_file_Done h file operations) as [r Hr].
  destruct (Main.process_single_file h file operations) as [o t]. simpl in Hr. subst o.
  cbn [Main.bind].
  destruct (IH (if Main.is_truthy_path (Main.transcription_path r)
                then acc ++ [default "" (Main.transcription_path r)] else acc)) as [p Hp].
  destruct (Main.process_files h rest operations _) as [o2 t2]. simpl in *. subst o2.
  by exists p.
Qed.

Lemma emits_process_files ok h files operations acc :
  (forall f, f ∈ files -> Main.emits ok (Main.process_single_file h f operations)) ->
  Main.emits ok (Main.process_files h files operations acc).
Proof.
  revert acc. induction files as [|file rest IH]; intros acc Hall; simpl; [done |].
  apply emits_bind; [apply Hall; by left |].
  intros r _. apply IH. intros f Hf. apply Hall. by right.
Qed.

(** *** The dispatcher *)

Lemma main_run h :
  exists config t0,
    Main.configured h config /\ forallb Main.is_dialogue t0 = true /\
    Main.main h
    = if Main.dependencies_present h then
        let '(r, t) := Main.main_dispatch h config in
        (r, [Main.CheckDependencies; Main.UpdateYtDlp; Main.SetupChromiumProfiles]
            ++ t0 ++ t ++ [Main.CleanupTempFiles])
      else (Main.Failed (Main.SystemExit 1), [Main.CheckDependencies; Main.CleanupTempFiles]).
Proof.
  destruct (get_user_input_run h) as (config & t0 & Hrun & Ht0 & Hconf).
  exists config, t0. split; [done |]. split; [done |].
  unfold Main.main, Main.main_try, Main.check_dependencies.
  destruct (Main.dependencies_present h); [| reflexivity].
  rewrite Hrun. cbn [Main.bind Main.act_of Main.ret Main.try_finally app].
  destruct (Main.main_dispatch h config) as [r t].
  unfold Main.try_finally, Main.act_of. simpl. by rewrite <- app_assoc.
Qed.

Lemma item_Some (d : Main.dict) key v : d !! key = Some v -> Main.item d key = Main.ret v.
Proof. intros H. unfold Main.item. by rewrite H. Qed.

Lemma get_Some (d : Main.dict) key v dflt : d !! key = Some v -> Main.get d key dflt = v.
Proof. intros H. unfold Main.get. by rewrite H. Qed.

Lemma get_None (d : Main.dict) key dflt : d !! key = None -> Main.get d key dflt = dflt.
Proof. intros H. unfold Main.get. by rewrite H. Qed.

Lemma main_dispatch_Done h config :
  Main.configured h config -> (Main.main_dispatch h config).1 = Main.Done tt.
Proof.
  intros [Hurl Hconf]. unfold Main.main_dispatch. cbv zeta.
  destruct (bool_decide (Main.chosen h = "13")).
  - destruct Hconf as (-> & _ & _). reflexivity.
  - destruct (Main.chosen_flags h) as [[[[[v a] e] t] s] ts].
    destruct Hconf as (Hdv & Hda & Hev & Htr & Hds & Hts & Hob & _).
    rewrite (get_Some _ _ _ _ Hob). cbn [Main.truthy].
    rewrite (item_Some _ _ _ Hds), (item_Some _ _ _ Hdv), (item_Some _ _ _ Hda).
    cbn [Main.bind Main.ret Main.print Main.act_of Main.truthy app].
    destruct s, v, a; cbn [negb Main.bind Main.ret Main.act_of app];
      try (destruct (process_single_file_Done h (Main.cfg_url config)
                       (Main.cfg_operations config)) as [r Hr];
           destruct (Main.process_single_file h _ _) as [o t1]; simpl in Hr; subst o;
           reflexivity).
    all: match goal with
         | |- context [bool_decide (?files <> [])] =>
             destruct (bool_decide (files <> []));
               [destruct (process_files_Done h files (Main.cfg_operations config) [])
                  as [p Hp];
                destruct (Main.process_files h files _ []) as [o t1]; simpl in Hp; subst o;
                cbn [Main.bind Main.print_status Main.act_of Main.ret app];
                destruct (_ && _); reflexivity
               | reflexivity]
         end.
Qed.

Lemma filter_dialogue (ok : Main.act -> bool) t :
  (forall a, Main.is_dialogue a = true -> ok a = false) ->
  forallb Main.is_dialogue t = true -> filter ok t = [].
Proof.
  intros Hok. induction t as [|a t IH]; [done |]. simpl.
  intros [Ha Ht]%andb_true_iff. rewrite filter_cons, IH by done.
  by rewrite (Hok a Ha).
Qed.

(** The flags of a choice: subtitles without video and audio is choice 10. *)
Lemma only_subtitles_choice h :
  let '(v, a, e, t, s, ts) := Main.chosen_flags h in
  (s && negb v && negb a = true <-> Main.chosen h = "10") /\
  (s = true -> ts = true) /\
  (v && a = false) /\ (v || a || s = true).
Proof.
  unfold Main.chosen_flags.
  destruct (ops_map_cases (Main.chosen h))
    as [[Hc ->] | [[Hc ->] | [[Hc ->] | [[Hc ->] | [[Hc ->] | [[Hc ->] | [[Hc ->]
      | [[Hc ->] | [[Hc ->] | [[Hc ->] | [[Hc ->] | [[Hc ->] | [Hc ->]]]]]]]]]]]]];
    try (rewrite Hc; repeat split; done).
  repeat split; try done. intros Hten. exfalso. apply Hc. rewrite Hten. set_solver.
Qed.

(** When [process_single_file] downloads subtitles. *)
Lemma process_single_file_subtitle_download h f operations :
  filter Main.is_subtitle_download (Main.process_single_file h f operations).2
  = if Str.startswith "http" f
       && Main.truthy (Main.get operations "download_subtitles" (Main.PBool false))
       && bool_decide (Main.get operations "subtitle_source" Main.PNone = Main.PStr "download")
    then [Main.DownloadSubtitlesDirect f
            (Main.get operations "subtitle_lang" (Main.PStr "es"))
            (Main.get operations "safe_mode" (Main.PBool false))]
    else [].
Proof.
  unfold Main.process_single_file. cbv zeta.
  destruct (Str.startswith "http" f
            && Main.truthy (Main.get operations "download_subtitles" (Main.PBool false))) eqn:H1.
  - destruct (bool_decide (Main.get operations "subtitle_source" Main.PNone
                           = Main.PStr "download")) eqn:H2; cbn [andb].
    + unfold Main.translate_subtitle_file.
      destruct (Main.is_truthy_path _ && _); reflexivity.
    + apply emits_filter. unfold_callees. emits_steps.
  - cbn [andb]. apply emits_filter. unfold_callees. emits_steps.
Qed.

Lemma emits_of_filter {A} (ok : Main.act -> bool) (m : Main.Orch A) :
  filter ok m.2 = [] -> Main.emits (fun a => negb (ok a)) m.
Proof.
  unfold Main.emits. generalize (m.2). intros t. induction t as [|a t IH]; [done |].
  rewrite filter_cons. destruct (ok a) eqn:Ha; [done |]. simpl. by rewrite Ha.
Qed.

Lemma chosen_source_download h :
  bool_decide (Main.PStr (Main.chosen_source h) = Main.PStr "download")
  = bool_decide (Main.typed h Main.prompt_source = "1").
Proof.
  unfold Main.chosen_source.
  destruct (bool_decide (Main.typed h Main.prompt_source = "1")); reflexivity.
Qed.

Lemma chosen_source_generate h :
  bool_decide (Main.PStr (Main.chosen_source h) = Main.PStr "generate")
  = negb (bool_decide (Main.typed h Main.prompt_source = "1")).
Proof.
  unfold Main.chosen_source.
  destruct (bool_decide (Main.typed h Main.prompt_source = "1")); reflexivity.
Qed.

Lemma orch_bind_ret {A B} (a : A) (f : A -> Main.Orch B) :
  Main.bind (Main.ret a) f = f a.
Proof. unfold Main.bind, Main.ret. by destruct (f a). Qed.

Lemma orch_bind_Done {A B} (a : A) (f : A -> Main.Orch B) :
  Main.bind (Main.Done a, []) f = f a.
Proof. apply orch_bind_ret. Qed.

(** Evaluation of the steps that neither act nor depend on the host. *)
Ltac orch_eval :=
  repeat first
    [ rewrite orch_bind_ret
    | rewrite orch_bind_Done
    | progress cbn beta iota zeta delta [Main.truthy negb andb orb] ].

Lemma main_dispatch_subtitle_download h config
    (Hlocal : forall url options safe_mode f,
        f ∈ Main.video_files h url options safe_mode \/
        f ∈ Main.audio_files h url (Some options) safe_mode ->
        Str.startswith "http" f = false) :
  Main.configured h config ->
  filter Main.is_subtitle_download (Main.main_dispatch h config).2
  = if bool_decide (Main.chosen h = "10")
       && bool_decide (Main.typed h Main.prompt_source = "1")
       && Str.startswith "http" (Main.entered_url h)
    then [Main.DownloadSubtitlesDirect (Main.entered_url h) (Main.PStr "es")
            (Main.chosen_safe_mode h)]
    else [].
Proof.
  intros [Hurl Hconf]. unfold Main.main_dispatch. cbv zeta.
  pose proof (only_subtitles_choice h) as Hflags.
  case_bool_decide as H13.
  - destruct Hconf as (-> & _ & _). rewrite H13. reflexivity.
  - destruct (Main.chosen_flags h) as [[[[[v a] e] t] s] ts].
    destruct Hflags as (Hten & Hts' & Hva & Hany).
    destruct Hconf as (Hdv & Hda & Hev & Htr & Hds & Hts & Hob & Hgs & Hsm & Hsrc & Hlang & _).
    rewrite (get_Some _ _ _ _ Hob).
    rewrite (item_Some _ _ _ Hds), (item_Some _ _ _ Hdv), (item_Some _ _ _ Hda).
    rewrite (get_Some _ _ _ _ Hsm), Hurl.
    destruct (decide (Main.chosen h = "10")) as [H10 | H10].
    + pose proof (proj2 Hten H10) as Hs. destruct s, v, a; try done. clear Hs.
      rewrite (bool_decide_eq_true_2 (Main.chosen h = "10")) by done.
      orch_eval.
      pose proof (process_single_file_subtitle_download h (Main.entered_url h)
                    (Main.cfg_operations config)) as Hpsf.
      rewrite (get_Some _ _ _ _ Hds), (get_Some _ _ _ _ Hsrc), (get_Some _ _ _ _ Hlang),
        (get_Some _ _ _ _ Hsm), chosen_source_download in Hpsf.
      cbn [Main.truthy] in Hpsf. rewrite andb_true_r in Hpsf.
      rewrite (andb_comm (bool_decide _) (Str.startswith _ _)).
      destruct (Main.process_single_file h _ _) as [r t1]. cbn [snd] in Hpsf.
      destruct r;
        cbn [Main.bind Main.ret Main.print Main.act_of app snd];
        rewrite ?app_nil_r, filter_cons, ?filter_app, Hpsf;
        destruct (Str.startswith _ _ && _); reflexivity.
    + rewrite (bool_decide_eq_false_2 (Main.chosen h = "10")) by done. cbn [andb].
      match goal with |- filter _ (?m).2 = [] => apply (emits_filter _ m) end.
      destruct s, v, a; try done;
        try (exfalso; apply H10; by apply Hten);
        orch_eval; unfold Main.print_status, Main.print; emits_steps;
        apply emits_process_files; intros f Hf;
        apply emits_of_filter; rewrite process_single_file_subtitle_download;
        match goal with H : _ = Main.Done ?files, Hf : _ ∈ ?files |- _ =>
          cbn in H; injection H as <- end;
        erewrite Hlocal; eauto.
Qed.

Ltac rewrite_gets :=
  repeat match goal with
         | H : ?ops !! ?k = Some ?v |- context [Main.get ?ops ?k ?d] =>
             rewrite (get_Some ops k v d H)
         | H : ?ops !! ?k = None |- context [Main.get ?ops ?k ?d] =>
             rewrite (get_None ops k d H)
         end.

(** X17: whatever the operator answers and whatever the callees return,
    [main] ends normally, unless [check_dependencies] leaves the script
    with status 1 before anything else is done: no key is missing from the
    configuration whichever menu entry was chosen, an exception raised
    while a file is processed does not escape [process_single_file], and
    the temporary files are cleaned up last in either case. *)
Theorem main_completes (h : Main.Host) :
  exists t,
    Main.main h
    = (if Main.dependencies_present h then Main.Done tt
       else Main.Failed (Main.SystemExit 1),
       t ++ [Main.CleanupTempFiles]) /\
    (Main.dependencies_present h = false <-> t = [Main.CheckDependencies]).
Proof.
  destruct (main_run h) as (config & t0 & Hconf & Ht0 & ->).
  destruct (Main.dependencies_present h).
  - pose proof (main_dispatch_Done h config Hconf) as Hd.
    destruct (Main.main_dispatch h config) as [r t]. simpl in Hd. subst r.
    exists ([Main.CheckDependencies; Main.UpdateYtDlp; Main.SetupChromiumProfiles]
            ++ t0 ++ t).
    split; [by rewrite <- !app_assoc |]. split; [done |]. simpl. intros [=].
  - exists [Main.CheckDependencies]. done.
Qed.

(** X18: [download_subtitles_direct] is called in a run exactly when the
    operator chose entry 10, answered 1 (download) for the source, and the
    URL begins with http; it is then called once, for the URL entered, with
    language es.  With entries 11 and 12, which also announce subtitles,
    it is never called, and neither is it for a URL typed without its
    scheme.  (Downloaded files are local paths.) *)
Theorem subtitle_download_route (h : Main.Host)
    (Hlocal : forall url options safe_mode f,
        f ∈ Main.video_files h url options safe_mode \/
        f ∈ Main.audio_files h url (Some options) safe_mode ->
        Str.startswith "http" f = false) :
  filter Main.is_subtitle_download (Main.main h).2
  = if Main.dependencies_present h
       && bool_decide (Main.chosen h = "10")
       && bool_decide (Main.typed h Main.prompt_source = "1")
       && Str.startswith "http" (Main.entered_url h)
    then [Main.DownloadSubtitlesDirect (Main.entered_url h) (Main.PStr "es")
            (Main.chosen_safe_mode h)]
    else [].
Proof.
  destruct (main_run h) as (config & t0 & Hconf & Ht0 & ->).
  destruct (Main.dependencies_present h); [| reflexivity]. cbn [andb].
  pose proof (main_dispatch_subtitle_download h config Hlocal Hconf) as Hd.
  destruct (Main.main_dispatch h config) as [r t]. cbn [snd] in *.
  rewrite !filter_app, (filter_dialogue _ t0), Hd, app_nil_r by (done || by intros []).
  reflexivity.
Qed.

(** X19: [get_user_input] always returns a configuration, and for every
    entry of the menu other than 13 the configuration asks for exactly one
    download: video and audio are never both set, and neither is set only
    for entry 10, the one that downloads subtitles alone.  Subtitles are
    requested by entries 10, 11 and 12 only, always together with their
    translation; voice extraction always comes with the audio download; the
    transcription mode is asked for entry 4 only; and an answer that is no
    entry of the menu is treated as entry 1. *)
Theorem menu_configurations (h : Main.Host) :
  exists config t,
    Main.get_user_input h = (Main.Done config, t) /\
    let on := Main.flag (Main.cfg_operations config) in
    (on "open_browser" = true <-> Main.chosen h = "13") /\
    (Main.chosen h <> "13" ->
     on "download_video" && on "download_audio" = false /\
     (on "download_video" || on "download_audio" = false <-> Main.chosen h = "10") /\
     (on "download_subtitles" = true <-> Main.chosen h ∈ ["10"; "11"; "12"]) /\
     on "translate_subtitles" = on "download_subtitles" /\
     (on "extract_voice" = true -> on "download_audio" = true) /\
     (is_Some (Main.cfg_operations config !! "transcribe_mode") <-> Main.chosen h = "4") /\
     ((Main.chosen h ∉ ["1"; "2"; "3"; "4"; "5"; "6"; "7"; "8"; "9"; "10"; "11"; "12"]) ->
      on "download_video" = true /\ on "download_audio" = false /\
      on "extract_voice" = false /\ on "transcribe" = false /\
      on "download_subtitles" = false)).
Proof.
  destruct (get_user_input_run h) as (config & t & Hrun & _ & _ & Hconf).
  exists config, t. split; [exact Hrun |]. cbv zeta.
  case_bool_decide as H13.
  - destruct Hconf as (-> & _ & _). split; [done |]. done.
  - pose proof (ops_map_cases (Main.chosen h)) as Hcases. cbv zeta in Hcases.
    fold (Main.chosen_flags h) in Hcases.
    destruct (Main.chosen_flags h) as [[[[[v a] e] tr] s] ts].
    destruct Hconf as (Hdv & Hda & Hev & Htr & Hds & Hts & Hob & Hgs & Hsm & Hsrc & Hlang
                       & Htl & Hmode & _).
    unfold Main.flag. rewrite_gets. cbn [Main.truthy].
    split; [done |]. intros _.
    assert (Hin : forall k : string,
               k ∈ ["1"; "2"; "3"; "4"; "5"; "6"; "7"; "8"; "9"; "10"; "11"; "12"] <->
               k = "1" \/ k = "2" \/ k = "3" \/ k = "4" \/ k = "5" \/ k = "6" \/ k = "7"
               \/ k = "8" \/ k = "9" \/ k = "10" \/ k = "11" \/ k = "12").
    { intros k. rewrite !elem_of_cons, elem_of_nil. tauto. }
    assert (Hsub : forall k : string,
               k ∈ ["10"; "11"; "12"] <-> k = "10" \/ k = "11" \/ k = "12").
    { intros k. rewrite !elem_of_cons, elem_of_nil. tauto. }
    rewrite Hin, Hsub, Hmode. unfold not in Hcases. rewrite Hin in Hcases. clear Hin Hsub.
    destruct Hcases
      as [[Hc E] | [[Hc E] | [[Hc E] | [[Hc E] | [[Hc E] | [[Hc E] | [[Hc E]
        | [[Hc E] | [[Hc E] | [[Hc E] | [[Hc E] | [[Hc E] | [Hc E]]]]]]]]]]]]];
      injection E as -> -> -> -> -> ->.
    13: { rewrite (bool_decide_eq_false_2 (Main.chosen h = "4")) by tauto.
          repeat split; try done; try tauto; by intros [? [=]]. }
    all: rewrite Hc; repeat split; try done; try (intros [=]); try tauto;
      try (intros [? [=]]); try (by eexists);
      try (intros H; exfalso; apply H; tauto);
      try (intros [H | [H | H]]; discriminate H).
Qed.

(** A local file for which nothing is asked passes through
    [process_single_file] without any call. *)
Lemma process_single_file_idle h f operations :
  Str.startswith "http" f = false ->
  Main.get operations "extract_voice" (Main.PBool false) = Main.PBool false ->
  Main.get operations "transcribe" (Main.PBool false) = Main.PBool false ->
  Main.get operations "generate_subtitles" (Main.PBool false) = Main.PBool false ->
  bool_decide (Main.get operations "subtitle_source" Main.PNone = Main.PStr "generate")
  && bool_decide (Str.lower (Main.suffix f) ∈ [".mp3"; ".wav"; ".m4a"; ".flac"]) = false ->
  Main.process_single_file h f operations
  = (Main.Done {| Main.success := true; Main.errors := [];
                  Main.transcription_path := None |}, []).
Proof.
  intros Hhttp Hev Htr Hgs Hsrc. unfold Main.process_single_file. cbv zeta.
  rewrite Hhttp, Hev, Htr, Hgs. cbn [andb orb Main.truthy]. rewrite andb_false_r.
  orch_eval.
  destruct (bool_decide (Str.lower (Main.suffix f) ∈ [".mp3"; ".wav"; ".m4a"; ".flac"])).
  - rewrite andb_true_r in Hsrc. rewrite Hsrc. orch_eval. reflexivity.
  - cbn [Main.truthy]. rewrite andb_false_r. orch_eval. reflexivity.
Qed.

Lemma process_files_idle h files operations :
  (forall f, f ∈ files ->
     Main.process_single_file h f operations
     = (Main.Done {| Main.success := true; Main.errors := [];
                     Main.transcription_path := None |}, [])) ->
  Main.process_files h files operations [] = (Main.Done [], []).
Proof.
  induction files as [|f files IH]; intros Hall; [reflexivity |].
  cbn [Main.process_files]. rewrite (Hall f) by by left.
  rewrite orch_bind_Done. cbn [Main.is_truthy_path Main.transcription_path Main.of_option
                               Main.truthy]. apply IH. intros f' Hf'. apply Hall. by right.
Qed.

Lemma video_suffix_not_audio (s : string) :
  s ∈ video_suffixes -> bool_decide (s ∈ [".mp3"; ".wav"; ".m4a"; ".flac"]) = false.
Proof.
  unfold video_suffixes. rewrite !elem_of_cons, elem_of_nil.
  intros [-> | [-> | [-> | [-> | [-> | []]]]]]; reflexivity.
Qed.

(** The configuration of an entry other than 4 and 13. *)
Lemma configured_entry h config c v a e t s ts :
  Main.configured h config -> Main.chosen h = c -> c <> "13" -> c <> "4" ->
  default (true, false, false, false, false, false) (Main.ops_map !! c)
  = (v, a, e, t, s, ts) ->
  let operations := Main.cfg_operations config in
  Main.cfg_url config = Main.entered_url h /\
  operations !! "download_video" = Some (Main.PBool v) /\
  operations !! "download_audio" = Some (Main.PBool a) /\
  operations !! "extract_voice" = Some (Main.PBool e) /\
  operations !! "transcribe" = Some (Main.PBool t) /\
  operations !! "download_subtitles" = Some (Main.PBool s) /\
  operations !! "translate_subtitles" = Some (Main.PBool ts) /\
  operations !! "open_browser" = Some (Main.PBool false) /\
  operations !! "generate_subtitles" = None /\
  operations !! "safe_mode" = Some (Main.chosen_safe_mode h) /\
  operations !! "subtitle_source"
  = (if s then Some (Main.PStr (Main.chosen_source h)) else None) /\
  operations !! "subtitle_lang" = (if s then Some (Main.PStr "es") else None) /\
  operations !! "target_lang" = (if s && ts then Some (Main.PStr "en") else None) /\
  operations !! "transcribe_mode" = None /\
  operations !! "keep_individual" = None /\
  default false (Main.cfg_download_thumbnail config)
  = bool_decide (Str.lower (Main.typed h Main.prompt_thumbnail) = "s") /\
  default false (Main.cfg_download_description config)
  = bool_decide (Str.lower (Main.typed h Main.prompt_description) = "s").
Proof.
  intros [Hurl Hconf] Hc H13 H4 Hfl. cbv zeta. unfold Main.chosen_flags in Hconf.
  rewrite Hc, Hfl in Hconf.
  rewrite (bool_decide_eq_false_2 (c = "13")), (bool_decide_eq_false_2 (c = "4")) in Hconf
    by done.
  cbn [andb] in Hconf.
  destruct Hconf as (Hdv & Hda & Hev & Htr & Hds & Hts & Hob & Hgs & Hsm & Hsrc & Hlang & Htl
                     & Hmode & Hkeep & Hth & Hde).
  rewrite Hth, Hde. repeat split; done.
Qed.

Ltac use_entry Hconf Hc :=
  let H := fresh in
  pose proof (configured_entry _ _ _ _ _ _ _ _ _ Hconf Hc ltac:(done) ltac:(done) eq_refl)
    as H;
  cbv zeta in H; cbn [andb] in H;
  destruct H as (Hurl & Hdv & Hda & Hev & Htr & Hds & Hts & Hob & Hgs & Hsm & Hsrc & Hlang
                 & Htl & Hmode & Hkeep & Hth & Hde).

(** X20: the entries that announce a media download together with
    subtitles do nothing about subtitles when the operator asks for the
    subtitles to be downloaded, and entry 12 does nothing about them
    whatever the source: the run of entry 12 makes a single processing
    call, [download_video_direct], like entry 1, and the run of entry 11
    with source 1 a single [download_audio_direct], like entry 2.
    (Downloaded files are local paths; files of the video function have a
    video suffix.) *)
Theorem media_entries_drop_subtitles (h : Main.Host)
    (Hdeps : Main.dependencies_present h = true)
    (Hlocal : forall url options safe_mode f,
        f ∈ Main.video_files h url options safe_mode \/
        f ∈ Main.audio_files h url (Some options) safe_mode ->
        Str.startswith "http" f = false)
    (Hvideo : forall url options safe_mode f,
        f ∈ Main.video_files h url options safe_mode ->
        Str.lower (Main.suffix f) ∈ video_suffixes) :
  (Main.chosen h = "12" ->
   filter Main.is_processing (Main.main h).2
   = [Main.DownloadVideoDirect (Main.entered_url h) (Main.chosen_options h)
        (Main.chosen_safe_mode h)])
  /\ (Main.chosen h = "11" -> Main.typed h Main.prompt_source = "1" ->
      filter Main.is_processing (Main.main h).2
      = [Main.DownloadAudioDirect (Main.entered_url h) (Some (Main.chosen_options h))
           (Main.chosen_safe_mode h)]).
Proof.
  destruct (main_run h) as (config & t0 & Hconf & Ht0 & ->). rewrite Hdeps.
  assert (Hquiet : filter Main.is_processing t0 = [])
    by (apply filter_dialogue; [by intros [] | done]).
  split.
  - intros Hc. use_entry Hconf Hc.
    unfold Main.main_dispatch. cbv zeta. rewrite_gets.
    rewrite (item_Some _ _ _ Hds), (item_Some _ _ _ Hdv), Hth, Hde, Hurl.
    fold (Main.chosen_options h).
    rewrite (bool_decide_eq_false_2 (Main.PNone = Main.PStr "unified")) by done.
    orch_eval.
    set (files := Main.video_files h _ _ _).
    assert (Hpf : Main.process_files h files (Main.cfg_operations config) []
                  = (Main.Done [], [])).
    { apply process_files_idle. intros f Hf.
      apply process_single_file_idle; rewrite_gets; try done.
      - eapply Hlocal. left. exact Hf.
      - rewrite (video_suffix_not_audio _ (Hvideo _ _ _ _ Hf)). apply andb_false_r. }
    cbn [Main.bind Main.print Main.act_of Main.ret app].
    destruct (bool_decide (files <> [])); rewrite ?Hpf;
      cbn [Main.bind Main.print Main.print_status Main.act_of Main.ret app andb snd];
      rewrite !filter_cons, filter_app, Hquiet; reflexivity.
  - intros Hc Hsource. use_entry Hconf Hc.
    unfold Main.main_dispatch. cbv zeta. rewrite_gets.
    rewrite (item_Some _ _ _ Hds), (item_Some _ _ _ Hdv), (item_Some _ _ _ Hda),
      Hth, Hde, Hurl.
    fold (Main.chosen_options h).
    rewrite (bool_decide_eq_false_2 (Main.PNone = Main.PStr "unified")) by done.
    orch_eval.
    set (files := Main.audio_files h _ _ _).
    assert (Hpf : Main.process_files h files (Main.cfg_operations config) []
                  = (Main.Done [], [])).
    { apply process_files_idle. intros f Hf.
      apply process_single_file_idle; rewrite_gets; try done.
      - eapply Hlocal. right. exact Hf.
      - unfold Main.chosen_source.
        rewrite (bool_decide_eq_true_2 (Main.typed h Main.prompt_source = "1")) by done.
        reflexivity. }
    cbn [Main.bind Main.print Main.act_of Main.ret app].
    destruct (bool_decide (files <> [])); rewrite ?Hpf;
      cbn [Main.bind Main.print Main.print_status Main.act_of Main.ret app andb snd];
      rewrite !filter_cons, filter_app, Hquiet; reflexivity.
Qed.

(** X21: entry 10 with the subtitles to be generated (any answer but 1 for
    the source) downloads the audio of the URL and hands the list that
    [download_audio_direct] returns, not a path, to
    [generate_subtitles_with_whisper], which returns [None] for it: the
    run makes these two calls and no other, so nothing is transcribed and
    nothing is translated, and the run still ends normally. *)
Theorem generated_subtitles_never_arrive (h : Main.Host)
    (Hdeps : Main.dependencies_present h = true)
    (Hc : Main.chosen h = "10")
    (Hsource : Main.typed h Main.prompt_source <> "1")
    (Hhttp : Str.startswith "http" (Main.entered_url h) = true) :
  let files := Main.audio_files h (Main.entered_url h) None (Main.chosen_safe_mode h) in
  (Main.main h).1 = Main.Done tt /\
  filter Main.is_processing (Main.main h).2
  = Main.DownloadAudioDirect (Main.entered_url h) None (Main.chosen_safe_mode h)
    :: (if bool_decide (files <> [])
        then [Main.GenerateSubtitlesWithWhisper (Main.PList files) (Main.PStr "es")]
        else []) /\
  Main.generate_subtitles_with_whisper h (Main.PList files) (Main.PStr "es")
  = (Main.Done None,
     [Main.GenerateSubtitlesWithWhisper (Main.PList files) (Main.PStr "es")]).
Proof.
  cbv zeta. split; [| split; [| reflexivity]].
  all: destruct (main_run h) as (config & t0 & Hconf & Ht0 & ->); rewrite Hdeps.
  { pose proof (main_dispatch_Done h config Hconf) as Hd.
    by destruct (Main.main_dispatch h config) as [r t]. }
  assert (Hquiet : filter Main.is_processing t0 = [])
    by (apply filter_dialogue; [by intros [] | done]).
  use_entry Hconf Hc.
  assert (Hpsf : exists r,
    Main.process_single_file h (Main.entered_url h) (Main.cfg_operations config)
    = (Main.Done r,
       Main.DownloadAudioDirect (Main.entered_url h) None (Main.chosen_safe_mode h)
       :: (if bool_decide
                (Main.audio_files h (Main.entered_url h) None (Main.chosen_safe_mode h)
                 <> [])
           then [Main.GenerateSubtitlesWithWhisper
                   (Main.PList (Main.audio_files h (Main.entered_url h) None
                                                 (Main.chosen_safe_mode h)))
                   (Main.PStr "es")]
           else []))).
  { unfold Main.process_single_file. cbv zeta. rewrite Hhttp. rewrite_gets.
    unfold Main.chosen_source.
    rewrite (bool_decide_eq_false_2 (Main.typed h Main.prompt_source = "1")) by done.
    rewrite (bool_decide_eq_false_2 (Main.PStr "generate" = Main.PStr "download")),
      (bool_decide_eq_true_2 (Main.PStr "generate" = Main.PStr "generate")) by done.
    cbn [andb orb Main.truthy]. rewrite andb_false_r.
    unfold Main.generate_subtitles_with_whisper.
    cbn [Main.bind Main.act_of Main.ret app Main.truthy andb].
    destruct (bool_decide (Main.audio_files h _ _ _ <> []));
      cbn [Main.bind Main.act_of Main.ret app Main.truthy andb Main.is_truthy_path
           Main.of_option Main.try_except];
      by eexists. }
  destruct Hpsf as [r Hpsf].
  unfold Main.main_dispatch. cbv zeta. rewrite_gets.
  rewrite (item_Some _ _ _ Hds), (item_Some _ _ _ Hdv), (item_Some _ _ _ Hda), Hurl.
  orch_eval. rewrite Hpsf.
  cbn [Main.bind Main.print Main.act_of Main.ret app snd].
  rewrite !filter_cons, filter_app, Hquiet.
  destruct (bool_decide (Main.audio_files h _ _ _ <> [])); reflexivity.
Qed.

(** The runs of the examples. *)
Lemma demo_files_local url choice source :
  forall u options safe_mode f,
    f ∈ Main.video_files (DemoHost.host url choice source) u options safe_mode \/
    f ∈ Main.audio_files (DemoHost.host url choice source) u (Some options) safe_mode ->
    Str.startswith "http" f = false.
Proof. intros u options safe_mode f [->%list_elem_of_singleton | ->%list_elem_of_singleton]; done. Qed.

Lemma demo_files_video url choice source :
  forall u options safe_mode f,
    f ∈ Main.video_files (DemoHost.host url choice source) u options safe_mode ->
    Str.lower (Main.suffix f) ∈ video_suffixes.
Proof.
  intros u options safe_mode f ->%list_elem_of_singleton.
  change (Str.lower (Main.suffix "/srv/ytdpl/downloads/clip.mp4")) with ".mp4".
  by left.
Qed.

Lemma subtitle_download_route_witness :
  let h := DemoHost.host Demo.youtube_url "10" "1" in
  filter Main.is_subtitle_download (Main.main h).2
  = [Main.DownloadSubtitlesDirect Demo.youtube_url (Main.PStr "es") (Main.PBool true)].
Proof.
  intros h. rewrite (subtitle_download_route h (demo_files_local _ _ _)). reflexivity.
Defined.

Lemma media_entries_drop_subtitles_witness :
  let h := DemoHost.host Demo.youtube_url "12" "2" in
  filter Main.is_processing (Main.main h).2
  = [Main.DownloadVideoDirect Demo.youtube_url ["--no-overwrites"] (Main.PBool true)].
Proof.
  intros h.
  destruct (media_entries_drop_subtitles h eq_refl (demo_files_local _ _ _)
              (demo_files_video _ _ _)) as [H12 _].
  rewrite (H12 eq_refl). reflexivity.
Defined.

Lemma generated_subtitles_never_arrive_witness :
  let h := DemoHost.host Demo.youtube_url "10" "2" in
  filter Main.is_processing (Main.main h).2
  = [Main.DownloadAudioDirect Demo.youtube_url None (Main.PBool true);
     Main.GenerateSubtitlesWithWhisper (Main.PList ["/srv/ytdpl/audio/clip.mp3"])
       (Main.PStr "es")].
Proof.
  intros h.
  destruct (generated_subtitles_never_arrive h eq_refl eq_refl ltac:(done) eq_refl)
    as (_ & Hcalls & _).
  rewrite Hcalls. reflexivity.
Defined.
